(** * ShelfScanner backend: recognition and recommendation pipeline

    A shallow embedding of the Python backend under [backend/app]:
    - [services/ai/google_vision_service.py]: OCR text normalisation,
    - [services/ai/openai_service.py]: parsing of the multimodal provider's
      answers,
    - [api/v1/endpoints/scan.py]: the scan endpoint with its provider
      fallback,
    - [api/v1/endpoints/recommend.py]: recommendation generation and the
      rule-based fallback list.

    Conventions.  Python [str] values are lists of characters over ASCII
    (code points 0..127, classified as Python classifies them; the character
    predicates below answer [false] on the codes 128..255, which lie outside
    the modelled alphabet).  Python [float] values are binary64 floats, with
    the operations of the kernel's primitive floats.  Python exceptions are
    values of an error type threaded through the code that can raise. *)

From Stdlib Require Import Floats.
From stdpp Require Import gmap.
From Stdlib Require Import String Ascii ZArith NArith Bool Lia List Permutation Sorted.
Import ListNotations.

(* The decimal literals 0.1, 0.2, ... of the source denote the nearest
   binary64 values, as they do in Python. *)
Set Warnings "-inexact-float,-register-all".

(** ** Python strings and the [str] methods the services call *)

Module Py.

Definition pystr : Type := list ascii.

(** A literal of the source. *)
Definition str (s : string) : pystr := list_ascii_of_string s.
Arguments str s%_string.

Definition code (c : ascii) : N := N_of_ascii c.

Definition in_range (lo hi : N) (c : ascii) : bool :=
  (lo <=? code c)%N && (code c <=? hi)%N.

(** [str.isspace] on one character: TAB..CR, FS..US and the blank. *)
Definition isspace (c : ascii) : bool := in_range 9 13 c || in_range 28 32 c.

Definition isdigit (c : ascii) : bool := in_range 48 57 c.

Definition isupper (c : ascii) : bool := in_range 65 90 c.

Definition islower (c : ascii) : bool := in_range 97 122 c.

(** The class [\w] of [re]: letters, digits and the underscore. *)
Definition isword (c : ascii) : bool :=
  isdigit c || isupper c || islower c || Ascii.eqb c "_".

Definition lower_char (c : ascii) : ascii :=
  if isupper c then ascii_of_N (code c + 32) else c.

(** [s.lower()] *)
Definition lower (s : pystr) : pystr := map lower_char s.

Fixpoint str_eqb (a b : pystr) : bool :=
  match a, b with
  | [], [] => true
  | x :: a', y :: b' => Ascii.eqb x y && str_eqb a' b'
  | _, _ => false
  end.

Fixpoint dropwhile (p : ascii -> bool) (s : pystr) : pystr :=
  match s with
  | [] => []
  | c :: t => if p c then dropwhile p t else s
  end.

Definition lstrip (s : pystr) : pystr := dropwhile isspace s.

Definition rstrip (s : pystr) : pystr := rev (dropwhile isspace (rev s)).

(** [s.strip()] *)
Definition strip (s : pystr) : pystr := rstrip (lstrip s).

(** [s.split(sep)] for a one-character separator: every occurrence cuts,
    empty pieces are kept. *)
Fixpoint split_char (sep : ascii) (s : pystr) : list pystr :=
  match s with
  | [] => [[]]
  | c :: t =>
      if Ascii.eqb c sep then [] :: split_char sep t
      else match split_char sep t with
           | [] => [[c]]
           | w :: ws => (c :: w) :: ws
           end
  end.

Definition cons_nonempty (w : pystr) (ws : list pystr) : list pystr :=
  match w with
  | [] => ws
  | _ :: _ => w :: ws
  end.

(** The word that starts at the head of [s] (empty when [s] starts with
    white space), and the words after it. *)
Fixpoint words_from (s : pystr) : pystr * list pystr :=
  match s with
  | [] => ([], [])
  | c :: t =>
      let '(w, ws) := words_from t in
      if isspace c then ([], cons_nonempty w ws) else (c :: w, ws)
  end.

(** [s.split()]: the maximal runs of characters that are not white space. *)
Definition split (s : pystr) : list pystr :=
  let '(w, ws) := words_from s in cons_nonempty w ws.

(** [sep.join(parts)] *)
Fixpoint join (sep : pystr) (parts : list pystr) : pystr :=
  match parts with
  | [] => []
  | [w] => w
  | w :: ws => w ++ sep ++ join sep ws
  end.

Fixpoint startswith (p s : pystr) : bool :=
  match p, s with
  | [], _ => true
  | x :: p', y :: s' => Ascii.eqb x y && startswith p' s'
  | _ :: _, [] => false
  end.

(** [sub in s] *)
Fixpoint contains (sub s : pystr) : bool :=
  startswith sub s ||
  match s with
  | [] => false
  | _ :: t => contains sub t
  end.

(** [s.split(sep, 1)] when [sep] occurs in [s]: the text before and the text
    after its first occurrence. *)
Fixpoint split_once (sep s : pystr) : option (pystr * pystr) :=
  if startswith sep s then Some ([], skipn (length sep) s)
  else match s with
       | [] => None
       | c :: t =>
           match split_once sep t with
           | Some (a, b) => Some (c :: a, b)
           | None => None
           end
       end.

(** [l[:n]], a negative [n] counting from the end. *)
Definition slice_to {A : Type} (n : Z) (l : list A) : list A :=
  if (n <? 0)%Z then firstn (Z.to_nat (Z.of_nat (length l) + n)) l
  else firstn (Z.to_nat n) l.

(** Truth value of a string. *)
Definition truthy (s : pystr) : bool :=
  match s with
  | [] => false
  | _ :: _ => true
  end.

(** [x in l] for a list of strings. *)
Definition str_in (x : pystr) (l : list pystr) : bool := existsb (str_eqb x) l.

End Py.

(** ** The fragment of [re] the services use *)

Module Re.

Import Py.

Inductive regex : Type :=
| Void
| Eps
| Cls (p : ascii -> bool)
| Seq (r1 r2 : regex)
| Alt (r1 r2 : regex)
| Star (r : regex).

Fixpoint nullable (r : regex) : bool :=
  match r with
  | Void => false
  | Eps => true
  | Cls _ => false
  | Seq r1 r2 => nullable r1 && nullable r2
  | Alt r1 r2 => nullable r1 || nullable r2
  | Star _ => true
  end.

(** The residual of [r] after reading [c]. *)
Fixpoint deriv (c : ascii) (r : regex) : regex :=
  match r with
  | Void => Void
  | Eps => Void
  | Cls p => if p c then Eps else Void
  | Seq r1 r2 =>
      if nullable r1 then Alt (Seq (deriv c r1) r2) (deriv c r2)
      else Seq (deriv c r1) r2
  | Alt r1 r2 => Alt (deriv c r1) (deriv c r2)
  | Star r1 => Seq (deriv c r1) (Star r1)
  end.

(** [r] matches the whole of [s]. *)
Fixpoint fullmatch (r : regex) (s : pystr) : bool :=
  match s with
  | [] => nullable r
  | c :: t => fullmatch (deriv c r) t
  end.

Definition chr (c : ascii) : regex := Cls (Ascii.eqb c).

Definition any : regex := Cls (fun _ => true).

(** A literal string. *)
Fixpoint lit (s : pystr) : regex :=
  match s with
  | [] => Eps
  | c :: t => Seq (chr c) (lit t)
  end.

(** [r+] *)
Definition plus (r : regex) : regex := Seq r (Star r).

(** [r?] *)
Definition opt (r : regex) : regex := Alt r Eps.

(** [r{n}] *)
Fixpoint times (n : nat) (r : regex) : regex :=
  match n with
  | O => Eps
  | S n' => Seq r (times n' r)
  end.

(** [r{n,n+k}] *)
Fixpoint upto (k : nat) (r : regex) : regex :=
  match k with
  | O => Eps
  | S k' => opt (Seq r (upto k' r))
  end.

Definition between (n k : nat) (r : regex) : regex := Seq (times n r) (upto k r).

(** [\d] *)
Definition digit : regex := Cls isdigit.

(** A pattern: is it anchored by [^], its body, is it anchored by [$]. *)
Record pattern : Type := Pattern {
  at_start : bool;
  body : regex;
  at_end : bool
}.

(** [re.search(p, s)] as a truth value.  An unanchored side may skip any
    text; [$] stands at the end of the text or before a newline that ends
    it. *)
Definition search (p : pattern) (s : pystr) : bool :=
  let pre := if at_start p then Eps else Star any in
  let post := if at_end p then opt (chr "010") else Star any in
  fullmatch (Seq pre (Seq (body p) post)) s.

(** The texts a regular expression denotes. *)
Inductive matches : regex -> pystr -> Prop :=
| matches_Eps : matches Eps []
| matches_Cls p c : p c = true -> matches (Cls p) [c]
| matches_Seq r1 r2 s1 s2 :
    matches r1 s1 -> matches r2 s2 -> matches (Seq r1 r2) (s1 ++ s2)
| matches_Alt_l r1 r2 s : matches r1 s -> matches (Alt r1 r2) s
| matches_Alt_r r1 r2 s : matches r2 s -> matches (Alt r1 r2) s
| matches_Star_nil r : matches (Star r) []
| matches_Star_cons r s1 s2 :
    matches r s1 -> matches (Star r) s2 -> matches (Star r) (s1 ++ s2).

(** A regular expression that matches no text: used to show that a pattern
    cannot match. *)
Inductive dead : regex -> Prop :=
| dead_Void : dead Void
| dead_Seq r1 r2 : dead r1 -> dead (Seq r1 r2)
| dead_Alt r1 r2 : dead r1 -> dead r2 -> dead (Alt r1 r2).

End Re.

(** ** Exceptions *)

Module Exc.

Import Py.

(** A Python exception other than [HTTPException]: its class and the text
    [str(e)]. *)
Record error : Type := Error {
  class : pystr;
  message : pystr
}.

(** What a piece of code that can raise evaluates to. *)
Inductive result (E A : Type) : Type :=
| Ok (a : A)
| Raise (e : E).
Arguments Ok {E A} a.
Arguments Raise {E A} e.

Definition bind {E A B : Type} (m : result E A) (k : A -> result E B) : result E B :=
  match m with
  | Ok a => k a
  | Raise e => Raise e
  end.

(** What reaches the handlers of an endpoint: FastAPI's [HTTPException], or
    any other exception. *)
Inductive raised : Type :=
| HTTPException (status_code : Z) (detail : pystr)
| Other (e : error).

(** Evaluate [m], whose exceptions are never [HTTPException]s, inside an
    endpoint. *)
Definition lift {A : Type} (m : result error A) : result raised A :=
  match m with
  | Ok a => Ok a
  | Raise e => Raise (Other e)
  end.

(** Apply [f] to each element in turn, stopping at the first exception. *)
Fixpoint traverse {E A B : Type} (f : A -> result E B) (l : list A) : result E (list B) :=
  match l with
  | [] => Ok []
  | x :: l' => bind (f x) (fun y => bind (traverse f l') (fun ys => Ok (y :: ys)))
  end.

End Exc.

Notation "m >>= k" := (Exc.bind m k) (at level 50, left associativity).

(** ** [core/config.py]: the settings the services and endpoints read *)

Module Config.

Import Py.

Record Settings : Type := {
  OPENAI_API_KEY : option pystr;
  GOOGLE_CLOUD_PROJECT : option pystr;
  ALLOWED_IMAGE_TYPES : list pystr;
  MAX_FILE_SIZE : Z;
  (* the text of [MAX_FILE_SIZE / (1024*1024)] *)
  MAX_FILE_SIZE_MB : pystr
}.

(** Truth value of an [Optional[str]] setting: [None] and the empty string
    count as not set. *)
Definition is_set (v : option pystr) : bool :=
  match v with
  | Some s => truthy s
  | None => false
  end.

End Config.

(** ** Values decoded by [json.loads] *)

Module Json.

Import Py.

Inductive json : Type :=
| JNull
| JBool (b : bool)
| JInt (n : Z)
| JFloat (f : float)
| JStr (s : pystr)
| JList (l : list json)
| JDict (d : list (pystr * json)).

(** Truth value, as [if v] takes it. *)
Definition truthy (v : json) : bool :=
  match v with
  | JNull => false
  | JBool b => b
  | JInt n => negb (n =? 0)%Z
  | JFloat f => negb (f =? 0)%float
  | JStr s => Py.truthy s
  | JList l => match l with [] => false | _ => true end
  | JDict d => match d with [] => false | _ => true end
  end.

(** Look a key up in the items of a dictionary. *)
Fixpoint lookup (key : pystr) (d : list (pystr * json)) : option json :=
  match d with
  | [] => None
  | (k, v) :: d' => if str_eqb k key then Some v else lookup key d'
  end.

(** [d.get(key, default)] *)
Definition get (d : list (pystr * json)) (key : pystr) (default : json) : json :=
  match lookup key d with
  | Some v => v
  | None => default
  end.

(** What [json.loads(content)] makes of a text: a [JSONDecodeError], or the
    value decoded. *)
Inductive loaded : Type :=
| JSONDecodeError
| Value (v : json).

End Json.

(** ** The candidate shape both providers return

    The dictionaries [{'title', 'author', 'confidence', 'position'}] built by
    [OpenAIVisionService.identify_books] and by
    [GoogleVisionService._extract_books_from_text]. *)

Module Provider.

Import Py.

Record candidate : Type := Candidate {
  title : pystr;
  author : option pystr;
  confidence : float;
  position : option pystr
}.

(** [books.sort(key=lambda x: x['confidence'], reverse=True)]: a stable sort,
    largest confidence first; candidates of equal confidence keep their
    order. *)
Fixpoint insert_desc (x : candidate) (l : list candidate) : list candidate :=
  match l with
  | [] => [x]
  | y :: l' =>
      if (confidence x <? confidence y)%float then y :: insert_desc x l'
      else x :: y :: l'
  end.

Definition sort_desc (l : list candidate) : list candidate :=
  fold_right insert_desc [] l.

End Provider.

(** ** [services/ai/google_vision_service.py] *)

Module GoogleVision.

Import Py Re Exc Config Provider.

(** [metadata_patterns] of [_is_likely_metadata], in the order of the
    source. *)
Definition metadata_patterns : list pattern :=
  [ Pattern true (plus digit) true;                                  (* ^\d+$ *)
    Pattern false (lit (str "isbn")) false;                          (* isbn *)
    Pattern true (Seq (chr "$") (plus digit)) false;                 (* ^\$\d+ *)
    Pattern true (times 4 digit) true;                               (* ^\d{4}$ *)
    Pattern true (Seq (between 2 2 (Cls (in_range 65 90))) (plus digit)) false;
                                                                     (* ^[A-Z]{2,4}\d+ *)
    Pattern false (lit (str "barcode")) false;                       (* barcode *)
    Pattern false (lit (str "copyright")) false;                     (* copyright *)
    Pattern false (lit (str "edition")) false;                       (* edition *)
    Pattern false (lit (str "published")) false;                     (* published *)
    Pattern false (Seq (lit (str "page")) (opt (chr "s"))) false     (* pages? *)
  ].

(** The keywords, as the patterns spell them. *)
Definition is_keyword (k : pystr) : Prop :=
  In k (map str ["isbn"; "barcode"; "copyright"; "edition"; "published"; "page"]%string).

Definition _is_likely_metadata (text : pystr) : bool :=
  let text_lower := lower text in
  existsb (fun p => search p text_lower) metadata_patterns.

(** The characters the substitution of [_clean_title] leaves in place:
    those of [\w] and [\s], and the punctuation marks of its character
    class: hyphen, colon, full stop, comma, both quotes (code 034 is the
    double quote) and the round brackets.  Every other character becomes a
    blank. *)
Definition kept_char (c : ascii) : bool :=
  isword c || isspace c ||
  existsb (Ascii.eqb c) ["-"; ":"; "."; ","; "'"; "034"; "("; ")"]%char.

Definition noise_words : list pystr :=
  map str ["the"; "a"; "an"; "and"; "or"; "but"; "of"; "in"; "on"; "at"; "to"; "for"]%string.

Definition _clean_title (text : pystr) : pystr :=
  let cleaned := map (fun c => if kept_char c then c else " "%char) text in
  let cleaned := join (str " ") (split cleaned) in
  let words := split cleaned in
  let words :=
    if (2 <? length words)%nat
    then filter (fun w => negb (str_in (lower w) noise_words) || (3 <? length w)%nat) words
    else words in
  join (str " ") words.

(** The fourth separator of the source is written with three characters
    outside ASCII; it is kept here as the bytes of its UTF-8 form. *)
Definition separators : list pystr :=
  [ str " by "; str " BY "; str " - ";
    " "%char :: map ascii_of_nat [195; 162; 226; 130; 172; 226; 128; 156]%nat ++ [" "%char];
    str " | " ].

Fixpoint separate_at (seps : list pystr) (text : pystr) : pystr * option pystr :=
  match seps with
  | [] => (strip text, None)
  | sep :: seps' =>
      if contains sep text then
        match split_once sep text with
        | Some (before, after) => (strip before, Some (strip after))
        | None => (strip text, None)
        end
      else separate_at seps' text
  end.

Definition _separate_title_author (text : pystr) : pystr * option pystr :=
  separate_at separators text.

(** [max(0.1, min(1.0, confidence))], with the comparisons [min] and [max]
    make on their two arguments. *)
Definition clamp (c : float) : float :=
  let m := if (c <? 1.0)%float then c else 1.0%float in
  if (0.1 <? m)%float then m else 0.1%float.

(** The six tests of [_estimate_confidence]. *)
Record signals : Type := Signals {
  long_enough : bool;      (* len(text) > 5 *)
  multi_word : bool;       (* len(text.split()) > 1 *)
  first_upper : bool;      (* text[0].isupper() *)
  title_case : bool;       (* any(word[0].isupper() for word in text.split()[1:]) *)
  long_number : bool;      (* re.search(r'\d{3,}', text) *)
  very_long : bool         (* len(text) > 100 *)
}.

(** The arithmetic of [_estimate_confidence]: 0.1 is the binary64 value
    nearest to one tenth, 0.2 the one nearest to one fifth. *)
Definition score (s : signals) : float :=
  let confidence := 0.5%float in
  let confidence := if long_enough s then (confidence + 0.1)%float else confidence in
  let confidence := if multi_word s then (confidence + 0.1)%float else confidence in
  let confidence := if first_upper s then (confidence + 0.1)%float else confidence in
  let confidence := if title_case s then (confidence + 0.1)%float else confidence in
  let confidence := if long_number s then (confidence - 0.2)%float else confidence in
  let confidence := if very_long s then (confidence - 0.2)%float else confidence in
  clamp confidence.

Definition starts_upper (w : pystr) : bool :=
  match w with
  | [] => false
  | c :: _ => isupper c
  end.

(** [_estimate_confidence(text)]; [None] is the [IndexError] of [text[0]] on
    the empty string. *)
Definition _estimate_confidence (text : pystr) : option float :=
  match text with
  | [] => None
  | c :: _ =>
      Some (score {|
        long_enough := (5 <? length text)%nat;
        multi_word := (1 <? length (split text))%nat;
        first_upper := isupper c;
        title_case := existsb starts_upper (tl (split text));
        long_number := search (Pattern false (Seq (times 3 digit) (Star digit)) false) text;
        very_long := (100 <? length text)%nat |})
  end.

(** One pass of the loop of [_extract_books_from_text] over the remaining
    lines, from the candidates and the set of lower-cased titles gathered so
    far.  [None] is an exception raised by [_estimate_confidence]. *)
Fixpoint extract_loop (max_books : Z) (lines : list pystr)
    (books : list candidate) (processed_titles : gset pystr) : option (list candidate) :=
  match lines with
  | [] => Some books
  | line :: rest =>
      if (length line <? 3)%nat then extract_loop max_books rest books processed_titles
      else if _is_likely_metadata line then extract_loop max_books rest books processed_titles
      else
        let cleaned_title := _clean_title line in
        if truthy cleaned_title && negb (bool_decide (lower cleaned_title ∈ processed_titles)) then
          let '(title, author) := _separate_title_author cleaned_title in
          match _estimate_confidence cleaned_title with
          | None => None
          | Some confidence =>
              let books := books ++ [Candidate title author confidence None] in
              let processed_titles := {[ lower cleaned_title ]} ∪ processed_titles in
              if (max_books <=? Z.of_nat (length books))%Z then Some books
              else extract_loop max_books rest books processed_titles
          end
        else extract_loop max_books rest books processed_titles
  end.

(** [_extract_books_from_text(texts, max_books)]; [texts] holds the ['text']
    of each detected block, the whole text first. *)
Definition _extract_books_from_text (texts : list pystr) (max_books : Z)
    : option (list candidate) :=
  match texts with
  | [] => Some []
  | full_text :: _ =>
      let lines :=
        filter truthy (map strip (split_char "010" full_text)) in
      match extract_loop max_books lines [] ∅ with
      | None => None
      | Some books => Some (slice_to max_books (sort_desc books))
      end
  end.

(** The candidate the loop builds from a cleaned title. *)
Definition built_from (cleaned : pystr) (b : candidate) : Prop :=
  title b = fst (_separate_title_author cleaned) /\
  author b = snd (_separate_title_author cleaned) /\
  _estimate_confidence cleaned = Some (confidence b) /\
  position b = None.

(** A cleaned title the loop accepts: what [_clean_title] makes of a line,
    and not empty. *)
Definition accepted (cleaned : pystr) : Prop :=
  cleaned <> [] /\ exists line, cleaned = _clean_title line.

(** [GoogleVisionService()]: [available] says whether the import of
    [google.cloud.vision] succeeded, [client] is what
    [vision.ImageAnnotatorClient()] does. *)
Definition __init__ (available : bool) (settings : Settings)
    (client : result error unit) : result error unit :=
  if negb available then
    Raise (Error (str "ImportError") (str "google-cloud-vision package not installed"))
  else if negb (is_set (GOOGLE_CLOUD_PROJECT settings)) then
    Raise (Error (str "ValueError") (str "Google Cloud project not configured"))
  else client.

(** [identify_books(image_path, max_books)], from what [_detect_text]
    gave. *)
Definition identify_books (detected : result error (list pystr)) (max_books : Z)
    : result error (list candidate) :=
  match detected with
  | Raise e => Raise e                              (* except Exception: raise *)
  | Ok texts =>
      match _extract_books_from_text texts max_books with
      | Some books => Ok books
      | None => Raise (Error (str "IndexError") (str "string index out of range"))
      end
  end.

(** Every outcome of the six tests. *)
Definition all_signals : list signals :=
  let bs := [true; false] in
  flat_map (fun a => flat_map (fun b => flat_map (fun c => flat_map (fun d =>
    flat_map (fun e => map (fun f => Signals a b c d e f) bs) bs) bs) bs) bs) bs.

(** [b] may follow [a] in a list sorted by confidence, largest first. *)
Definition may_follow (a b : candidate) : Prop :=
  (confidence b <=? confidence a)%float = true.

(** A candidate whose confidence is a value of [score]. *)
Definition scored (b : candidate) : Prop := exists s, confidence b = score s.

(** The substitution of [_clean_title] on one character. *)
Definition blank_out (c : ascii) : ascii := if kept_char c then c else " "%char.

(** The words [_clean_title] drops from a title of more than two words. *)
Definition keeps_word (w : pystr) : bool :=
  negb (str_in (lower w) noise_words) || (3 <? length w)%nat.

(** A separator: a blank, something, a blank. *)
Definition spaced (sep : pystr) : Prop :=
  exists m, sep = " "%char :: m ++ [" "%char].

(** The lines the loop of [_extract_books_from_text] goes through:
    [[line.strip() for line in full_text.split('\n') if line.strip()]]. *)
Definition lines_of (texts : list pystr) : list pystr :=
  match texts with
  | [] => []
  | full_text :: _ => filter truthy (map strip (split_char "010" full_text))
  end.

(** A line the loop cleans and whose cleaned form it tests against
    [processed_titles]: it is long enough, is not taken for metadata, and
    its cleaned form is not empty. *)
Definition reaches_test (line : pystr) : bool :=
  negb (length line <? 3)%nat && negb (_is_likely_metadata line) &&
  truthy (_clean_title line).

(** The cleaned forms the loop tests, in the order of the lines. *)
Definition cleaned_lines (texts : list pystr) : list pystr :=
  map _clean_title (filter reaches_test (lines_of texts)).

(** Deduplication up to letter case against the texts already accepted:
    of the texts [cleaned], in order, those whose lower-cased form is not in
    [seen] and is not the lower-cased form of an earlier one. *)
Fixpoint first_occurrences (seen : gset pystr) (cleaned : list pystr) : list pystr :=
  match cleaned with
  | [] => []
  | c :: rest =>
      if bool_decide (lower c ∈ seen) then first_occurrences seen rest
      else c :: first_occurrences ({[ lower c ]} ∪ seen) rest
  end.

(** A detected text of two lines that differ after the separator. *)
Definition two_editions : pystr :=
  str "Dune by Frank Herbert" ++ ["010"%char] ++ str "Dune by F. Herbert".

(** The detected text ["1984\nby George Orwell\nISBN 978-0-452-28423-4\nCopyright 1949"]. *)
Definition orwell_text : pystr :=
  str "1984" ++ ["010"%char] ++ str "by George Orwell" ++ ["010"%char]
  ++ str "ISBN 978-0-452-28423-4" ++ ["010"%char] ++ str "Copyright 1949".

End GoogleVision.

(** ** [services/ai/openai_service.py] *)

Module OpenAI.

Import Py Exc Config Json Provider.

(** What happens up to [json.loads(content)]: an exception (the image cannot
    be read, the API call fails, ...), or a reply whose content is handed to
    [json.loads]. *)
Inductive reply : Type :=
| Failed (e : error)
| Reply (content : loaded).

(** [OpenAIVisionService()] *)
Definition __init__ (settings : Settings) : result error unit :=
  if negb (is_set (OPENAI_API_KEY settings)) then
    Raise (Error (str "ValueError") (str "OpenAI API key not configured"))
  else Ok tt.

Section Builtins.

(** The builtins [str] and [float] on a decoded value; [float] can raise. *)
Variable str_of : json -> pystr.
Variable float_of : json -> result error float.

(** The body of the validation loop of [identify_books] for one element of
    the decoded list: [None] when the element is skipped. *)
Definition validate_book (book : json) : result error (option candidate) :=
  match book with
  | JDict d =>
      match lookup (str "title") d with
      | Some t =>
          let title := strip (str_of t) in
          let author :=
            if truthy (get d (str "author") JNull)
            then Some (strip (str_of (get d (str "author") (JStr [])))) else None in
          float_of (get d (str "confidence") (JFloat 0.5)) >>= fun confidence =>
          let position :=
            if truthy (get d (str "position") JNull)
            then Some (strip (str_of (get d (str "position") (JStr [])))) else None in
          (* Skip empty titles *)
          if Py.truthy title then Ok (Some (Candidate title author confidence position))
          else Ok None
      | None => Ok None
      end
  | _ => Ok None
  end.

Fixpoint validate_books (books : list json) : result error (list candidate) :=
  match books with
  | [] => Ok []
  | book :: rest =>
      validate_book book >>= fun v =>
      validate_books rest >>= fun vs =>
      Ok (match v with Some c => c :: vs | None => vs end)
  end.

(** [identify_books(image_path, max_books)], from what the API call and
    [json.loads] gave. *)
Definition identify_books (r : reply) (max_books : Z) : result error (list candidate) :=
  match r with
  | Failed e => Raise e                           (* except Exception: raise *)
  | Reply JSONDecodeError => Ok []                (* except json.JSONDecodeError: return [] *)
  | Reply (Value books) =>
      match books with
      | JList l => validate_books (slice_to max_books l)
      | _ => Ok []                                (* not isinstance(books, list): return [] *)
      end
  end.

(** An element of the decoded list on whose confidence [float] raises. *)
Definition bad_confidence (book : json) : Prop :=
  exists d e,
    book = JDict d /\ lookup (str "title") d <> None /\
    float_of (get d (str "confidence") (JFloat 0.5)) = Raise e.

End Builtins.

(** A candidate as the validation loop leaves it: the title is not empty,
    and title, author and position carry no white space at either end. *)
Definition validated (c : candidate) : Prop :=
  title c <> [] /\ strip (title c) = title c /\
  (forall a, author c = Some a -> strip a = a) /\
  (forall p, position c = Some p -> strip p = p).

(** Does the content decode to a list. *)
Definition parses_as_list (content : loaded) : bool :=
  match content with
  | Value (JList _) => true
  | _ => false
  end.

(** [str] and [float] on the values a reply in the requested format holds:
    texts for [str], floats for [float].  Examples below use them; the
    texts of other values are left empty. *)
Definition str_of_text (v : json) : pystr :=
  match v with
  | JStr s => s
  | JNull => str "None"
  | JBool true => str "True"
  | JBool false => str "False"
  | _ => []
  end.

Definition float_of_number (v : json) : result error float :=
  match v with
  | JFloat f => Ok f
  | _ => Raise (Error (str "TypeError") (str "float() argument must be a string or a real number"))
  end.

(** [recommendations[:max_recommendations]] on a decoded value: lists and
    strings can be sliced, anything else raises. *)
Definition slice_value (v : json) (n : Z) : result error json :=
  match v with
  | JList l => Ok (JList (slice_to n l))
  | JStr s => Ok (JStr (slice_to n s))
  | JDict _ => Raise (Error (str "TypeError") (str "unhashable type: 'slice'"))
  | _ => Raise (Error (str "TypeError") (str "object is not subscriptable"))
  end.

(** [get_book_recommendations(user_preferences, recognized_books,
    max_recommendations)], from what the API call and [json.loads] gave. *)
Definition get_book_recommendations (r : reply) (max_recommendations : Z)
    : result error json :=
  match r with
  | Failed e => Raise e                           (* except Exception: raise *)
  | Reply JSONDecodeError => Ok (JList [])        (* except json.JSONDecodeError: return [] *)
  | Reply (Value recommendations) => slice_value recommendations max_recommendations
  end.

End OpenAI.

(** ** [api/v1/endpoints/scan.py] *)

Module Scan.

Import Py Exc Config Provider.

(** The uploaded file, as [validate_image] reads it. *)
Record UploadFile : Type := {
  content_type : pystr;
  size : Z
}.

Definition validate_image (settings : Settings) (file : UploadFile) : bool :=
  if negb (str_in (content_type file) (ALLOWED_IMAGE_TYPES settings)) then false
  else if (MAX_FILE_SIZE settings <? size file)%Z then false
  else true.

Record UserSession : Type := {
  is_expired : bool
}.

(** [schemas.book.RecognizedBook], once validated. *)
Record RecognizedBook : Type := {
  rb_title : pystr;
  rb_author : option pystr;
  rb_confidence : float;
  rb_position : option pystr
}.

(** [schemas.book.ShelfScanResponse]; [processing_time], a reading of the
    clock, is left out. *)
Record ShelfScanResponse : Type := {
  scan_id : pystr;
  recognized_books : list RecognizedBook;
  total_books_found : nat;
  api_used : pystr;
  success : bool;
  error_message : option pystr
}.

(** The form fields of a request. *)
Record request : Type := {
  use_fallback : bool;
  max_books : Z;
  image : UploadFile
}.

(** What the endpoint meets outside itself while it serves one request. *)
Record world : Type := {
  settings : Settings;
  (* did [from google.cloud import vision] succeed *)
  GOOGLE_VISION_AVAILABLE : bool;
  (* [vision.ImageAnnotatorClient()] *)
  vision_client : result error unit;
  (* [uuid.uuid4()] as text *)
  new_scan_id : pystr;
  (* the session query and its [scalar_one_or_none()] *)
  session_query : result error (option UserSession);
  (* [save_uploaded_image(image, scan_id)] *)
  saved_image : result error pystr;
  (* [await openai_service.identify_books(image_path, max_books)] *)
  primary : result error (list candidate);
  (* [await google_service.identify_books(image_path, max_books)] *)
  secondary : result error (list candidate)
}.

Section Endpoint.

(** The validation [RecognizedBook(...)] makes of its arguments: [None] when
    they are accepted, the text of the [ValidationError] otherwise. *)
Variable rejects : candidate -> option pystr.

Definition new_RecognizedBook (book : candidate) : result error RecognizedBook :=
  match rejects book with
  | Some msg => Raise (Error (str "ValidationError") msg)
  | None =>
      Ok {| rb_title := title book; rb_author := author book;
            rb_confidence := confidence book; rb_position := position book |}
  end.

(** The body of one [try] block: the provider's answer turned into
    [RecognizedBook]s. *)
Definition attempt (answer : result error (list candidate))
    : result error (list RecognizedBook) :=
  answer >>= traverse new_RecognizedBook.

(** The local variables of [scan_shelf] that the provider attempts set. *)
Record progress : Type := {
  p_recognized_books : list RecognizedBook;
  p_api_used : pystr;
  p_error_message : option pystr;
  p_success : bool
}.

(** [error_message or default] *)
Definition or_default (m : option pystr) (default : pystr) : pystr :=
  match m with
  | Some s => if truthy s then s else default
  | None => default
  end.

(** The inner [try] block, before its handlers; [google_service] is [None]
    when the caller disabled the fallback. *)
Definition try_providers (w : world) (rq : request) (google_service : option unit)
    : result raised progress :=
  let start :=
    {| p_recognized_books := []; p_api_used := str "none";
       p_error_message := None; p_success := false |} in
  (* Try OpenAI first *)
  (if is_set (OPENAI_API_KEY (settings w)) then
     match attempt (primary w) with
     | Ok books =>
         Ok {| p_recognized_books := books; p_api_used := str "openai";
               p_error_message := None; p_success := true |}
     | Raise e =>
         if negb (use_fallback rq) then Raise (Other e)
         else Ok {| p_recognized_books := []; p_api_used := str "none";
                    p_error_message := Some (str "OpenAI failed: " ++ message e);
                    p_success := false |}
     end
   else Ok start) >>= fun after_primary =>
  (* Try Google Vision as fallback *)
  let after_secondary :=
    if negb (p_success after_primary) && use_fallback rq
       && (match google_service with Some _ => true | None => false end)
       && is_set (GOOGLE_CLOUD_PROJECT (settings w)) then
      match attempt (secondary w) with
      | Ok books =>
          {| p_recognized_books := books; p_api_used := str "google";
             p_error_message := p_error_message after_primary; p_success := true |}
      | Raise e =>
          {| p_recognized_books := p_recognized_books after_primary;
             p_api_used := p_api_used after_primary;
             p_error_message := Some (str "Google Vision also failed: " ++ message e);
             p_success := false |}
      end
    else after_primary in
  if negb (p_success after_secondary) then
    Raise (HTTPException 500
             (or_default (p_error_message after_secondary) (str "Both AI services failed")))
  else Ok after_secondary.

(** The handlers of the inner [try]. *)
Definition inner_handlers (m : result raised progress) : result raised progress :=
  match m with
  | Ok p => Ok p
  | Raise (HTTPException status_code detail) => Raise (HTTPException status_code detail)
  | Raise (Other e) =>
      Raise (HTTPException 500 (str "AI processing failed: " ++ message e))
  end.

(** The outer [try] block, before its handlers. *)
Definition scan_body (w : world) (rq : request) : result raised ShelfScanResponse :=
  (* Validate session *)
  lift (session_query w) >>= fun session =>
  match session with
  | None => Raise (HTTPException 404 (str "Session not found"))
  | Some session =>
      if is_expired session then Raise (HTTPException 401 (str "Session expired"))
      (* Validate image *)
      else if negb (validate_image (settings w) (image rq)) then
        Raise (HTTPException 400
                 (str "Invalid image. Must be "
                  ++ join (str ", ") (ALLOWED_IMAGE_TYPES (settings w))
                  ++ str " and under " ++ MAX_FILE_SIZE_MB (settings w) ++ str "MB"))
      else
        (* Save image *)
        lift (saved_image w) >>= fun image_path =>
        (* Initialize AI services *)
        lift (OpenAI.__init__ (settings w)) >>= fun openai_service =>
        (if use_fallback rq
         then lift (GoogleVision.__init__ (GOOGLE_VISION_AVAILABLE w) (settings w)
                      (vision_client w)) >>= fun s => Ok (Some s)
         else Ok None) >>= fun google_service =>
        inner_handlers (try_providers w rq google_service) >>= fun p =>
        Ok {| scan_id := new_scan_id w;
              recognized_books := p_recognized_books p;
              total_books_found := length (p_recognized_books p);
              api_used := p_api_used p;
              success := p_success p;
              error_message := if negb (p_success p) then p_error_message p else None |}
  end.

(** What the caller of the endpoint sees. *)
Inductive outcome : Type :=
| Return (response : ShelfScanResponse)
| Raises (status_code : Z) (detail : pystr).

(** [scan_shelf]: the body under the handlers of the outer [try]. *)
Definition scan_shelf (w : world) (rq : request) : outcome :=
  match scan_body w rq with
  | Ok response => Return response
  | Raise (HTTPException status_code detail) => Raises status_code detail
  | Raise (Other e) =>
      Return {| scan_id := new_scan_id w;
                recognized_books := [];
                total_books_found := 0;
                api_used := str "none";
                success := false;
                error_message := Some (str "Scan failed: " ++ message e) |}
  end.

End Endpoint.

(** The checks the declared field types of [RecognizedBook] make:
    [confidence] has [ge=0, le=1], and [position] is declared a dictionary,
    so a text is refused. *)
Definition declared_checks (book : candidate) : option pystr :=
  if negb ((0 <=? confidence book)%float && (confidence book <=? 1)%float) then
    Some (str "1 validation error for RecognizedBook: confidence")
  else match position book with
       | Some _ => Some (str "1 validation error for RecognizedBook: position")
       | None => None
       end.

(** *** Sample requests *)

Definition sample_settings (key project : option pystr) : Settings :=
  {| OPENAI_API_KEY := key;
     GOOGLE_CLOUD_PROJECT := project;
     ALLOWED_IMAGE_TYPES := [str "image/jpeg"; str "image/png"; str "image/webp"];
     MAX_FILE_SIZE := 10 * 1024 * 1024;
     MAX_FILE_SIZE_MB := str "10.0" |}.

Definition sample_request (fallback : bool) : request :=
  {| use_fallback := fallback;
     max_books := 20;
     image := {| content_type := str "image/jpeg"; size := 204800 |} |}.

(** A valid session and a readable image, the given settings and the given
    answers of the two providers. *)
Definition sample_world (key project : option pystr)
    (primary_answer secondary_answer : result error (list candidate)) : world :=
  {| settings := sample_settings key project;
     GOOGLE_VISION_AVAILABLE := true;
     vision_client := Ok tt;
     new_scan_id := str "0b9d6f0e-scan";
     session_query := Ok (Some {| is_expired := false |});
     saved_image := Ok (str "uploads/0b9d6f0e-scan/shelf_image.jpg");
     primary := primary_answer;
     secondary := secondary_answer |}.

(** The sample world, but the image cannot be written. *)
Definition full_disk_world : world :=
  {| settings := sample_settings (Some (str "sk-test")) (Some (str "shelf-project"));
     GOOGLE_VISION_AVAILABLE := true;
     vision_client := Ok tt;
     new_scan_id := str "0b9d6f0e-scan";
     session_query := Ok (Some {| is_expired := false |});
     saved_image := Raise (Error (str "OSError") (str "No space left on device"));
     primary := Ok [];
     secondary := Ok [] |}.

(** The response the outer handler builds from an exception. *)
Definition failure_response (w : world) (e : error) : ShelfScanResponse :=
  {| scan_id := new_scan_id w;
     recognized_books := [];
     total_books_found := 0;
     api_used := str "none";
     success := false;
     error_message := Some (str "Scan failed: " ++ message e) |}.

(** *** Where the image is saved *)

(** [s.endswith(p)] *)
Definition endswith (p s : pystr) : bool := startswith (rev p) (rev s).

(** [os.path.join(a, b)] on POSIX paths. *)
Definition path_join (a b : pystr) : pystr :=
  if startswith (str "/") b then b
  else if negb (truthy a) || endswith (str "/") a then a ++ b
  else a ++ str "/" ++ b.

(** [file_extension] of [save_uploaded_image], from [file.filename]. *)
Definition file_extension (filename : pystr) : pystr :=
  if contains (str ".") filename then last (split_char "." filename) []
  else str "jpg".

(** The path [save_uploaded_image(file, scan_id)] opens for writing and
    returns; [upload_path] is [settings.UPLOAD_PATH]. *)
Definition save_path (upload_path scan_id filename : pystr) : pystr :=
  let scan_dir := path_join upload_path scan_id in
  let filename := str "shelf_image." ++ file_extension filename in
  path_join scan_dir filename.

End Scan.

(** ** [api/v1/endpoints/recommend.py] *)

Module Recommend.

Import Py Exc Config Json.

(** *** The rule-based fallback list *)

(** One dictionary of [fallback_books]. *)
Record entry : Type := Entry {
  title : pystr;
  author : pystr;
  reason : pystr;
  appeal_score : float;
  genre : pystr;
  publication_year : Z
}.

Definition fallback_books : list entry :=
  [ Entry (str "The Seven Husbands of Evelyn Hugo") (str "Taylor Jenkins Reid")
      (str "Popular contemporary fiction with compelling characters")
      0.8 (str "Contemporary Fiction") 2017;
    Entry (str "Educated") (str "Tara Westover")
      (str "Critically acclaimed memoir about education and family")
      0.9 (str "Memoir") 2018;
    Entry (str "The Midnight Library") (str "Matt Haig")
      (str "Thought-provoking fiction about life choices")
      0.75 (str "Literary Fiction") 2020;
    Entry (str "Atomic Habits") (str "James Clear")
      (str "Popular self-improvement book about building good habits")
      0.85 (str "Self-Help") 2018;
    Entry (str "The Song of Achilles") (str "Madeline Miller")
      (str "Beautifully written retelling of Greek mythology")
      0.8 (str "Historical Fiction") 2011 ].

(** The list the source falls back on when the genre filter keeps
    nothing. *)
Definition no_match_books : list entry :=
  [ Entry (str "The Seven Husbands of Evelyn Hugo") (str "Taylor Jenkins Reid")
      (str "Popular contemporary fiction")
      0.8 (str "Contemporary Fiction") 2017 ].

(** The key of [UserPreference.to_dict()] that the endpoint's own code
    reads. *)
Record preferences : Type := {
  favorite_genres : list pystr
}.

(** Does a seed entry match one of the user's genres:
    [any(genre in book["genre"].lower() for genre in user_genres)]. *)
Definition genre_matches (user_genres : list pystr) (book : entry) : bool :=
  existsb (fun g => contains g (lower (genre book))) user_genres.

Definition _get_fallback_recommendations (prefs : preferences) (max_recommendations : Z)
    : list entry :=
  (* Filter based on user preferences if available *)
  let books :=
    match favorite_genres prefs with
    | [] => fallback_books
    | _ :: _ =>
        let user_genres := map lower (favorite_genres prefs) in
        filter (genre_matches user_genres) fallback_books
    end in
  (* If no matches with user preferences, return the original list *)
  let books :=
    match books with
    | [] => no_match_books
    | _ :: _ => books
    end in
  slice_to max_recommendations books.

(** An entry as the dictionary the endpoint reads. *)
Definition as_dict (b : entry) : json :=
  JDict [ (str "title", JStr (title b));
          (str "author", JStr (author b));
          (str "reason", JStr (reason b));
          (str "appeal_score", JFloat (appeal_score b));
          (str "genre", JStr (genre b));
          (str "publication_year", JInt (publication_year b)) ].

(** *** Identifiers *)

(** A UUID is a number below 2^128. *)
Definition uuid : Type := N.

Definition hex_digit (n : N) : ascii :=
  nth (N.to_nat (n mod 16)) (str "0123456789abcdef") "0"%char.

(** The last [k] hexadecimal digits of [n]. *)
Fixpoint hex (k : nat) (n : N) : pystr :=
  match k with
  | O => []
  | S k' => hex k' (n / 16) ++ [hex_digit n]
  end.

(** [str(u)] for a UUID: 32 hexadecimal digits in groups of 8, 4, 4, 4 and
    12. *)
Definition uuid_str (u : uuid) : pystr :=
  let h := hex 32 u in
  firstn 8 h ++ str "-" ++ firstn 4 (skipn 8 h) ++ str "-" ++ firstn 4 (skipn 12 h)
  ++ str "-" ++ firstn 4 (skipn 16 h) ++ str "-" ++ skipn 20 h.

(** [str(x)] for an identifier attribute that may still be [None]. *)
Definition id_str (x : option uuid) : pystr :=
  match x with
  | Some u => uuid_str u
  | None => str "None"
  end.

(** *** Rows and the session *)

(** [models.book.Book], the columns the endpoint sets. *)
Record Book : Type := {
  book_id : uuid;
  book_title : pystr;
  book_author : json;
  book_genre : json;
  book_publication_year : json;
  book_source : pystr;
  book_confidence_score : json
}.

(** [models.book.BookRecommendation].  [id], [is_saved] and [created_at] get
    their values from column defaults when the row is flushed; until then
    the attributes are [None]. *)
Record BookRecommendation : Type := {
  id : option uuid;
  rec_session_id : uuid;
  rec_book_id : uuid;
  rec_reason : json;
  score : json;
  source_books : list json;
  rec_shelf_scan_id : option pystr;
  recommendation_type : pystr;
  is_saved : option bool;
  created_at : option Z
}.

(** The database session: the book rows, the recommendation rows it holds
    (flushed or pending, oldest first), and how many UUIDs were drawn. *)
Record db : Type := {
  books : list Book;
  recommendations : list BookRecommendation;
  drawn : nat
}.

(** [schemas.book.BookRecommendationResponse], with the arguments the
    endpoint passes: [created_at] is a time or the text ["pending"]. *)
Record BookRecommendationResponse : Type := {
  resp_id : pystr;
  resp_book : Book;
  resp_reason : json;
  resp_score : json;
  resp_source_books : list json;
  resp_recommendation_type : pystr;
  resp_is_saved : option bool;
  resp_created_at : Z + pystr
}.

Record UserSession : Type := {
  session_pk : uuid;
  is_expired : bool
}.

Record request : Type := {
  shelf_scan_id : option pystr;
  max_recommendations : Z
}.

(** What the endpoint meets outside itself while it serves one request.
    The two queries made before the loop can raise; the statements made
    after them (the book query, the flush and the commit) are taken to be
    executed by the database, so that what raises there is what the code
    itself raises. *)
Record world : Type := {
  settings : Settings;
  (* the session query and its [scalar_one_or_none()] *)
  session_query : result error (option UserSession);
  (* the preferences query, [scalar_one_or_none()] and [to_dict()] *)
  preferences_query : result error (option preferences);
  (* what the chat completion call and [json.loads] give *)
  generator : OpenAI.reply;
  (* the values [uuid.uuid4] returns, in the order drawn *)
  uuid4 : nat -> uuid;
  (* the time the database stamps rows with *)
  now : Z;
  (* the rows the database holds when the request arrives *)
  stored : db
}.

(** A row gets its column defaults. *)
Definition flush_row (w : world) (r : BookRecommendation) (n : nat)
    : BookRecommendation * nat :=
  match id r with
  | Some _ => (r, n)
  | None =>
      ({| id := Some (uuid4 w n);
          rec_session_id := rec_session_id r;
          rec_book_id := rec_book_id r;
          rec_reason := rec_reason r;
          score := score r;
          source_books := source_books r;
          rec_shelf_scan_id := rec_shelf_scan_id r;
          recommendation_type := recommendation_type r;
          is_saved := Some (match is_saved r with Some b => b | None => false end);
          created_at := Some (match created_at r with Some t => t | None => now w end) |},
       S n)
  end.

Fixpoint flush_rows (w : world) (rows : list BookRecommendation) (n : nat)
    : list BookRecommendation * nat :=
  match rows with
  | [] => ([], n)
  | r :: rows' =>
      let '(r', n') := flush_row w r n in
      let '(rows'', n'') := flush_rows w rows' n' in
      (r' :: rows'', n'')
  end.

(** [await db.flush()]: every pending row is written. *)
Definition flush (w : world) (s : db) : db :=
  let '(rows, n) := flush_rows w (recommendations s) (drawn s) in
  {| books := books s; recommendations := rows; drawn := n |}.

(** [select(Book).where(Book.title == t)] and [scalar_one_or_none()]. *)
Definition find_book (s : db) (t : pystr) : result error (option Book) :=
  match filter (fun b => str_eqb (book_title b) t) (books s) with
  | [] => Ok None
  | [b] => Ok (Some b)
  | _ :: _ :: _ =>
      Raise (Error (str "MultipleResultsFound")
               (str "Multiple rows were found when one or none was required"))
  end.

(** [ai_rec["title"]]: the value must be a dictionary with that key; the
    title must be a text for the query that compares it with a column. *)
Definition title_of (ai_rec : json) : result error (list (pystr * json) * pystr) :=
  match ai_rec with
  | JDict d =>
      match lookup (str "title") d with
      | Some (JStr t) => Ok (d, t)
      | Some _ => Raise (Error (str "DBAPIError") (str "invalid input for query argument"))
      | None => Raise (Error (str "KeyError") (str "'title'"))
      end
  | JStr _ => Raise (Error (str "TypeError") (str "string indices must be integers"))
  | _ => Raise (Error (str "TypeError") (str "object is not subscriptable"))
  end.

(** An entry as the loop builds it: its id is the text of [None], its type
    is "ai". *)
Definition fresh_entry (e : BookRecommendationResponse) : Prop :=
  resp_id e = str "None" /\ resp_recommendation_type e = str "ai".

(** Every instance of the mapped class has the attribute [id]. *)
Definition hasattr_id (r : BookRecommendation) : bool := true.

(** [Book(title=..., ...)] for a title that is not stored yet. *)
Definition new_book (w : world) (s : db) (d : list (pystr * json)) (t : pystr) : Book :=
  {| book_id := uuid4 w (drawn s);
     book_title := t;
     book_author := get d (str "author") JNull;
     book_genre := get d (str "genre") JNull;
     book_publication_year := get d (str "publication_year") JNull;
     book_source := str "ai_recommendation";
     book_confidence_score := get d (str "appeal_score") (JFloat 0.5) |}.

(** The book of a recommendation: the one found, or a new one, added and
    flushed. *)
Definition get_or_create (w : world) (s : db) (d : list (pystr * json)) (t : pystr)
    (found : option Book) : Book * db :=
  match found with
  | Some book => (book, s)
  | None =>
      let book := new_book w s d t in
      (book,
       flush w {| books := books s ++ [book];
                  recommendations := recommendations s;
                  drawn := S (drawn s) |})
  end.

(** [BookRecommendation(session_id=..., ...)]: the attributes the call does
    not name are [None] until the row is flushed. *)
Definition new_recommendation (session : UserSession) (rq : request)
    (d : list (pystr * json)) (book : Book) : BookRecommendation :=
  {| id := None;
     rec_session_id := session_pk session;
     rec_book_id := book_id book;
     rec_reason :=
       get d (str "reason") (JStr (str "AI recommended based on your preferences"));
     score := get d (str "appeal_score") (JFloat 0.5);
     source_books :=
       if truthy (get d (str "similarity_to") JNull)
       then [get d (str "similarity_to") JNull] else [];
     rec_shelf_scan_id := shelf_scan_id rq;
     recommendation_type := str "ai";
     is_saved := None;
     created_at := None |}.

(** [db.add(recommendation)] *)
Definition add_recommendation (s : db) (recommendation : BookRecommendation) : db :=
  {| books := books s;
     recommendations := recommendations s ++ [recommendation];
     drawn := drawn s |}.

(** The arguments of [BookRecommendationResponse(...)], read off the row
    as it is when the entry is built. *)
Definition new_response (recommendation : BookRecommendation) (book : Book)
    : BookRecommendationResponse :=
  {| resp_id :=
       if hasattr_id recommendation then id_str (id recommendation) else str "pending";
     resp_book := book;
     resp_reason := rec_reason recommendation;
     resp_score := score recommendation;
     resp_source_books := source_books recommendation;
     resp_recommendation_type := recommendation_type recommendation;
     resp_is_saved := is_saved recommendation;
     resp_created_at :=
       match created_at recommendation with
       | Some t => inl t
       | None => inr (str "pending")
       end |}.

Section Endpoint.

(** The validation [BookRecommendationResponse(...)] makes of its
    arguments: [None] when they are accepted, the text of the
    [ValidationError] otherwise. *)
Variable rejects : BookRecommendationResponse -> option pystr.

(** The body of the loop over [ai_recommendations], from the session state
    and the response entries built so far. *)
Definition save_one (w : world) (session : UserSession) (rq : request)
    (st : db * list BookRecommendationResponse) (ai_rec : json)
    : result error (db * list BookRecommendationResponse) :=
  let '(s, recommendations_out) := st in
  title_of ai_rec >>= fun '(d, t) =>
  (* Check if book already exists in database *)
  find_book s t >>= fun found =>
  (* Create book if it doesn't exist *)
  let '(book, s) := get_or_create w s d t found in
  (* Create recommendation record *)
  let recommendation := new_recommendation session rq d book in
  let s := add_recommendation s recommendation in
  let response := new_response recommendation book in
  match rejects response with
  | Some msg => Raise (Error (str "ValidationError") msg)
  | None => Ok (s, recommendations_out ++ [response])
  end.

Fixpoint save_all (w : world) (session : UserSession) (rq : request)
    (ai_recommendations : list json) (st : db * list BookRecommendationResponse)
    : result error (db * list BookRecommendationResponse) :=
  match ai_recommendations with
  | [] => Ok st
  | ai_rec :: rest => save_one w session rq st ai_rec >>= save_all w session rq rest
  end.

(** The loop after the commit: [last] is the row the name [recommendation]
    still refers to, refreshed. *)
Definition patch_up (last : option BookRecommendation)
    (recommendations_out : list BookRecommendationResponse)
    : list BookRecommendationResponse :=
  map (fun rec =>
         if str_eqb (resp_id rec) (str "pending") then
           {| resp_id := id_str (match last with Some r => id r | None => None end);
              resp_book := resp_book rec;
              resp_reason := resp_reason rec;
              resp_score := resp_score rec;
              resp_source_books := resp_source_books rec;
              resp_recommendation_type := resp_recommendation_type rec;
              resp_is_saved := resp_is_saved rec;
              resp_created_at := resp_created_at rec |}
         else rec)
      recommendations_out.

(** What [for ai_rec in v] goes through. *)
Definition iterate (v : json) : result error (list json) :=
  match v with
  | JList l => Ok l
  | JStr s => Ok (map (fun c => JStr [c]) s)
  | JDict d => Ok (map (fun kv => JStr (fst kv)) d)
  | _ => Raise (Error (str "TypeError") (str "object is not iterable"))
  end.

(** The inner [try]: the generator's answer, or the fallback list when the
    generator raised. *)
Definition choose (w : world) (rq : request) (prefs : preferences) : json :=
  match OpenAI.get_book_recommendations (generator w) (max_recommendations rq) with
  | Ok ai_recommendations => ai_recommendations
  | Raise _ =>
      (* Fallback to manual recommendations if AI fails *)
      JList (map as_dict (_get_fallback_recommendations prefs (max_recommendations rq)))
  end.

(** The body of the outer [try]. *)
Definition generate_body (w : world) (rq : request)
    : result raised (db * list BookRecommendationResponse) :=
  (* Verify session *)
  lift (session_query w) >>= fun session =>
  match session with
  | None => Raise (HTTPException 404 (str "Session not found"))
  | Some session =>
      if is_expired session then Raise (HTTPException 401 (str "Session expired"))
      else
        (* Get user preferences *)
        lift (preferences_query w) >>= fun user_preferences =>
        match user_preferences with
        | None => Raise (HTTPException 404 (str "User preferences not found"))
        | Some preferences_dict =>
            (* Use OpenAI service to generate recommendations *)
            lift (OpenAI.__init__ (settings w)) >>= fun openai_service =>
            let ai_recommendations := choose w rq preferences_dict in
            (* Save recommendations to database and return response *)
            lift (iterate ai_recommendations >>= fun items =>
                  save_all w session rq items (stored w, [])) >>= fun '(s, out) =>
            (* await db.commit() *)
            let s := flush w s in
            (* Refresh recommendations to get proper IDs and timestamps *)
            Ok (s, patch_up (last (map Some (recommendations s)) None) out)
        end
  end.

(** What the caller of the endpoint sees, and the rows the database holds
    afterwards. *)
Inductive outcome : Type :=
| Return (rows : db) (recommendations_out : list BookRecommendationResponse)
| Raises (status_code : Z) (detail : pystr).

(** [generate_recommendations]: the body under the handlers of the outer
    [try]. *)
Definition generate_recommendations (w : world) (rq : request) : outcome :=
  match generate_body w rq with
  | Ok (s, out) => Return s out
  | Raise (HTTPException status_code detail) => Raises status_code detail
  | Raise (Other e) =>
      Raises 500 (str "Error generating recommendations: " ++ message e)
  end.

End Endpoint.

(** The checks the declared field types of [BookRecommendationResponse]
    make of the two arguments that can still be unset: [is_saved] is
    declared [bool] and [created_at] is declared [datetime]. *)
Definition declared_checks (r : BookRecommendationResponse) : option pystr :=
  match resp_is_saved r, resp_created_at r with
  | Some _, inl _ => None
  | None, _ => Some (str "1 validation error for BookRecommendationResponse: is_saved")
  | _, inr _ => Some (str "1 validation error for BookRecommendationResponse: created_at")
  end.

(** Can [v[:n]] be evaluated. *)
Definition sliceable (v : json) : bool :=
  match v with
  | JList _ | JStr _ => true
  | _ => false
  end.

(** *** Sample requests *)

(** A valid session with stored preferences, an API key, an empty database
    and the given answer of the generator. *)
Definition sample_world (genres : list pystr) (answer : OpenAI.reply) : world :=
  {| settings :=
       {| OPENAI_API_KEY := Some (str "sk-test");
          GOOGLE_CLOUD_PROJECT := None;
          ALLOWED_IMAGE_TYPES := [str "image/jpeg"; str "image/png"; str "image/webp"];
          MAX_FILE_SIZE := 10 * 1024 * 1024;
          MAX_FILE_SIZE_MB := str "10.0" |};
     session_query := Ok (Some {| session_pk := 7%N; is_expired := false |});
     preferences_query := Ok (Some {| favorite_genres := genres |});
     generator := answer;
     uuid4 := fun n => (1000 + N.of_nat n)%N;
     now := 1762300800;
     stored := {| books := []; recommendations := []; drawn := 0 |} |}.

Definition sample_request (n : Z) : request :=
  {| shelf_scan_id := None; max_recommendations := n |}.

(** The sample world without an OpenAI API key; the generator is down. *)
Definition keyless_world : world :=
  {| settings :=
       {| OPENAI_API_KEY := None;
          GOOGLE_CLOUD_PROJECT := None;
          ALLOWED_IMAGE_TYPES := [str "image/jpeg"; str "image/png"; str "image/webp"];
          MAX_FILE_SIZE := 10 * 1024 * 1024;
          MAX_FILE_SIZE_MB := str "10.0" |};
     session_query := Ok (Some {| session_pk := 7%N; is_expired := false |});
     preferences_query := Ok (Some {| favorite_genres := [str "Memoir"] |});
     generator := OpenAI.Failed (Error (str "APIError") (str "service unavailable"));
     uuid4 := fun n => (1000 + N.of_nat n)%N;
     now := 1762300800;
     stored := {| books := []; recommendations := []; drawn := 0 |} |}.

(** The sample world, but the database refuses the connection. *)
Definition session_down_world : world :=
  {| settings :=
       {| OPENAI_API_KEY := Some (str "sk-test");
          GOOGLE_CLOUD_PROJECT := None;
          ALLOWED_IMAGE_TYPES := [str "image/jpeg"; str "image/png"; str "image/webp"];
          MAX_FILE_SIZE := 10 * 1024 * 1024;
          MAX_FILE_SIZE_MB := str "10.0" |};
     session_query := Raise (Error (str "OperationalError") (str "connection refused"));
     preferences_query := Ok (Some {| favorite_genres := [str "Memoir"] |});
     generator := OpenAI.Reply JSONDecodeError;
     uuid4 := fun n => (1000 + N.of_nat n)%N;
     now := 1762300800;
     stored := {| books := []; recommendations := []; drawn := 0 |} |}.

End Recommend.

(** ** [api/v1/endpoints/recommend.py]: [track_interaction] *)

Module Interaction.

Import Py Exc.

(** The interaction columns of [models.book.BookRecommendation]. *)
Record BookRecommendation : Type := {
  viewed_at : option Z;
  is_saved : option bool;
  is_interested : option bool;
  is_purchased : option bool
}.

(** [schemas.book.BookInteractionRequest], the fields the endpoint reads. *)
Record BookInteractionRequest : Type := {
  recommendation_id : pystr;
  interaction_type : pystr
}.

(** What the endpoint meets outside itself while it serves one request. *)
Record world : Type := {
  (* the recommendation query and its [scalar_one_or_none()] *)
  rec_query : pystr -> result error (option BookRecommendation);
  (* [datetime.now(timezone.utc)] *)
  now : Z;
  (* [await db.commit()] *)
  commit : result error unit
}.

(** The chain of comparisons on [interaction.interaction_type]. *)
Definition update (now : Z) (interaction_type : pystr)
    (recommendation : BookRecommendation) : BookRecommendation :=
  if str_eqb interaction_type (str "viewed") then
    {| viewed_at := Some now;
       is_saved := is_saved recommendation;
       is_interested := is_interested recommendation;
       is_purchased := is_purchased recommendation |}
  else if str_eqb interaction_type (str "saved") then
    {| viewed_at := viewed_at recommendation;
       is_saved := Some true;
       is_interested := is_interested recommendation;
       is_purchased := is_purchased recommendation |}
  else if str_eqb interaction_type (str "interested") then
    {| viewed_at := viewed_at recommendation;
       is_saved := is_saved recommendation;
       is_interested := Some true;
       is_purchased := is_purchased recommendation |}
  else if str_eqb interaction_type (str "purchased") then
    {| viewed_at := viewed_at recommendation;
       is_saved := is_saved recommendation;
       is_interested := is_interested recommendation;
       is_purchased := Some true |}
  else recommendation.

(** The body of the [try]: the message returned and the row committed. *)
Definition track_body (w : world) (interaction : BookInteractionRequest)
    : result raised (pystr * BookRecommendation) :=
  lift (rec_query w (recommendation_id interaction)) >>= fun recommendation =>
  match recommendation with
  | None => Raise (HTTPException 404 (str "Recommendation not found"))
  | Some recommendation =>
      let recommendation := update (now w) (interaction_type interaction) recommendation in
      lift (commit w) >>= fun _ =>
      Ok (str "Interaction '" ++ interaction_type interaction
            ++ str "' tracked successfully",
          recommendation)
  end.

(** What the caller sees, and the row as committed. *)
Inductive outcome : Type :=
| Return (message : pystr) (row : BookRecommendation)
| Raises (status_code : Z) (detail : pystr).

Definition track_interaction (w : world) (interaction : BookInteractionRequest)
    : outcome :=
  match track_body w interaction with
  | Ok (m, row) => Return m row
  | Raise (HTTPException status_code detail) => Raises status_code detail
  | Raise (Other e) => Raises 500 (str "Error tracking interaction: " ++ message e)
  end.

(** The interaction types the endpoint acts on. *)
Definition known_types : list pystr :=
  map str ["viewed"; "saved"; "interested"; "purchased"]%string.

(** Every mark of [r] is a mark of [r']. *)
Definition keeps_marks (r r' : BookRecommendation) : Prop :=
  (viewed_at r <> None -> viewed_at r' <> None) /\
  (is_saved r = Some true -> is_saved r' = Some true) /\
  (is_interested r = Some true -> is_interested r' = Some true) /\
  (is_purchased r = Some true -> is_purchased r' = Some true).

(** A row nobody has touched, and a world that holds it under every id. *)
Definition untouched : BookRecommendation :=
  {| viewed_at := None; is_saved := Some false;
     is_interested := None; is_purchased := Some false |}.

(** A row the user has saved. *)
Definition saved_row : BookRecommendation :=
  {| viewed_at := None; is_saved := Some true;
     is_interested := None; is_purchased := Some false |}.

Definition world_with (r : BookRecommendation) : world :=
  {| rec_query := fun _ => Ok (Some r); now := 1700000000; commit := Ok tt |}.

Definition sample_world : world := world_with untouched.

End Interaction.

(** ** Facts about the string helpers *)

Module PyFacts.

Import Py.

(** A word of [split]: not empty, and free of white space. *)
Definition word_ok (w : pystr) : Prop :=
  w <> [] /\ Forall (fun c => isspace c = false) w.

Lemma cons_nonempty_ok (w : pystr) (ws : list pystr) :
  Forall (fun c => isspace c = false) w -> Forall word_ok ws ->
  Forall word_ok (cons_nonempty w ws).
Proof.
  intros Hw Hws. destruct w as [|c w]; simpl; [exact Hws|].
  constructor; [|exact Hws]. split; [discriminate|exact Hw].
Qed.

Lemma words_from_ok (s : pystr) :
  Forall (fun c => isspace c = false) (fst (words_from s)) /\
  Forall word_ok (snd (words_from s)).
Proof.
  induction s as [|c t [IHw IHws]]; simpl.
  - split; constructor.
  - destruct (words_from t) as [w ws]; simpl in *.
    destruct (isspace c) eqn:Hc; simpl.
    + split; [constructor|]. now apply cons_nonempty_ok.
    + split; [|exact IHws]. now constructor.
Qed.

Lemma split_ok (s : pystr) : Forall word_ok (split s).
Proof.
  unfold split. destruct (words_from_ok s) as [Hw Hws].
  destruct (words_from s) as [w ws]; simpl in *. now apply cons_nonempty_ok.
Qed.

Lemma filter_ok (f : pystr -> bool) (ws : list pystr) :
  Forall word_ok ws -> Forall word_ok (filter f ws).
Proof.
  induction 1 as [|w ws Hw _ IH]; simpl; [constructor|].
  destruct (f w); [now constructor|exact IH].
Qed.

(** A joined list of words is empty or starts with a character that is not
    white space. *)
Lemma join_head (sep : pystr) (ws : list pystr) :
  Forall word_ok ws ->
  join sep ws = [] \/ exists c t, join sep ws = c :: t /\ isspace c = false.
Proof.
  intros H. destruct H as [|w ws [Hne Hw] Hws]; [now left|right].
  destruct w as [|c w]; [congruence|].
  inversion Hw; subst.
  exists c. destruct ws as [|w' ws']; simpl; eauto.
Qed.

Lemma dropwhile_snoc (p : ascii -> bool) (l : pystr) (c : ascii) :
  p c = false -> dropwhile p (l ++ [c]) <> [].
Proof.
  intros Hc. induction l as [|x l IH]; simpl.
  - now rewrite Hc.
  - destruct (p x); [exact IH|discriminate].
Qed.

(** Stripping a text that starts with a character that is not white space
    leaves a text that is not empty. *)
Lemma strip_nonempty (c : ascii) (t : pystr) :
  isspace c = false -> strip (c :: t) <> [].
Proof.
  intros Hc. unfold strip, lstrip, rstrip. simpl. rewrite Hc. simpl.
  intros H. apply (f_equal (@rev ascii)) in H. rewrite rev_involutive in H.
  simpl in H. now apply dropwhile_snoc in H.
Qed.

Lemma split_once_before (sep : pystr) (c : ascii) (t before after : pystr) :
  startswith sep (c :: t) = false ->
  split_once sep (c :: t) = Some (before, after) ->
  exists a, before = c :: a.
Proof.
  intros Hs H. simpl in H. rewrite Hs in H.
  destruct (split_once sep t) as [[a b]|]; [|discriminate].
  inversion H; subst. now exists a.
Qed.

(** A separator that starts with white space does not start a text whose
    first character is not white space. *)
Lemma startswith_space (sep : pystr) (c : ascii) (t : pystr) :
  (exists x r, sep = x :: r /\ isspace x = true) -> isspace c = false ->
  startswith sep (c :: t) = false.
Proof.
  intros (x & r & -> & Hx) Hc. simpl.
  destruct (Ascii.eqb x c) eqn:E; [|reflexivity].
  apply Ascii.eqb_eq in E. congruence.
Qed.

End PyFacts.
(** ** Single-spaced texts *)

Module PyWords.

Import Py PyFacts.

(** A text made of words joined by single blanks. *)
Definition single_spaced (s : pystr) : Prop :=
  exists ws, ws <> [] /\ Forall word_ok ws /\ s = join (str " ") ws.

Lemma join_cons (sep w : pystr) (ws : list pystr) :
  ws <> [] -> join sep (w :: ws) = w ++ sep ++ join sep ws.
Proof. intros H. destruct ws; [congruence|reflexivity]. Qed.

Lemma join_nonempty (sep : pystr) (ws : list pystr) :
  Forall word_ok ws -> ws <> [] -> join sep ws <> [].
Proof.
  intros H Hne. destruct H as [|w ws [Hw _] _]; [congruence|].
  destruct w as [|c w]; [congruence|]. destruct ws; discriminate.
Qed.

Lemma join_last (sep : pystr) (ws : list pystr) :
  Forall word_ok ws -> ws <> [] ->
  exists t c, join sep ws = t ++ [c] /\ isspace c = false.
Proof.
  induction 1 as [|w ws [Hne Hw] Hws IH]; intros Hn; [congruence|]. clear Hn.
  destruct ws as [|w' ws'].
  - simpl. destruct (exists_last Hne) as (t & c & ->).
    exists t, c. split; [reflexivity|].
    apply Forall_app in Hw. destruct Hw as [_ Hc]. now inversion Hc.
  - destruct IH as (t & c & E & Hc); [discriminate|].
    rewrite join_cons by discriminate. rewrite E.
    exists (w ++ sep ++ t), c. split; [|exact Hc].
    now rewrite <- !app_assoc.
Qed.

(** [strip] leaves a text alone whose first and last characters are not
    white space. *)
Lemma strip_fixed (c d : ascii) (t u : pystr) :
  isspace c = false -> isspace d = false -> c :: t = u ++ [d] ->
  strip (c :: t) = c :: t.
Proof.
  intros Hc Hd E. unfold strip, lstrip, rstrip. cbn [dropwhile]. rewrite Hc.
  rewrite E, rev_app_distr. cbn [rev app dropwhile]. rewrite Hd.
  change (d :: rev u) with (rev [d] ++ rev u).
  now rewrite <- rev_app_distr, rev_involutive.
Qed.

Lemma single_spaced_strip (s : pystr) :
  single_spaced s -> s <> [] /\ strip s = s.
Proof.
  intros (ws & Hne & Hws & ->). split; [now apply join_nonempty|].
  destruct (join_head (str " ") ws Hws) as [E|(c & t & E & Hc)].
  - now apply join_nonempty in E.
  - destruct (join_last (str " ") ws Hws Hne) as (u & d & E' & Hd).
    rewrite E. rewrite E in E'. now apply (strip_fixed c d t u).
Qed.

(** A word runs up to the first blank after it. *)
Lemma word_prefix (w y a b : pystr) :
  Forall (fun c => isspace c = false) w ->
  w ++ y = a ++ " "%char :: b ->
  exists a', a = w ++ a' /\ y = a' ++ " "%char :: b.
Proof.
  intros Hw. revert a. induction Hw as [|c w Hc _ IH]; intros a E.
  - exists a. split; [reflexivity|exact E].
  - destruct a as [|x a]; simpl in E.
    + inversion E; subst. discriminate Hc.
    + inversion E; subst. destruct (IH a H1) as (a' & -> & ->).
      exists a'. split; reflexivity.
Qed.

(** Cutting a single-spaced text at one of its blanks leaves a
    single-spaced text on either side. *)
Lemma single_spaced_cut (s a b : pystr) :
  single_spaced s -> s = a ++ " "%char :: b ->
  single_spaced a /\ single_spaced b.
Proof.
  intros (ws & Hne & Hws & ->). clear Hne. revert a.
  induction Hws as [|w ws [Hw0 Hw] Hws IH]; intros a E.
  - destruct a; discriminate.
  - destruct ws as [|w' ws'].
    + simpl in E. rewrite <- (app_nil_r w) in E.
      apply word_prefix in E; [|exact Hw].
      destruct E as (a' & _ & E). destruct a'; discriminate.
    + rewrite join_cons in E by discriminate.
      apply word_prefix in E; [|exact Hw]. destruct E as (a' & -> & E).
      destruct a' as [|x a']; simpl in E; inversion E; subst.
      * rewrite app_nil_r. split.
        -- exists [w]. split; [discriminate|]. split; [|reflexivity].
           constructor; [now split|constructor].
        -- exists (w' :: ws'). split; [discriminate|]. now split.
      * destruct (IH a' H1) as [(ws1 & Hne1 & Hws1 & ->) Hb]. split; [|exact Hb].
        exists (w :: ws1). split; [discriminate|]. split.
        -- constructor; [now split|exact Hws1].
        -- now rewrite join_cons.
Qed.

Lemma startswith_skipn (p s : pystr) :
  startswith p s = true -> s = p ++ skipn (length p) s.
Proof.
  revert s. induction p as [|x p IH]; intros s H; [reflexivity|].
  destruct s as [|y s]; [discriminate|]. simpl in H.
  apply andb_true_iff in H. destruct H as [E H].
  apply Ascii.eqb_eq in E. subst. simpl. f_equal. now apply IH.
Qed.

(** [s.split(sep, 1)] cuts [s] around one occurrence of [sep]. *)
Lemma split_once_app (sep s a b : pystr) :
  split_once sep s = Some (a, b) -> s = a ++ sep ++ b.
Proof.
  revert a. induction s as [|c t IH]; intros a H.
  - simpl in H. destruct (startswith sep []) eqn:E; [|discriminate].
    inversion H; subst. now apply startswith_skipn in E.
  - cbn [split_once] in H. destruct (startswith sep (c :: t)) eqn:E.
    + inversion H; subst. now apply startswith_skipn in E.
    + destruct (split_once sep t) as [[a0 b0]|]; [|discriminate].
      inversion H; subst. simpl. f_equal. now apply IH.
Qed.

(** [split] undoes [join]: the words of a single-spaced text are the
    words it was joined from. *)
Lemma words_from_word (w s : pystr) :
  Forall (fun c => isspace c = false) w ->
  words_from (w ++ s) = (w ++ fst (words_from s), snd (words_from s)).
Proof.
  induction 1 as [|c w Hc _ IH]; simpl.
  - now destruct (words_from s).
  - rewrite IH, Hc. reflexivity.
Qed.

Lemma split_join (ws : list pystr) :
  Forall word_ok ws -> split (join (str " ") ws) = ws.
Proof.
  induction 1 as [|w ws [Hne Hw] Hws IH]; [reflexivity|].
  destruct ws as [|w' ws'].
  - simpl. unfold split. rewrite <- (app_nil_r w) at 1.
    rewrite words_from_word by exact Hw. simpl. rewrite app_nil_r.
    destruct w; [congruence|reflexivity].
  - rewrite join_cons by discriminate. unfold split in *.
    rewrite words_from_word by exact Hw.
    change (str " " ++ join (str " ") (w' :: ws'))
      with (" "%char :: join (str " ") (w' :: ws')).
    cbn [words_from]. destruct (words_from (join (str " ") (w' :: ws'))) as [x xs].
    change (isspace " ") with true. cbn iota. cbn [fst snd].
    rewrite app_nil_r, IH. destruct w; [congruence|reflexivity].
Qed.

(** The characters of the words of a text are characters of the text. *)
Lemma cons_nonempty_chars (P : ascii -> Prop) (w : pystr) (ws : list pystr) :
  Forall P w -> Forall (Forall P) ws -> Forall (Forall P) (cons_nonempty w ws).
Proof. intros Hw Hws. destruct w; simpl; [exact Hws|now constructor]. Qed.

Lemma words_from_chars (P : ascii -> Prop) (s : pystr) :
  Forall P s ->
  Forall P (fst (words_from s)) /\ Forall (Forall P) (snd (words_from s)).
Proof.
  induction 1 as [|c t Hc _ [IHw IHws]]; simpl; [split; constructor|].
  destruct (words_from t) as [w ws]; simpl in *.
  destruct (isspace c); simpl.
  - split; [constructor|now apply cons_nonempty_chars].
  - split; [now constructor|exact IHws].
Qed.

Lemma split_chars (P : ascii -> Prop) (s : pystr) :
  Forall P s -> Forall (Forall P) (split s).
Proof.
  intros H. unfold split. destruct (words_from_chars P s H) as [Hw Hws].
  destruct (words_from s). now apply cons_nonempty_chars.
Qed.

Lemma join_chars (P : ascii -> Prop) (sep : pystr) (ws : list pystr) :
  Forall P sep -> Forall (Forall P) ws -> Forall P (join sep ws).
Proof.
  intros Hsep. induction 1 as [|w ws Hw Hws IH]; [constructor|].
  destruct ws as [|w' ws']; [exact Hw|].
  rewrite join_cons by discriminate.
  apply Forall_app. split; [exact Hw|]. apply Forall_app. now split.
Qed.

(** [strip] is idempotent. *)
Lemma dropwhile_head (p : ascii -> bool) (s : pystr) :
  dropwhile p s = [] \/ exists c t, dropwhile p s = c :: t /\ p c = false.
Proof.
  induction s as [|c s IH]; [now left|]. simpl.
  destruct (p c) eqn:E; [exact IH|]. right. now exists c, s.
Qed.

Lemma dropwhile_keeps_last (p : ascii -> bool) (l : pystr) (c : ascii) :
  p c = false -> exists u, dropwhile p (l ++ [c]) = u ++ [c].
Proof.
  intros Hc. induction l as [|x l [u IH]]; simpl.
  - rewrite Hc. now exists [].
  - destruct (p x); [now exists u|]. now exists (x :: l).
Qed.

Lemma strip_shape (s : pystr) :
  strip s = [] \/
  exists c d t u, strip s = c :: t /\ c :: t = u ++ [d] /\
                  isspace c = false /\ isspace d = false.
Proof.
  unfold strip, lstrip, rstrip.
  destruct (dropwhile_head isspace s) as [->|(c & t & -> & Hc)]; [now left|].
  replace (rev (c :: t)) with (rev t ++ [c]) by reflexivity.
  destruct (dropwhile_keeps_last isspace (rev t) c Hc) as [u E].
  destruct (dropwhile_head isspace (rev t ++ [c])) as [E0|(d & v & Ed & Hd)].
  - rewrite E in E0. now destruct u.
  - right. assert (Hx : u ++ [c] = d :: v) by congruence.
    exists c, d, (rev u), (rev v). split; [|split; [|now split]].
    + rewrite E, rev_app_distr. reflexivity.
    + change (c :: rev u) with (rev [c] ++ rev u).
      rewrite <- rev_app_distr, Hx. reflexivity.
Qed.

Lemma strip_idempotent (s : pystr) : strip (strip s) = strip s.
Proof.
  destruct (strip_shape s) as [->|(c & d & t & u & -> & E & Hc & Hd)];
    [reflexivity|].
  now apply (strip_fixed c d t u).
Qed.

End PyWords.

(** ** The matcher decides the language of a regular expression *)

Module ReFacts.

Import Py Re.

Lemma matches_Void_inv (s : pystr) : matches Void s -> False.
Proof. inversion 1. Qed.

Lemma matches_Eps_inv (s : pystr) : matches Eps s -> s = [].
Proof. now inversion 1. Qed.

Lemma matches_Cls_inv (p : ascii -> bool) (s : pystr) :
  matches (Cls p) s -> exists c, s = [c] /\ p c = true.
Proof. inversion 1; subst; eauto. Qed.

Lemma matches_Seq_inv (r1 r2 : regex) (s : pystr) :
  matches (Seq r1 r2) s ->
  exists s1 s2, s = s1 ++ s2 /\ matches r1 s1 /\ matches r2 s2.
Proof. inversion 1; subst; eauto. Qed.

Lemma matches_Alt_inv (r1 r2 : regex) (s : pystr) :
  matches (Alt r1 r2) s -> matches r1 s \/ matches r2 s.
Proof. inversion 1; subst; auto. Qed.

Lemma nullable_matches (r : regex) : nullable r = true <-> matches r [].
Proof.
  induction r as [| |p|r1 IH1 r2 IH2|r1 IH1 r2 IH2|r IH]; simpl.
  - split; [discriminate|]. intros H. now apply matches_Void_inv in H.
  - split; [constructor|reflexivity].
  - split; [discriminate|]. intros H. apply matches_Cls_inv in H.
    destruct H as (c & E & _). discriminate.
  - rewrite andb_true_iff, IH1, IH2. split.
    + intros [H1 H2]. change (@nil ascii) with (@nil ascii ++ []). now constructor.
    + intros H. apply matches_Seq_inv in H. destruct H as (s1 & s2 & E & H1 & H2).
      symmetry in E. apply app_eq_nil in E. destruct E; subst. now split.
  - rewrite orb_true_iff, IH1, IH2. split.
    + intros [H|H]; [now apply matches_Alt_l|now apply matches_Alt_r].
    + apply matches_Alt_inv.
  - split; [constructor|reflexivity].
Qed.

Lemma matches_Star_cons_aux (r' : regex) (t : pystr) :
  matches r' t ->
  forall r c s, r' = Star r -> t = c :: s ->
  exists s1 s2, s = s1 ++ s2 /\ matches r (c :: s1) /\ matches (Star r) s2.
Proof.
  induction 1 as [| | | | | |r0 s1 s2 H1 _ H2 IH2]; intros rr x tl Er Et;
    try discriminate.
  inversion Er; subst. destruct s1 as [|y s1]; simpl in Et.
  - now apply IH2.
  - inversion Et; subst. eauto.
Qed.

(** A repetition that matches a text starting with [c] takes a first round
    that starts with [c]. *)
Lemma matches_Star_cons_inv (r : regex) (c : ascii) (s : pystr) :
  matches (Star r) (c :: s) ->
  exists s1 s2, s = s1 ++ s2 /\ matches r (c :: s1) /\ matches (Star r) s2.
Proof. intros H. now apply (matches_Star_cons_aux _ _ H). Qed.

Lemma deriv_matches (c : ascii) (r : regex) :
  forall s, matches (deriv c r) s <-> matches r (c :: s).
Proof.
  induction r as [| |p|r1 IH1 r2 IH2|r1 IH1 r2 IH2|r IH]; intros s; simpl.
  - split; intros H; now apply matches_Void_inv in H.
  - split; intros H; [now apply matches_Void_inv in H|].
    apply matches_Eps_inv in H. discriminate.
  - destruct (p c) eqn:Ep; split; intros H.
    + apply matches_Eps_inv in H. subst. now constructor.
    + apply matches_Cls_inv in H. destruct H as (x & E & _).
      inversion E; subst. constructor.
    + now apply matches_Void_inv in H.
    + apply matches_Cls_inv in H. destruct H as (x & E & Hx).
      inversion E; subst. congruence.
  - assert (Hseq : matches (Seq (deriv c r1) r2) s ->
                   matches (Seq r1 r2) (c :: s)).
    { intros H. apply matches_Seq_inv in H. destruct H as (s1 & s2 & -> & H1 & H2).
      apply IH1 in H1. change (c :: s1 ++ s2) with ((c :: s1) ++ s2).
      now constructor. }
    assert (Hinv : matches (Seq r1 r2) (c :: s) ->
                   (matches r1 [] /\ matches r2 (c :: s)) \/
                   matches (Seq (deriv c r1) r2) s).
    { intros H. apply matches_Seq_inv in H. destruct H as (s1 & s2 & E & H1 & H2).
      destruct s1 as [|x s1]; simpl in E.
      - subst. now left.
      - inversion E; subst. right. constructor; [now apply IH1|exact H2]. }
    destruct (nullable r1) eqn:En; split; intros H.
    + apply matches_Alt_inv in H. destruct H as [H|H]; [now apply Hseq|].
      apply IH2 in H. apply nullable_matches in En.
      change (c :: s) with ([] ++ c :: s). now constructor.
    + apply Hinv in H. destruct H as [[_ H]|H].
      * apply matches_Alt_r. now apply IH2.
      * now apply matches_Alt_l.
    + now apply Hseq.
    + apply Hinv in H. destruct H as [[H _]|H]; [|exact H].
      apply nullable_matches in H. congruence.
  - split; intros H; apply matches_Alt_inv in H; destruct H as [H|H];
      [apply matches_Alt_l; now apply IH1|apply matches_Alt_r; now apply IH2
      |apply matches_Alt_l; now apply IH1|apply matches_Alt_r; now apply IH2].
  - split; intros H.
    + apply matches_Seq_inv in H. destruct H as (s1 & s2 & -> & H1 & H2).
      apply IH in H1. change (c :: s1 ++ s2) with ((c :: s1) ++ s2).
      now constructor.
    + apply matches_Star_cons_inv in H.
      destruct H as (s1 & s2 & -> & H1 & H2).
      constructor; [now apply IH|exact H2].
Qed.

(** [fullmatch] answers [true] exactly on the texts the expression
    denotes. *)
Theorem fullmatch_matches (s : pystr) :
  forall r, fullmatch r s = true <-> matches r s.
Proof.
  induction s as [|c t IH]; intros r; simpl.
  - apply nullable_matches.
  - rewrite IH. apply deriv_matches.
Qed.

Lemma matches_Star_any (s : pystr) : matches (Star any) s.
Proof.
  induction s as [|c t IH]; [constructor|].
  change (c :: t) with ([c] ++ t). constructor; [now constructor|exact IH].
Qed.

Lemma matches_lit (k : pystr) : matches (lit k) k.
Proof.
  induction k as [|c t IH]; simpl; [constructor|].
  change (c :: t) with ([c] ++ t). constructor; [|exact IH].
  constructor. apply Ascii.eqb_refl.
Qed.

(** A text of one or more characters of a class matches [Cls p +]. *)
Lemma matches_plus (p : ascii -> bool) (s : pystr) :
  s <> [] -> forallb p s = true -> matches (plus (Cls p)) s.
Proof.
  destruct s as [|c t]; [congruence|]. intros _ H. simpl in H.
  apply andb_true_iff in H. destruct H as [Hc Ht].
  change (c :: t) with ([c] ++ t). constructor; [now constructor|].
  induction t as [|x t IH]; [constructor|]. simpl in Ht.
  apply andb_true_iff in Ht. destruct Ht as [Hx Ht].
  change (x :: t) with ([x] ++ t). constructor; [now constructor|now apply IH].
Qed.

(** An unanchored pattern is found in every text that holds a match of its
    body. *)
Lemma search_infix (r : regex) (a m b : pystr) :
  matches r m -> search (Pattern false r false) (a ++ m ++ b) = true.
Proof.
  intros H. unfold search. simpl. apply fullmatch_matches.
  constructor; [apply matches_Star_any|].
  constructor; [exact H|apply matches_Star_any].
Qed.

(** A pattern anchored at the start is found in every text that starts with
    a match of its body. *)
Lemma search_prefix (r : regex) (m b : pystr) :
  matches r m -> search (Pattern true r false) (m ++ b) = true.
Proof.
  intros H. unfold search. simpl. apply fullmatch_matches.
  change (m ++ b) with ([] ++ m ++ b). constructor; [constructor|].
  constructor; [exact H|apply matches_Star_any].
Qed.

(** A pattern anchored at both ends is found in every match of its body. *)
Lemma search_whole (r : regex) (m : pystr) :
  matches r m -> search (Pattern true r true) m = true.
Proof.
  intros H. unfold search. simpl. apply fullmatch_matches.
  change m with ([] ++ m). constructor; [constructor|].
  rewrite <- (app_nil_r m). constructor; [exact H|].
  apply matches_Alt_r. constructor.
Qed.

Lemma startswith_app (p s : pystr) :
  startswith p s = true -> exists b, s = p ++ b.
Proof.
  revert s. induction p as [|x p IH]; intros s H; simpl in *; [now exists s|].
  destruct s as [|y s]; [discriminate|].
  apply andb_true_iff in H. destruct H as [Hxy H].
  apply Ascii.eqb_eq in Hxy. subst. destruct (IH _ H) as [b ->]. now exists b.
Qed.

Lemma contains_app (sub s : pystr) :
  contains sub s = true -> exists a b, s = a ++ sub ++ b.
Proof.
  induction s as [|c t IH]; simpl; rewrite orb_true_iff.
  - intros [H|H]; [|discriminate]. apply startswith_app in H.
    destruct H as [b ->]. now exists [], b.
  - intros [H|H].
    + apply startswith_app in H. destruct H as [b ->]. now exists [], b.
    + destruct (IH H) as (a & b & ->). now exists (c :: a), b.
Qed.

End ReFacts.

(** ** Text normalisation: [_extract_books_from_text] *)

Module GoogleVisionFacts.

Import Py Re Exc Provider GoogleVision PyFacts ReFacts.

(** The score is clamped whatever the six tests say. *)
Lemma score_bounds (s : signals) :
  (0.1 <=? score s)%float = true /\ (score s <=? 1.0)%float = true.
Proof.
  destruct s as [[] [] [] [] [] []]; vm_compute; split; reflexivity.
Qed.

Lemma estimate_confidence_bounds (text : pystr) (c : float) :
  _estimate_confidence text = Some c ->
  (0.1 <=? c)%float = true /\ (c <=? 1.0)%float = true.
Proof.
  unfold _estimate_confidence. destruct text as [|x t]; [discriminate|].
  intros H. inversion H. apply score_bounds.
Qed.

Lemma estimate_confidence_some (text : pystr) :
  text <> [] -> exists c, _estimate_confidence text = Some c.
Proof.
  destruct text as [|x t]; [congruence|]. intros _. simpl. eauto.
Qed.

(** A cleaned title is empty or starts with a character that is not white
    space. *)
Lemma clean_title_head (text : pystr) :
  _clean_title text = [] \/
  exists c t, _clean_title text = c :: t /\ isspace c = false.
Proof.
  unfold _clean_title. apply join_head.
  match goal with |- context [if ?b then _ else _] => destruct b end.
  - apply filter_ok, split_ok.
  - apply split_ok.
Qed.

Lemma separators_start_with_space :
  Forall (fun sep => exists x r, sep = x :: r /\ isspace x = true) separators.
Proof.
  unfold separators. repeat constructor; eexists; eexists; split; reflexivity.
Qed.

(** The title cut from a text that starts with a character that is not
    white space is not empty. *)
Lemma separate_at_title (seps : list pystr) (c : ascii) (t : pystr) :
  Forall (fun sep => exists x r, sep = x :: r /\ isspace x = true) seps ->
  isspace c = false ->
  fst (separate_at seps (c :: t)) <> [].
Proof.
  intros Hseps Hc. induction Hseps as [|sep seps Hsep _ IH].
  - simpl. now apply strip_nonempty.
  - cbn [separate_at]. destruct (contains sep (c :: t)); [|exact IH].
    destruct (split_once sep (c :: t)) as [[before after]|] eqn:E.
    + apply split_once_before in E; [|now apply startswith_space].
      destruct E as [a ->]. simpl. now apply strip_nonempty.
    + simpl. now apply strip_nonempty.
Qed.

Lemma NoDup_snoc {A : Type} (l : list A) (x : A) :
  NoDup l -> ~ In x l -> NoDup (l ++ [x]).
Proof.
  induction 1 as [|y l Hy Hl IH]; intros Hx; simpl.
  - constructor; [intros []|constructor].
  - constructor.
    + rewrite in_app_iff. intros [H|[H|[]]]; [now apply Hy|].
      subst. apply Hx. now left.
    + apply IH. intros H. apply Hx. now right.
Qed.

(** The loop of [_extract_books_from_text] never raises; each candidate it
    gathers is built from an accepted cleaned title, and the cleaned titles
    differ pairwise up to letter case. *)
Lemma extract_loop_spec (max_books : Z) (lines : list pystr) :
  forall (books : list candidate) (processed : gset pystr) (cs : list pystr),
    Forall2 built_from cs books -> Forall accepted cs ->
    NoDup (map lower cs) -> (forall c, In c cs -> lower c ∈ processed) ->
    exists cs' out,
      extract_loop max_books lines books processed = Some out /\
      Forall2 built_from cs' out /\ Forall accepted cs' /\ NoDup (map lower cs').
Proof.
  induction lines as [|line rest IH]; intros books processed cs HB HF HN HP; simpl.
  - exists cs, books. auto.
  - destruct (length line <? 3)%nat; [eauto|].
    destruct (_is_likely_metadata line); [eauto|].
    destruct (truthy (_clean_title line)) eqn:Ht; simpl; [|eauto].
    case_bool_decide as Hin; simpl; [eauto|].
    assert (Hne : _clean_title line <> []).
    { intros E. rewrite E in Ht. discriminate. }
    destruct (_separate_title_author (_clean_title line)) as [t a] eqn:Es.
    destruct (estimate_confidence_some _ Hne) as [c Ec]. rewrite Ec.
    assert (HB' : Forall2 built_from (cs ++ [_clean_title line])
                    (books ++ [Candidate t a c None])).
    { apply Forall2_app; [exact HB|]. constructor; [|constructor].
      unfold built_from. rewrite Es. simpl. auto. }
    assert (HF' : Forall accepted (cs ++ [_clean_title line])).
    { apply Forall_app. split; [exact HF|]. constructor; [|constructor].
      split; [exact Hne|now exists line]. }
    assert (HN' : NoDup (map lower (cs ++ [_clean_title line]))).
    { rewrite map_app. simpl. apply NoDup_snoc; [exact HN|].
      intros H. apply in_map_iff in H. destruct H as (c' & E & Hc').
      apply Hin. rewrite <- E. now apply HP. }
    destruct (max_books <=? _)%Z.
    + eexists _, _. eauto.
    + apply (IH _ _ (cs ++ [_clean_title line])); auto.
      intros c' Hc'. apply in_app_iff in Hc'. apply elem_of_union.
      destruct Hc' as [Hc'|[<-|[]]]; [right; now apply HP|left].
      now apply elem_of_singleton.
Qed.

Lemma insert_desc_perm (x : candidate) (l : list candidate) :
  Permutation (insert_desc x l) (x :: l).
Proof.
  induction l as [|y l IH]; simpl; [reflexivity|].
  destruct (confidence x <? confidence y)%float; [|reflexivity].
  rewrite IH. apply perm_swap.
Qed.

Lemma sort_desc_perm (l : list candidate) : Permutation (sort_desc l) l.
Proof.
  induction l as [|x l IH]; simpl; [reflexivity|].
  rewrite insert_desc_perm. now constructor.
Qed.

(** Reordering the candidates reorders the cleaned titles they come from. *)
Lemma Forall2_perm {A B : Type} (R : A -> B -> Prop) (l l' : list B) :
  Permutation l l' -> forall cs, Forall2 R cs l ->
  exists cs', Permutation cs cs' /\ Forall2 R cs' l'.
Proof.
  induction 1 as [|x l l' _ IH|x y l|l l1 l2 _ IH1 _ IH2]; intros cs H.
  - exists cs. split; [reflexivity|exact H].
  - inversion H as [|c b cs0 l0 Hc Hcs]; subst.
    destruct (IH _ Hcs) as (cs' & P & F).
    exists (c :: cs'). split; [now constructor|now constructor].
  - inversion H as [|c b cs0 l0 Hc Hcs]; subst.
    inversion Hcs as [|c' b' cs1 l1 Hc' Hcs']; subst.
    exists (c' :: c :: cs1). split; [apply perm_swap|repeat constructor; assumption].
  - destruct (IH1 _ H) as (cs1 & P1 & F1).
    destruct (IH2 _ F1) as (cs2 & P2 & F2).
    exists cs2. split; [now transitivity cs1|exact F2].
Qed.

Lemma slice_to_firstn {A : Type} (n : Z) (l : list A) :
  exists k, slice_to n l = firstn k l.
Proof. unfold slice_to. destruct (n <? 0)%Z; eauto. Qed.

Lemma Forall2_firstn {A B : Type} (R : A -> B -> Prop) (k : nat) :
  forall cs l, Forall2 R cs l -> Forall2 R (firstn k cs) (firstn k l).
Proof.
  induction k as [|k IH]; intros cs l H; simpl; [constructor|].
  destruct H; constructor; auto.
Qed.

Lemma Forall_firstn {A : Type} (P : A -> Prop) (k : nat) :
  forall l, Forall P l -> Forall P (firstn k l).
Proof.
  induction k as [|k IH]; intros l H; simpl; [constructor|].
  destruct H; constructor; auto.
Qed.

Lemma NoDup_firstn {A : Type} (k : nat) (l : list A) :
  NoDup l -> NoDup (firstn k l).
Proof.
  intros H. rewrite <- (firstn_skipn k l) in H.
  now apply NoDup_app_remove_r in H.
Qed.

(** What [_extract_books_from_text] returns: it never raises, and its
    candidates come, one each, from accepted cleaned titles that differ
    pairwise up to letter case. *)
Lemma extract_books_spec (texts : list pystr) (max_books : Z) :
  exists cs books,
    _extract_books_from_text texts max_books = Some books /\
    Forall2 built_from cs books /\ Forall accepted cs /\ NoDup (map lower cs).
Proof.
  unfold _extract_books_from_text. destruct texts as [|full_text _].
  - exists [], []. repeat split; constructor.
  - match goal with |- context [extract_loop ?m ?ls [] ∅] =>
      destruct (extract_loop_spec m ls [] ∅ []) as (cs & out & E & HB & HF & HN)
    end; try constructor.
    { intros c []. }
    rewrite E.
    destruct (Forall2_perm _ _ _ (Permutation_sym (sort_desc_perm out)) _ HB)
      as (cs' & P & HB').
    destruct (slice_to_firstn max_books (sort_desc out)) as [k Ek].
    exists (firstn k cs'), (slice_to max_books (sort_desc out)).
    split; [reflexivity|]. rewrite Ek. split; [|split].
    + now apply Forall2_firstn.
    + apply Forall_firstn. eapply Permutation_Forall; eassumption.
    + rewrite <- firstn_map. apply NoDup_firstn.
      eapply Permutation_NoDup; [|exact HN]. now apply Permutation_map.
Qed.

Lemma Forall2_Forall_r {A B : Type} (R : A -> B -> Prop) (Q : A -> Prop)
    (P : B -> Prop) (cs : list A) (l : list B) :
  (forall c b, R c b -> Q c -> P b) ->
  Forall2 R cs l -> Forall Q cs -> Forall P l.
Proof.
  intros HP H. induction H as [|c b cs l Hcb _ IH]; intros HQ; constructor.
  - inversion HQ; subst. eauto.
  - inversion HQ; subst. auto.
Qed.

(** C7.  Every candidate list produced by text normalisation holds only
    candidates whose confidence lies between 0.1 and 1.0 and whose title is
    not the empty string; and text normalisation always produces such a
    list (it never raises). *)
Theorem normalized_candidates_in_range (texts : list pystr) (max_books : Z) :
  exists books,
    _extract_books_from_text texts max_books = Some books /\
    Forall (fun b =>
              (0.1 <=? confidence b)%float = true /\
              (confidence b <=? 1.0)%float = true /\
              title b <> [])
           books.
Proof.
  destruct (extract_books_spec texts max_books) as (cs & books & E & HB & HF & _).
  exists books. split; [exact E|].
  eapply Forall2_Forall_r; [|exact HB|exact HF].
  intros c b (Ht & _ & Hc & _) (Hne & line & Hl).
  apply estimate_confidence_bounds in Hc. destruct Hc as [Hlo Hhi].
  repeat split; [exact Hlo|exact Hhi|].
  rewrite Ht. destruct (clean_title_head line) as [E0|(x & t & Ex & Hx)].
  - congruence.
  - rewrite Hl, Ex. apply separate_at_title; [apply separators_start_with_space|exact Hx].
Qed.

(** *** The catalogue-number pattern *)

Lemma dead_not_nullable (r : regex) : dead r -> nullable r = false.
Proof.
  induction 1 as [|r1 r2 _ IH|r1 r2 _ IH1 _ IH2]; simpl;
    [reflexivity|now rewrite IH|now rewrite IH1, IH2].
Qed.

Lemma dead_deriv (c : ascii) (r : regex) : dead r -> dead (deriv c r).
Proof.
  induction 1 as [|r1 r2 H IH|r1 r2 _ IH1 _ IH2]; simpl.
  - constructor.
  - rewrite (dead_not_nullable _ H). now constructor.
  - now constructor.
Qed.

Lemma dead_fullmatch (s : pystr) : forall r, dead r -> fullmatch r s = false.
Proof.
  induction s as [|c t IH]; intros r H; simpl.
  - now apply dead_not_nullable.
  - apply IH. now apply dead_deriv.
Qed.

(** A lower-cased character is never one of [A-Z]. *)
Lemma lower_char_not_upper (c : ascii) : in_range 65 90 (lower_char c) = false.
Proof. destruct c as [[] [] [] [] [] [] [] []]; reflexivity. Qed.

(** X1.  The fifth pattern, [^[A-Z]{2,4}\d+], is searched in the lower-cased
    text, so it matches no text at all. *)
Lemma catalog_pattern_never_matches (text : pystr) :
  search (Pattern true (Seq (between 2 2 (Cls (in_range 65 90))) (plus digit)) false)
         (lower text) = false.
Proof.
  destruct text as [|c t]; [reflexivity|].
  unfold search. cbn [lower map fullmatch at_start at_end body].
  apply dead_fullmatch. simpl. rewrite lower_char_not_upper.
  repeat constructor.
Qed.

(** C8 (the code departs from the claim).  The line [AB123], two letters
    followed by digits, is not taken for metadata, and text normalisation
    turns it into a candidate. *)
Theorem catalog_code_line_is_kept :
  _is_likely_metadata (str "AB123") = false /\
  option_map (map title) (_extract_books_from_text [str "AB123"] 20)
  = Some [str "AB123"].
Proof. split; vm_compute; reflexivity. Qed.

(** The other heuristics of the claim do discard their lines. *)
Lemma other_metadata_lines_are_discarded :
  _is_likely_metadata (str "12345") = true /\
  _is_likely_metadata (str "1984") = true /\
  _is_likely_metadata (str "$12") = true /\
  _is_likely_metadata (str "ISBN 978-0-452-28423-4") = true /\
  _is_likely_metadata (str "Copyright 1949") = true /\
  _is_likely_metadata (str "Second Edition") = true /\
  _is_likely_metadata (str "Published by Penguin") = true /\
  _is_likely_metadata (str "BARCODE") = true /\
  _is_likely_metadata (str "320 Pages") = true.
Proof. repeat split; vm_compute; reflexivity. Qed.

(** *** The other metadata heuristics *)

Lemma lower_char_digit (c : ascii) : isdigit c = true -> lower_char c = c.
Proof. destruct c as [[] [] [] [] [] [] [] []]; intros H; try reflexivity; discriminate. Qed.

Lemma lower_digits (s : pystr) : forallb isdigit s = true -> lower s = s.
Proof.
  induction s as [|c t IH]; simpl; [reflexivity|].
  intros H. apply andb_true_iff in H. destruct H as [Hc Ht].
  now rewrite (lower_char_digit c Hc), (IH Ht).
Qed.

Lemma metadata_by_pattern (p : pattern) (text : pystr) :
  In p metadata_patterns -> search p (lower text) = true ->
  _is_likely_metadata text = true.
Proof.
  intros Hin H. unfold _is_likely_metadata. apply existsb_exists. eauto.
Qed.

(** X2.  The heuristics of [_is_likely_metadata] other than the catalogue
    pattern discard their lines: a line of digits only (a year among them),
    a line that starts with a dollar sign and a digit, and a line that
    contains one of the keywords, letter case apart, are taken for metadata
    and give no candidate. *)
Theorem metadata_lines_are_discarded (line : pystr) :
  (line <> [] /\ forallb isdigit line = true) \/
  (exists d rest, isdigit d = true /\ line = "$"%char :: d :: rest) \/
  (exists k, is_keyword k /\ contains k (lower line) = true) ->
  _is_likely_metadata line = true /\
  forall max_books rest books processed,
    extract_loop max_books (line :: rest) books processed
    = extract_loop max_books rest books processed.
Proof.
  intros H.
  assert (Hm : _is_likely_metadata line = true).
  { destruct H as [[Hne Hd]|[(d & rest & Hd & ->)|(k & Hk & Hc)]].
    - apply (metadata_by_pattern (Pattern true (plus digit) true));
        [left; reflexivity|].
      rewrite (lower_digits _ Hd). apply search_whole. now apply matches_plus.
    - apply (metadata_by_pattern (Pattern true (Seq (chr "$") (plus digit)) false));
        [right; right; left; reflexivity|].
      change (lower ("$"%char :: d :: rest))
        with (["$"%char; lower_char d] ++ lower rest).
      rewrite (lower_char_digit d Hd). apply search_prefix.
      change ["$"%char; d] with (["$"%char] ++ [d]).
      constructor; [constructor; reflexivity|].
      apply matches_plus; [discriminate|]. simpl. now rewrite Hd.
    - apply contains_app in Hc. destruct Hc as (a & b & E).
      unfold is_keyword in Hk. simpl in Hk.
      destruct Hk as [<-|[<-|[<-|[<-|[<-|[<-|[]]]]]]].
      + apply (metadata_by_pattern (Pattern false (lit (str "isbn")) false));
          [right; left; reflexivity|].
        rewrite E. apply search_infix, matches_lit.
      + apply (metadata_by_pattern (Pattern false (lit (str "barcode")) false));
          [do 5 right; left; reflexivity|].
        rewrite E. apply search_infix, matches_lit.
      + apply (metadata_by_pattern (Pattern false (lit (str "copyright")) false));
          [do 6 right; left; reflexivity|].
        rewrite E. apply search_infix, matches_lit.
      + apply (metadata_by_pattern (Pattern false (lit (str "edition")) false));
          [do 7 right; left; reflexivity|].
        rewrite E. apply search_infix, matches_lit.
      + apply (metadata_by_pattern (Pattern false (lit (str "published")) false));
          [do 8 right; left; reflexivity|].
        rewrite E. apply search_infix, matches_lit.
      + apply (metadata_by_pattern
                 (Pattern false (Seq (lit (str "page")) (opt (chr "s"))) false));
          [do 9 right; left; reflexivity|].
        rewrite E. apply search_infix.
        exact (matches_Seq _ _ (str "page") [] (matches_lit _)
                 (matches_Alt_r _ _ _ matches_Eps)). }
  split; [exact Hm|].
  intros max_books rest books processed. cbn [extract_loop]. rewrite Hm.
  now destruct (length line <? 3)%nat.
Qed.

Lemma metadata_lines_are_discarded_witness :
  _is_likely_metadata (str "Copyright 1949") = true.
Proof.
  apply (metadata_lines_are_discarded (str "Copyright 1949")).
  right. right. exists (str "copyright"). split; [|reflexivity].
  unfold is_keyword. simpl. tauto.
Defined.

(** *** Deduplication *)

(** C9, counterexample.  Two lines that differ after the separator give two
    candidates with the same title. *)
Lemma same_title_twice :
  exists b1 b2,
    _extract_books_from_text [two_editions] 20 = Some [b1; b2] /\
    title b1 = str "Dune" /\ title b2 = str "Dune" /\
    lower (title b1) = lower (title b2).
Proof.
  eexists _, _. split; [vm_compute; reflexivity|].
  repeat split.
Qed.

(** The loop accepts the first occurrences, up to letter case, of the
    cleaned forms it tests, until it holds [max_books] candidates (one
    candidate when [max_books] is less than one). *)
Lemma extract_loop_first_occurrences (max_books : Z) (lines : list pystr) :
  forall (books : list candidate) (processed : gset pystr),
    (Z.of_nat (length books) < Z.max 1 max_books)%Z ->
    exists new,
      Forall2 built_from
        (firstn (Z.to_nat (Z.max 1 max_books) - length books)
           (first_occurrences processed
              (map _clean_title (filter reaches_test lines))))
        new /\
      extract_loop max_books lines books processed = Some (books ++ new).
Proof.
  induction lines as [|line rest IH]; intros books processed Hlen.
  - exists []. simpl. rewrite firstn_nil, app_nil_r. split; [constructor|reflexivity].
  - cbn [extract_loop filter]. unfold reaches_test at 1.
    destruct (length line <? 3)%nat; cbn [negb andb]; [now apply IH|].
    destruct (_is_likely_metadata line); cbn [negb andb]; [now apply IH|].
    destruct (truthy (_clean_title line)) eqn:Ht; cbn [andb]; [|now apply IH].
    cbn [map first_occurrences].
    case_bool_decide as Hin; cbn [negb]; [now apply IH|].
    assert (Hne : _clean_title line <> []).
    { intros E. rewrite E in Ht. discriminate. }
    destruct (_separate_title_author (_clean_title line)) as [t a] eqn:Es.
    destruct (estimate_confidence_some _ Hne) as [c Ec]. rewrite Ec.
    assert (Hb : built_from (_clean_title line) (Candidate t a c None)).
    { unfold built_from. rewrite Es. simpl. auto. }
    destruct (Z.to_nat (Z.max 1 max_books) - length books)%nat as [|k] eqn:Ek; [lia|].
    cbn [firstn].
    destruct (max_books <=? Z.of_nat (length (books ++ [Candidate t a c None])))%Z eqn:E.
    + apply Z.leb_le in E. rewrite length_app in E. simpl in E.
      assert (k = 0)%nat as -> by lia.
      exists [Candidate t a c None]. split; [|reflexivity].
      constructor; [exact Hb|]. rewrite firstn_O. constructor.
    + apply Z.leb_gt in E. rewrite length_app in E. simpl in E.
      destruct (IH (books ++ [Candidate t a c None]) ({[ lower (_clean_title line) ]} ∪ processed))
        as (new & Hnew & Eloop).
      { rewrite length_app. simpl. lia. }
      rewrite Eloop. exists (Candidate t a c None :: new).
      split; [|now rewrite <- app_assoc].
      constructor; [exact Hb|].
      replace k with (Z.to_nat (Z.max 1 max_books)
                      - length (books ++ [Candidate t a c None]))%nat; [exact Hnew|].
      rewrite length_app. simpl. lia.
Qed.

(** What [first_occurrences] keeps: texts of the list, in its order, no
    two of them equal up to letter case, and one for every text of the
    list that is not equal to a text seen before. *)
Lemma first_occurrences_sublist (cleaned : list pystr) :
  forall seen, sublist (first_occurrences seen cleaned) cleaned.
Proof.
  induction cleaned as [|c rest IH]; intros seen; simpl; [constructor|].
  case_bool_decide; [apply sublist_cons, IH|apply sublist_skip, IH].
Qed.

Lemma first_occurrences_unseen (cleaned : list pystr) :
  forall seen c, In c (first_occurrences seen cleaned) -> lower c ∉ seen.
Proof.
  induction cleaned as [|x rest IH]; intros seen c; simpl; [tauto|].
  case_bool_decide as Hx; [apply IH|].
  intros [<-|H]; [exact Hx|]. apply IH in H. set_solver.
Qed.

Lemma first_occurrences_NoDup (cleaned : list pystr) :
  forall seen, NoDup (map lower (first_occurrences seen cleaned)).
Proof.
  induction cleaned as [|x rest IH]; intros seen; simpl; [constructor|].
  case_bool_decide as Hx; [apply IH|]. simpl. constructor; [|apply IH].
  intros H. apply in_map_iff in H. destruct H as (c & E & Hc).
  apply first_occurrences_unseen in Hc. rewrite E in Hc. set_solver.
Qed.

Lemma first_occurrences_cover (cleaned : list pystr) :
  forall seen c, In c cleaned ->
    lower c ∈ seen \/ In (lower c) (map lower (first_occurrences seen cleaned)).
Proof.
  induction cleaned as [|x rest IH]; intros seen c; simpl; [tauto|].
  intros [<-|H].
  - case_bool_decide as Hx; [now left|right; now left].
  - case_bool_decide as Hx; [now apply IH|].
    destruct (IH ({[ lower x ]} ∪ seen) c H) as [Hs|Hi]; [|right; now right].
    apply elem_of_union in Hs. destruct Hs as [Hs|Hs]; [|now left].
    apply elem_of_singleton in Hs. right. left. now symmetry.
Qed.

(** C9, as amended.  Deduplication is on the whole cleaned line, up to
    letter case, before the line is cut into title and author.  Of the
    lines of the detected text that are long enough, are not taken for
    metadata and are not empty after cleaning, the loop accepts the cleaned
    form of each the first time it occurs, up to letter case, until it
    holds [max_books] candidates; it builds one candidate from each
    accepted cleaned line, and the result is those candidates, sorted and
    cut.  The accepted cleaned lines are cleaned lines of the text in their
    order, no two equal up to letter case, and every cleaned line of the
    text equals one of them up to letter case. *)
Theorem dedup_on_cleaned_lines (texts : list pystr) (max_books : Z) :
  let accepted_lines := first_occurrences ∅ (cleaned_lines texts) in
  (exists books,
     Forall2 built_from
       (firstn (Z.to_nat (Z.max 1 max_books)) accepted_lines) books /\
     _extract_books_from_text texts max_books
     = Some (slice_to max_books (sort_desc books))) /\
  sublist accepted_lines (cleaned_lines texts) /\
  NoDup (map lower accepted_lines) /\
  (forall c, In c (cleaned_lines texts) -> In (lower c) (map lower accepted_lines)).
Proof.
  cbv zeta. split; [|split; [|split]].
  - unfold cleaned_lines, lines_of, _extract_books_from_text.
    destruct texts as [|full_text _].
    + exists []. simpl. rewrite firstn_nil. split; [constructor|].
      unfold slice_to. simpl. now destruct (max_books <? 0)%Z; rewrite firstn_nil.
    + match goal with |- context [extract_loop ?m ?ls [] ∅] =>
        destruct (extract_loop_first_occurrences m ls [] ∅) as (new & Hnew & E)
      end; [simpl; lia|].
      rewrite E. exists new. split; [|reflexivity].
      simpl length in Hnew. now rewrite Nat.sub_0_r in Hnew.
  - apply first_occurrences_sublist.
  - apply first_occurrences_NoDup.
  - intros c Hc. destruct (first_occurrences_cover _ ∅ c Hc) as [H|H]; [|exact H].
    set_solver.
Qed.

(** Example.  The example text of the specification: the line [1984] is four digits
    and is discarded with the ISBN and copyright lines; the one candidate
    left is the line that follows it, whole, with no author. *)
Lemma orwell_example :
  _extract_books_from_text [orwell_text] 20
  = Some [Candidate (str "by George Orwell") None (0.5 + 0.1 + 0.1 + 0.1)%float None].
Proof. vm_compute. reflexivity. Qed.

End GoogleVisionFacts.

(** ** Text normalisation: order, size and shape of the result *)

Module GoogleVisionResult.

Import Py Re Exc Provider GoogleVision PyFacts PyWords GoogleVisionFacts.

(** The words of a cleaned title: free of characters the substitution
    replaces and, when more than two, free of short noise words. *)
Definition clean_words (ws : list pystr) : Prop :=
  Forall word_ok ws /\
  Forall (Forall (fun c => kept_char c = true)) ws /\
  ((2 <? length ws)%nat = true -> filter keeps_word ws = ws).

(** What [separate_at] makes of a single-spaced text: the text itself, or
    the two parts around one of the separators, as they stand. *)
Definition cut_of (seps : list pystr) (text : pystr)
    (r : pystr * option pystr) : Prop :=
  match r with
  | (t, None) => t = text
  | (t, Some a) =>
      single_spaced t /\ single_spaced a /\
      exists sep, In sep seps /\ text = t ++ sep ++ a
  end.

(** *** Order *)

Lemma in_all_signals (s : signals) : In s all_signals.
Proof. destruct s as [[] [] [] [] [] []]; vm_compute; tauto. Qed.

(** On the values [score] takes, [<] and [<=] behave as an order: the
    comparisons were run on every pair and every triple of outcomes. *)
Lemma score_order_checked :
  forallb (fun a => forallb (fun b =>
    implb (score a <? score b)%float (score a <=? score b)%float &&
    ((score a <? score b)%float || (score b <=? score a)%float) &&
    forallb (fun c =>
      implb ((score b <=? score a)%float && (score c <=? score b)%float)
            (score c <=? score a)%float) all_signals) all_signals) all_signals
  = true.
Proof. vm_compute. reflexivity. Qed.

Lemma score_order (a b c : signals) :
  ((score a <? score b)%float = true -> (score a <=? score b)%float = true) /\
  ((score a <? score b)%float = false -> (score b <=? score a)%float = true) /\
  ((score b <=? score a)%float = true -> (score c <=? score b)%float = true ->
   (score c <=? score a)%float = true).
Proof.
  pose proof score_order_checked as H.
  rewrite forallb_forall in H. specialize (H a (in_all_signals a)).
  rewrite forallb_forall in H. specialize (H b (in_all_signals b)).
  apply andb_true_iff in H. destruct H as [H Ht].
  apply andb_true_iff in H. destruct H as [Hl Htot].
  rewrite forallb_forall in Ht. specialize (Ht c (in_all_signals c)).
  repeat split.
  - intros E. now rewrite E in Hl.
  - intros E. now rewrite E in Htot.
  - intros E1 E2. now rewrite E1, E2 in Ht.
Qed.

Lemma built_from_scored (cleaned : pystr) (b : candidate) :
  built_from cleaned b -> scored b.
Proof.
  intros (_ & _ & H & _). unfold _estimate_confidence in H.
  destruct cleaned; [discriminate|].
  match type of H with Some (score ?s) = _ => exists s end.
  congruence.
Qed.

Lemma insert_desc_sorted (x : candidate) (l : list candidate) :
  scored x -> Forall scored l ->
  StronglySorted may_follow l -> StronglySorted may_follow (insert_desc x l).
Proof.
  intros [sx Hx] Hl Hs. induction Hs as [|y l Hs IH Hy]; simpl.
  - repeat constructor.
  - inversion Hl as [|? ? [sy Hsy] Hl']; subst.
    destruct (confidence x <? confidence y)%float eqn:E.
    + constructor; [now apply IH|].
      eapply Permutation_Forall; [symmetry; apply insert_desc_perm|].
      constructor; [|exact Hy].
      unfold may_follow. rewrite Hx, Hsy in *. now apply (score_order sx sy sx).
    + constructor; [now constructor|].
      assert (Hxy : may_follow x y).
      { unfold may_follow. rewrite Hx, Hsy in *. now apply (score_order sx sy sx). }
      constructor; [exact Hxy|].
      rewrite Forall_forall in *. intros z Hz.
      destruct (Hl' z Hz) as [sz Hsz]. specialize (Hy z Hz).
      unfold may_follow in *. rewrite Hx, Hsy, Hsz in *.
      now apply (score_order sx sy sz).
Qed.

Lemma sort_desc_sorted (l : list candidate) :
  Forall scored l -> StronglySorted may_follow (sort_desc l).
Proof.
  induction 1 as [|x l Hx Hl IH]; simpl; [constructor|].
  apply insert_desc_sorted; [exact Hx| |exact IH].
  eapply Permutation_Forall; [symmetry; apply sort_desc_perm|exact Hl].
Qed.

Lemma firstn_sorted {A : Type} (R : A -> A -> Prop) (k : nat) :
  forall l, StronglySorted R l -> StronglySorted R (firstn k l).
Proof.
  induction k as [|k IH]; intros l H; simpl; [constructor|].
  destruct H as [|x l Hs Hx]; constructor; [now apply IH|].
  now apply GoogleVisionFacts.Forall_firstn.
Qed.

(** *** Size *)

(** The loop stops as soon as it holds [max_books] candidates, and after
    its first candidate when [max_books] is less than one. *)
Lemma extract_loop_length (max_books : Z) (lines : list pystr) :
  forall books processed out,
    (Z.of_nat (length books) < Z.max 1 max_books)%Z ->
    extract_loop max_books lines books processed = Some out ->
    (Z.of_nat (length out) <= Z.max 1 max_books)%Z.
Proof.
  induction lines as [|line rest IH]; intros books processed out Hlen; simpl.
  - intros H. inversion H; subst. lia.
  - destruct (length line <? 3)%nat; [now apply IH|].
    destruct (_is_likely_metadata line); [now apply IH|].
    destruct (truthy (_clean_title line) && _); [|now apply IH].
    destruct (_separate_title_author (_clean_title line)) as [t a].
    destruct (_estimate_confidence (_clean_title line)) as [c|]; [|discriminate].
    destruct (max_books <=? _)%Z eqn:E.
    + intros H. inversion H; subst. rewrite length_app in *. simpl in *. lia.
    + apply IH. apply Z.leb_gt in E. rewrite length_app in *. simpl in *. lia.
Qed.

Lemma slice_to_length_max {A : Type} (n : Z) (l : list A) :
  (Z.of_nat (length l) <= Z.max 1 n)%Z ->
  (Z.of_nat (length (slice_to n l)) <= Z.max 0 n)%Z.
Proof.
  intros H. unfold slice_to. destruct (n <? 0)%Z eqn:E; rewrite length_firstn.
  - apply Z.ltb_lt in E. lia.
  - apply Z.ltb_ge in E. lia.
Qed.

(** X7.  The OCR provider's [identify_books] raises exactly what text
    detection raised; otherwise it returns, without raising, a list sorted
    by confidence, largest first, that holds at most [max_books] candidates
    (none when [max_books] is zero or negative). *)
Theorem ocr_books_sorted_and_bounded (max_books : Z) :
  (forall e, identify_books (Raise e) max_books = Raise e) /\
  (forall texts, exists books,
     identify_books (Ok texts) max_books = Ok books /\
     StronglySorted may_follow books /\
     (Z.of_nat (length books) <= Z.max 0 max_books)%Z).
Proof.
  split; [reflexivity|]. intros texts. unfold identify_books.
  unfold _extract_books_from_text. destruct texts as [|full_text _].
  - exists []. split; [reflexivity|]. split; [constructor|simpl; lia].
  - match goal with |- context [extract_loop ?m ?ls [] ∅] =>
      destruct (extract_loop_spec m ls [] ∅ []) as (cs & out & E & HB & _ & _);
        [constructor|constructor|constructor|intros c []|];
      pose proof (extract_loop_length m ls [] ∅ out) as Hlen
    end.
    rewrite E. eexists. split; [reflexivity|]. split.
    + destruct (slice_to_firstn max_books (sort_desc out)) as [k ->].
      apply firstn_sorted, sort_desc_sorted.
      clear E Hlen. induction HB as [|c b cs out Hcb _ IH]; constructor;
        [now apply (built_from_scored c)|exact IH].
    + apply slice_to_length_max.
      rewrite (Permutation_length (sort_desc_perm out)).
      apply Hlen; [simpl; lia|exact E].
Qed.

(** *** Shape of cleaned titles *)

Lemma blank_out_kept (c : ascii) : kept_char (blank_out c) = true.
Proof. unfold blank_out. destruct (kept_char c) eqn:E; [exact E|reflexivity]. Qed.

Lemma blank_out_fixed (s : pystr) :
  Forall (fun c => kept_char c = true) s -> map blank_out s = s.
Proof.
  induction 1 as [|c s Hc _ IH]; [reflexivity|].
  simpl. unfold blank_out at 1. now rewrite Hc, IH.
Qed.

Lemma filter_twice {A : Type} (f : A -> bool) (l : list A) :
  filter f (filter f l) = filter f l.
Proof.
  induction l as [|x l IH]; [reflexivity|]. simpl.
  destruct (f x) eqn:E; [|exact IH]. simpl. now rewrite E, IH.
Qed.

Lemma filter_chars {A : Type} (P : A -> Prop) (f : A -> bool) (l : list A) :
  Forall P l -> Forall P (filter f l).
Proof.
  induction 1 as [|x l Hx _ IH]; simpl; [constructor|].
  destruct (f x); [now constructor|exact IH].
Qed.

Lemma clean_title_unfold (text : pystr) :
  _clean_title text =
  let words := split (join (str " ") (split (map blank_out text))) in
  join (str " ")
    (if (2 <? length words)%nat then filter keeps_word words else words).
Proof. reflexivity. Qed.

Lemma clean_title_words (text : pystr) :
  exists ws, clean_words ws /\ _clean_title text = join (str " ") ws.
Proof.
  rewrite clean_title_unfold. cbv zeta.
  rewrite split_join by apply split_ok.
  set (words := split (map blank_out text)).
  assert (Hok : Forall word_ok words) by apply split_ok.
  assert (Hk : Forall (Forall (fun c => kept_char c = true)) words).
  { apply split_chars. apply Forall_forall. intros c Hc.
    apply in_map_iff in Hc. destruct Hc as (x & <- & _). apply blank_out_kept. }
  destruct (2 <? length words)%nat eqn:E.
  - exists (filter keeps_word words). split; [|reflexivity].
    split; [now apply filter_ok|]. split; [now apply filter_chars|].
    intros _. apply filter_twice.
  - exists words. split; [|reflexivity].
    split; [exact Hok|]. split; [exact Hk|]. congruence.
Qed.

Lemma clean_title_of_words (ws : list pystr) :
  clean_words ws -> _clean_title (join (str " ") ws) = join (str " ") ws.
Proof.
  intros (Hok & Hk & Hf). rewrite clean_title_unfold. cbv zeta.
  rewrite blank_out_fixed.
  - rewrite !split_join; [|exact Hok|rewrite split_join; exact Hok].
    destruct (2 <? length ws)%nat; [now rewrite Hf|reflexivity].
  - apply join_chars; [|exact Hk]. repeat constructor.
Qed.

(** X17.  [_clean_title] is idempotent: a cleaned title is left as it is
    by a second cleaning, so a title that was accepted is recognised as
    the same title when it is met again. *)
Theorem clean_title_idempotent (text : pystr) :
  _clean_title (_clean_title text) = _clean_title text.
Proof.
  destruct (clean_title_words text) as (ws & Hws & ->).
  now apply clean_title_of_words.
Qed.

Lemma clean_title_single_spaced (text : pystr) :
  _clean_title text <> [] -> single_spaced (_clean_title text).
Proof.
  destruct (clean_title_words text) as (ws & (Hok & _) & ->). intros Hne.
  exists ws. split; [|now split]. intros ->. now apply Hne.
Qed.

(** *** Title and author *)

Lemma separators_spaced : Forall spaced separators.
Proof.
  unfold separators. repeat constructor.
  - now exists (str "by").
  - now exists (str "BY").
  - now exists (str "-").
  - eexists. reflexivity.
  - now exists (str "|").
Qed.

Lemma separate_at_cut (seps : list pystr) (text : pystr) :
  Forall spaced seps -> single_spaced text ->
  cut_of seps text (separate_at seps text).
Proof.
  intros Hseps Ht. induction Hseps as [|sep seps [m Hm] _ IH].
  - simpl. now apply single_spaced_strip.
  - cbn [separate_at]. destruct (contains sep text).
    + destruct (split_once sep text) as [[before after]|] eqn:E.
      * apply split_once_app in E.
        assert (E' : text = before ++ " "%char :: (m ++ " "%char :: after)).
        { rewrite E, Hm. simpl. now rewrite <- app_assoc. }
        destruct (single_spaced_cut _ _ _ Ht E') as [Hb Hr].
        destruct (single_spaced_cut _ _ _ Hr eq_refl) as [_ Ha].
        destruct (single_spaced_strip _ Hb) as [_ ->].
        destruct (single_spaced_strip _ Ha) as [_ ->].
        simpl. split; [exact Hb|]. split; [exact Ha|].
        exists sep. split; [now left|exact E].
      * simpl. now apply single_spaced_strip.
    + destruct (separate_at seps text) as [t [a|]]; simpl in *; [|exact IH].
      destruct IH as (H1 & H2 & sep' & Hin & E).
      split; [exact H1|]. split; [exact H2|]. exists sep'. split; [now right|exact E].
Qed.

(** X18.  On a cleaned title the two [strip] calls of
    [_separate_title_author] remove nothing: when an author is returned,
    title, separator and author together are the cleaned title again, and
    both title and author are non-empty single-spaced texts; when none is
    returned, the title is the cleaned title. *)
Theorem title_and_author_reassemble (line : pystr) :
  cut_of separators (_clean_title line) (_separate_title_author (_clean_title line)).
Proof.
  destruct (_clean_title line) as [|c t] eqn:E; [reflexivity|].
  rewrite <- E. apply separate_at_cut; [exact separators_spaced|].
  apply clean_title_single_spaced. congruence.
Qed.

(** X19.  Text normalisation returns candidates whose title is a
    non-empty single-spaced text and is left alone by [strip], and whose
    author, when there is one, is such a text too. *)
Theorem candidate_texts_are_single_spaced (texts : list pystr) (max_books : Z) :
  exists books,
    _extract_books_from_text texts max_books = Some books /\
    Forall (fun b =>
              single_spaced (title b) /\ strip (title b) = title b /\
              match author b with
              | None => True
              | Some a => single_spaced a /\ strip a = a
              end)
           books.
Proof.
  destruct (extract_books_spec texts max_books) as (cs & books & E & HB & HF & _).
  exists books. split; [exact E|].
  eapply Forall2_Forall_r; [|exact HB|exact HF].
  intros c b (Ht & Ha & _) (Hne & line & ->).
  pose proof (clean_title_single_spaced line Hne) as Hs.
  pose proof (separate_at_cut separators _ separators_spaced Hs) as Hc.
  fold (_separate_title_author (_clean_title line)) in Hc.
  destruct (_separate_title_author (_clean_title line)) as [t [a|]];
    simpl in Ht, Ha, Hc; rewrite Ht, Ha.
  - destruct Hc as (H1 & H2 & _).
    split; [exact H1|]. split; [now apply single_spaced_strip|].
    split; [exact H2|now apply single_spaced_strip].
  - rewrite Hc. split; [exact Hs|]. split; [now apply single_spaced_strip|exact I].
Qed.

End GoogleVisionResult.

(** ** The multimodal provider: [OpenAIVisionService.identify_books] *)

Module OpenAIFacts.

Import Py Exc Json Provider OpenAI.

(** C4, counterexample.  A reply whose content [json.loads] rejects, and a
    reply whose content decodes to something that is no list, both end in a
    successful, empty candidate list; and of a list with an element that is
    no candidate object, the rest is returned. *)
Lemma parse_failure_is_empty_success :
  identify_books str_of_text float_of_number (Reply JSONDecodeError) 20 = Ok [] /\
  identify_books str_of_text float_of_number
    (Reply (Value (JDict [(str "error", JStr (str "no books"))]))) 20 = Ok [] /\
  identify_books str_of_text float_of_number
    (Reply (Value (JList [JInt 7;
                          JDict [(str "title", JStr (str "Dune"));
                                 (str "confidence", JFloat 0.9)]]))) 20
  = Ok [Candidate (str "Dune") None 0.9 None].
Proof. repeat split. Qed.

(** C4, as amended.  For every reply whose content cannot be parsed as a
    JSON array (the text is no JSON, or it decodes to a value that is no
    list), [identify_books] returns the empty candidate list and raises
    nothing. *)
Theorem unparseable_reply_gives_empty_list
    (str_of : json -> pystr) (float_of : json -> result error float)
    (content : loaded) (max_books : Z) :
  parses_as_list content = false ->
  identify_books str_of float_of (Reply content) max_books = Ok [].
Proof.
  intros H. destruct content as [|v]; [reflexivity|].
  destruct v; try reflexivity. discriminate.
Qed.

Lemma unparseable_reply_gives_empty_list_witness :
  parses_as_list JSONDecodeError = false /\
  identify_books str_of_text float_of_number (Reply JSONDecodeError) 20 = Ok [].
Proof.
  split; [reflexivity|].
  apply (unparseable_reply_gives_empty_list str_of_text float_of_number
           JSONDecodeError 20).
  reflexivity.
Defined.

(** [identify_books] raises only what the API call raised or what [float]
    raised on a confidence. *)
Lemma identify_books_failed
    (str_of : json -> pystr) (float_of : json -> result error float)
    (e : error) (max_books : Z) :
  identify_books str_of float_of (Failed e) max_books = Raise e.
Proof. reflexivity. Qed.

End OpenAIFacts.

(** ** The scan endpoint *)

Module ScanFacts.

Import Py Exc Config Provider Scan.

(** C2, counterexample.  Both providers are configured, both are attempted
    and both fail: the endpoint raises, it returns no response. *)
Lemma both_providers_fail_raises :
  scan_shelf declared_checks
    (sample_world (Some (str "sk-test")) (Some (str "shelf-project"))
       (Raise (Error (str "APIError") (str "timeout")))
       (Raise (Error (str "Exception") (str "quota exceeded"))))
    (sample_request true)
  = Raises 500 (str "Google Vision also failed: quota exceeded").
Proof. reflexivity. Qed.

(** C2, as amended.  For every scan request in which both the primary and
    the fallback provider are attempted and both fail, the endpoint raises
    an HTTP 500 error whose detail is the text "Google Vision also failed: "
    followed by the fallback's error, which is not empty; it returns no
    response. *)
Theorem both_fail_raises_500 (rejects : candidate -> option pystr)
    (w : world) (rq : request) (s : UserSession) (path : pystr) (e1 e2 : error) :
  session_query w = Ok (Some s) -> is_expired s = false ->
  validate_image (settings w) (image rq) = true ->
  saved_image w = Ok path ->
  OpenAI.__init__ (settings w) = Ok tt ->
  use_fallback rq = true ->
  GoogleVision.__init__ (GOOGLE_VISION_AVAILABLE w) (settings w) (vision_client w) = Ok tt ->
  attempt rejects (primary w) = Raise e1 ->
  attempt rejects (secondary w) = Raise e2 ->
  scan_shelf rejects w rq
  = Raises 500 (str "Google Vision also failed: " ++ message e2) /\
  str "Google Vision also failed: " ++ message e2 <> [].
Proof.
  intros Hs He Hi Hp Ho Hf Hg H1 H2. split; [|discriminate].
  assert (Hkey : is_set (OPENAI_API_KEY (settings w)) = true).
  { unfold OpenAI.__init__ in Ho.
    destruct (is_set (OPENAI_API_KEY (settings w))); [reflexivity|discriminate]. }
  assert (Hproj : is_set (GOOGLE_CLOUD_PROJECT (settings w)) = true).
  { unfold GoogleVision.__init__ in Hg.
    destruct (GOOGLE_VISION_AVAILABLE w); [|discriminate].
    destruct (is_set (GOOGLE_CLOUD_PROJECT (settings w))); [reflexivity|discriminate]. }
  unfold scan_shelf, scan_body.
  rewrite Hs. simpl. rewrite He, Hi, Hp, Ho, Hf. simpl. rewrite Hg. simpl.
  unfold try_providers. rewrite Hkey, H1, Hf. simpl.
  rewrite Hproj, H2. reflexivity.
Qed.

Lemma both_fail_raises_500_witness :
  scan_shelf declared_checks
    (sample_world (Some (str "sk-test")) (Some (str "shelf-project"))
       (Raise (Error (str "APIError") (str "timeout")))
       (Raise (Error (str "Exception") (str "quota exceeded"))))
    (sample_request true)
  = Raises 500 (str "Google Vision also failed: " ++ str "quota exceeded") /\
  str "Google Vision also failed: " ++ str "quota exceeded" <> [].
Proof.
  apply (both_fail_raises_500 declared_checks
           (sample_world (Some (str "sk-test")) (Some (str "shelf-project"))
              (Raise (Error (str "APIError") (str "timeout")))
              (Raise (Error (str "Exception") (str "quota exceeded"))))
           (sample_request true) {| is_expired := false |}
           (str "uploads/0b9d6f0e-scan/shelf_image.jpg")
           (Error (str "APIError") (str "timeout"))
           (Error (str "Exception") (str "quota exceeded")));
    reflexivity.
Defined.

(** C5.  When neither provider is configured, a request with a valid
    session and a valid image is answered, without an error raised, by a
    response with [success = false], no recognised book, [api_used = "none"]
    and an error message that is not empty. *)
Theorem no_provider_configured (rejects : candidate -> option pystr)
    (w : world) (rq : request) (s : UserSession) :
  is_set (OPENAI_API_KEY (settings w)) = false ->
  is_set (GOOGLE_CLOUD_PROJECT (settings w)) = false ->
  session_query w = Ok (Some s) -> is_expired s = false ->
  validate_image (settings w) (image rq) = true ->
  exists detail,
    scan_shelf rejects w rq
    = Return {| scan_id := new_scan_id w;
                recognized_books := [];
                total_books_found := 0;
                api_used := str "none";
                success := false;
                error_message := Some detail |} /\
    detail <> [].
Proof.
  intros Hkey _ Hs He Hi.
  unfold scan_shelf, scan_body. rewrite Hs. simpl. rewrite He, Hi. simpl.
  destruct (saved_image w) as [path|e]; simpl.
  - unfold OpenAI.__init__. rewrite Hkey. simpl.
    eexists. split; [reflexivity|discriminate].
  - eexists. split; [reflexivity|discriminate].
Qed.

Lemma no_provider_configured_witness :
  exists detail,
    scan_shelf declared_checks (sample_world None None (Ok []) (Ok []))
      (sample_request true)
    = Return {| scan_id := str "0b9d6f0e-scan";
                recognized_books := [];
                total_books_found := 0;
                api_used := str "none";
                success := false;
                error_message := Some detail |} /\
    detail <> [].
Proof.
  apply (no_provider_configured declared_checks
           (sample_world None None (Ok []) (Ok [])) (sample_request true)
           {| is_expired := false |}); reflexivity.
Defined.

(** C3 (the code departs from the claim).  The primary provider is
    configured and its call would succeed, the fallback is enabled (the
    default) and no Google Cloud project is configured: the fallback service
    is constructed before the primary is tried, its constructor raises, and
    the scan ends in the failure response without calling the primary.  With
    the fallback disabled the same scan succeeds through the primary. *)
Theorem primary_success_lost_without_fallback_project :
  let dune := Candidate (str "Dune") (Some (str "Frank Herbert")) 0.9 None in
  let w := sample_world (Some (str "sk-test")) None (Ok [dune]) (Ok []) in
  scan_shelf declared_checks w (sample_request true)
  = Return {| scan_id := str "0b9d6f0e-scan";
              recognized_books := [];
              total_books_found := 0;
              api_used := str "none";
              success := false;
              error_message :=
                Some (str "Scan failed: Google Cloud project not configured") |} /\
  scan_shelf declared_checks w (sample_request false)
  = Return {| scan_id := str "0b9d6f0e-scan";
              recognized_books :=
                [ {| rb_title := str "Dune"; rb_author := Some (str "Frank Herbert");
                     rb_confidence := 0.9; rb_position := None |} ];
              total_books_found := 1;
              api_used := str "openai";
              success := true;
              error_message := None |}.
Proof. split; reflexivity. Qed.

(** X3.  Once both services are constructed, a primary attempt that succeeds
    decides the scan: the answer is the primary's, whatever the fallback
    would say. *)
Lemma primary_success_decides (rejects : candidate -> option pystr)
    (w : world) (rq : request) (s : UserSession) (path : pystr)
    (books : list RecognizedBook) (google_service : option unit) :
  session_query w = Ok (Some s) -> is_expired s = false ->
  validate_image (settings w) (image rq) = true ->
  saved_image w = Ok path ->
  OpenAI.__init__ (settings w) = Ok tt ->
  (if use_fallback rq
   then lift (GoogleVision.__init__ (GOOGLE_VISION_AVAILABLE w) (settings w)
                (vision_client w)) >>= fun s => Ok (Some s)
   else Ok None) = Ok google_service ->
  attempt rejects (primary w) = Ok books ->
  scan_shelf rejects w rq
  = Return {| scan_id := new_scan_id w;
              recognized_books := books;
              total_books_found := length books;
              api_used := str "openai";
              success := true;
              error_message := None |}.
Proof.
  intros Hs He Hi Hp Ho Hg H1.
  assert (Hkey : is_set (OPENAI_API_KEY (settings w)) = true).
  { unfold OpenAI.__init__ in Ho.
    destruct (is_set (OPENAI_API_KEY (settings w))); [reflexivity|discriminate]. }
  unfold scan_shelf, scan_body.
  rewrite Hs. simpl. rewrite He, Hi, Hp, Ho. simpl. rewrite Hg. simpl.
  unfold try_providers. rewrite Hkey, H1. reflexivity.
Qed.

Lemma primary_success_decides_witness :
  scan_shelf declared_checks
    (sample_world (Some (str "sk-test")) (Some (str "shelf-project"))
       (Ok [Candidate (str "Dune") (Some (str "Frank Herbert")) 0.9 None])
       (Raise (Error (str "Exception") (str "quota exceeded"))))
    (sample_request true)
  = Return {| scan_id := str "0b9d6f0e-scan";
              recognized_books :=
                [ {| rb_title := str "Dune"; rb_author := Some (str "Frank Herbert");
                     rb_confidence := 0.9; rb_position := None |} ];
              total_books_found := 1;
              api_used := str "openai";
              success := true;
              error_message := None |}.
Proof.
  apply (primary_success_decides declared_checks
           (sample_world (Some (str "sk-test")) (Some (str "shelf-project"))
              (Ok [Candidate (str "Dune") (Some (str "Frank Herbert")) 0.9 None])
              (Raise (Error (str "Exception") (str "quota exceeded"))))
           (sample_request true) {| is_expired := false |}
           (str "uploads/0b9d6f0e-scan/shelf_image.jpg")
           [ {| rb_title := str "Dune"; rb_author := Some (str "Frank Herbert");
                rb_confidence := 0.9; rb_position := None |} ]
           (Some tt));
    reflexivity.
Defined.

(** X4.  When the primary attempt fails, the fallback is enabled and
    constructed, and the fallback attempt succeeds, the answer is the
    fallback's: [api_used = "google"], its books, and no error message. *)
Theorem fallback_success_is_reported (rejects : candidate -> option pystr)
    (w : world) (rq : request) (s : UserSession) (path : pystr) (e1 : error)
    (books : list RecognizedBook) :
  session_query w = Ok (Some s) -> is_expired s = false ->
  validate_image (settings w) (image rq) = true ->
  saved_image w = Ok path ->
  OpenAI.__init__ (settings w) = Ok tt ->
  use_fallback rq = true ->
  GoogleVision.__init__ (GOOGLE_VISION_AVAILABLE w) (settings w) (vision_client w) = Ok tt ->
  attempt rejects (primary w) = Raise e1 ->
  attempt rejects (secondary w) = Ok books ->
  scan_shelf rejects w rq
  = Return {| scan_id := new_scan_id w;
              recognized_books := books;
              total_books_found := length books;
              api_used := str "google";
              success := true;
              error_message := None |}.
Proof.
  intros Hs He Hi Hp Ho Hf Hg H1 H2.
  assert (Hkey : is_set (OPENAI_API_KEY (settings w)) = true).
  { unfold OpenAI.__init__ in Ho.
    destruct (is_set (OPENAI_API_KEY (settings w))); [reflexivity|discriminate]. }
  assert (Hproj : is_set (GOOGLE_CLOUD_PROJECT (settings w)) = true).
  { unfold GoogleVision.__init__ in Hg.
    destruct (GOOGLE_VISION_AVAILABLE w); [|discriminate].
    destruct (is_set (GOOGLE_CLOUD_PROJECT (settings w))); [reflexivity|discriminate]. }
  unfold scan_shelf, scan_body.
  rewrite Hs. simpl. rewrite He, Hi, Hp, Ho, Hf. simpl. rewrite Hg. simpl.
  unfold try_providers. rewrite Hkey, H1, Hf. simpl.
  rewrite Hproj, H2. reflexivity.
Qed.

Lemma fallback_success_is_reported_witness :
  scan_shelf declared_checks
    (sample_world (Some (str "sk-test")) (Some (str "shelf-project"))
       (Raise (Error (str "APIError") (str "timeout")))
       (Ok [Candidate (str "Dune") None 0.7 None]))
    (sample_request true)
  = Return {| scan_id := str "0b9d6f0e-scan";
              recognized_books :=
                [ {| rb_title := str "Dune"; rb_author := None;
                     rb_confidence := 0.7; rb_position := None |} ];
              total_books_found := 1;
              api_used := str "google";
              success := true;
              error_message := None |}.
Proof.
  apply (fallback_success_is_reported declared_checks
           (sample_world (Some (str "sk-test")) (Some (str "shelf-project"))
              (Raise (Error (str "APIError") (str "timeout")))
              (Ok [Candidate (str "Dune") None 0.7 None]))
           (sample_request true) {| is_expired := false |}
           (str "uploads/0b9d6f0e-scan/shelf_image.jpg")
           (Error (str "APIError") (str "timeout"))
           [ {| rb_title := str "Dune"; rb_author := None;
                rb_confidence := 0.7; rb_position := None |} ]);
    reflexivity.
Defined.

(** X5.  When the caller disabled the fallback and the primary attempt fails,
    the endpoint raises an HTTP 500 error that carries the primary's error;
    the fallback provider is not consulted. *)
Theorem no_fallback_failure_raises (rejects : candidate -> option pystr)
    (w : world) (rq : request) (s : UserSession) (path : pystr) (e1 : error) :
  session_query w = Ok (Some s) -> is_expired s = false ->
  validate_image (settings w) (image rq) = true ->
  saved_image w = Ok path ->
  OpenAI.__init__ (settings w) = Ok tt ->
  use_fallback rq = false ->
  attempt rejects (primary w) = Raise e1 ->
  scan_shelf rejects w rq = Raises 500 (str "AI processing failed: " ++ message e1).
Proof.
  intros Hs He Hi Hp Ho Hf H1.
  assert (Hkey : is_set (OPENAI_API_KEY (settings w)) = true).
  { unfold OpenAI.__init__ in Ho.
    destruct (is_set (OPENAI_API_KEY (settings w))); [reflexivity|discriminate]. }
  unfold scan_shelf, scan_body.
  rewrite Hs. simpl. rewrite He, Hi, Hp, Ho, Hf. simpl.
  unfold try_providers. rewrite Hkey, H1, Hf. reflexivity.
Qed.

Lemma no_fallback_failure_raises_witness :
  scan_shelf declared_checks
    (sample_world (Some (str "sk-test")) (Some (str "shelf-project"))
       (Raise (Error (str "APIError") (str "timeout")))
       (Ok [Candidate (str "Dune") None 0.7 None]))
    (sample_request false)
  = Raises 500 (str "AI processing failed: " ++ str "timeout").
Proof.
  apply (no_fallback_failure_raises declared_checks
           (sample_world (Some (str "sk-test")) (Some (str "shelf-project"))
              (Raise (Error (str "APIError") (str "timeout")))
              (Ok [Candidate (str "Dune") None 0.7 None]))
           (sample_request false) {| is_expired := false |}
           (str "uploads/0b9d6f0e-scan/shelf_image.jpg")
           (Error (str "APIError") (str "timeout")));
    reflexivity.
Defined.

End ScanFacts.

(** ** The multimodal provider: what the validation loop lets through *)

Module OpenAIAnswers.

Import Py Exc Json Provider OpenAI PyWords.

Section Builtins.

Variable str_of : json -> pystr.
Variable float_of : json -> result error float.

Lemma validate_book_validated (book : json) (c : candidate) :
  validate_book str_of float_of book = Ok (Some c) -> validated c.
Proof.
  destruct book; try discriminate. unfold validate_book.
  destruct (lookup (str "title") d) as [t|]; [|discriminate].
  destruct (float_of _) as [f|e]; cbn [bind]; [|discriminate].
  destruct (Py.truthy (strip (str_of t))) eqn:Et; [|discriminate].
  intros H. inversion H; subst; clear H. unfold validated; cbn [title author position].
  split; [now destruct (strip (str_of t))|].
  split; [apply strip_idempotent|]. split.
  - intros a. match goal with |- context [if ?b then _ else _] => destruct b end;
      [|discriminate].
    intros H. inversion H. apply strip_idempotent.
  - intros p. match goal with |- context [if ?b then _ else _] => destruct b end;
      [|discriminate].
    intros H. inversion H. apply strip_idempotent.
Qed.

Lemma validate_books_validated (l : list json) :
  forall cs, validate_books str_of float_of l = Ok cs ->
             Forall validated cs /\ (length cs <= length l)%nat.
Proof.
  induction l as [|book rest IH]; intros cs H; simpl in H.
  - inversion H. split; [constructor|reflexivity].
  - destruct (validate_book str_of float_of book) as [v|] eqn:Ev; [|discriminate].
    destruct (validate_books str_of float_of rest) as [vs|]; [|discriminate].
    destruct (IH vs eq_refl) as [Hv Hl]. simpl in H. inversion H; subst; clear H.
    destruct v as [c|]; simpl.
    + split; [|lia]. constructor; [|exact Hv]. now apply (validate_book_validated book).
    + split; [exact Hv|lia].
Qed.

Lemma slice_to_length {A : Type} (n : Z) (l : list A) :
  (0 <= n)%Z -> (Z.of_nat (length (slice_to n l)) <= n)%Z.
Proof.
  intros Hn. unfold slice_to. destruct (n <? 0)%Z eqn:E.
  - apply Z.ltb_lt in E. lia.
  - rewrite length_firstn. lia.
Qed.

(** X20.  Whatever the reply holds and whatever [str] and [float] make of
    its values, every candidate [identify_books] returns has a title that
    is not empty, and its title, author and position carry no white space
    at either end; and for a [max_books] that is not negative there are at
    most [max_books] of them. *)
Theorem identified_books_are_validated (r : reply) (max_books : Z)
    (books : list candidate) :
  identify_books str_of float_of r max_books = Ok books ->
  Forall validated books /\
  ((0 <= max_books)%Z -> (Z.of_nat (length books) <= max_books)%Z).
Proof.
  destruct r as [e|[|v]]; simpl.
  - discriminate.
  - intros H. inversion H. split; [constructor|simpl; lia].
  - destruct v; try (intros H; inversion H; split; [constructor|simpl; lia]).
    intros H. apply validate_books_validated in H. destruct H as [Hv Hl].
    split; [exact Hv|]. intros Hn. pose proof (slice_to_length max_books l Hn). lia.
Qed.

Lemma validate_book_raises (book : json) :
  (exists e, validate_book str_of float_of book = Raise e) <->
  bad_confidence float_of book.
Proof.
  unfold bad_confidence. split.
  - intros [e H]. destruct book; try discriminate. unfold validate_book in H.
    destruct (lookup (str "title") d) as [t|] eqn:Et; [|discriminate].
    destruct (float_of _) as [f|e'] eqn:Ef.
    + cbn [bind] in H. destruct (Py.truthy _); discriminate.
    + exists d, e'. split; [reflexivity|]. split; [congruence|exact Ef].
  - intros (d & e & -> & Ht & Ef). exists e. unfold validate_book.
    destruct (lookup (str "title") d); [|congruence]. now rewrite Ef.
Qed.

Lemma validate_books_raises (l : list json) :
  (exists e, validate_books str_of float_of l = Raise e) <->
  Exists (bad_confidence float_of) l.
Proof.
  induction l as [|book rest IH]; simpl.
  - split; [intros [e H]; discriminate|intros H; inversion H].
  - rewrite Exists_cons, <- IH, <- validate_book_raises.
    destruct (validate_book str_of float_of book) as [v|e]; simpl.
    + destruct (validate_books str_of float_of rest) as [vs|e]; simpl.
      * split; [intros [e H]; discriminate|].
        intros [[e H]|[e H]]; discriminate.
      * split; [intros _; right; now exists e|intros _; now exists e].
    + split; [intros _; left; now exists e|intros _; now exists e].
Qed.

(** X21.  [identify_books] is all or nothing on a decoded list: it raises
    exactly when, among the elements it looks at, one is an object with a
    title on whose confidence [float] raises; every other candidate of the
    reply is then lost with it. *)
Theorem one_bad_confidence_loses_every_book (l : list json) (max_books : Z) :
  (exists e, identify_books str_of float_of (Reply (Value (JList l))) max_books = Raise e)
  <-> Exists (bad_confidence float_of) (slice_to max_books l).
Proof. apply validate_books_raises. Qed.

End Builtins.

Lemma identified_books_are_validated_witness :
  Forall validated [Candidate (str "Dune") (Some (str "Frank Herbert")) 0.9 None] /\
  ((0 <= 20)%Z -> (Z.of_nat 1 <= 20)%Z).
Proof.
  apply (identified_books_are_validated str_of_text float_of_number
           (Reply (Value (JList [JInt 7;
              JDict [(str "title", JStr (str " Dune "));
                     (str "author", JStr (str "Frank Herbert "));
                     (str "confidence", JFloat 0.9)]]))) 20).
  reflexivity.
Defined.

End OpenAIAnswers.

(** ** The scan endpoint: what every answer looks like *)

Module ScanAnswers.

Import Py Exc Config Provider Scan.

Section Endpoint.

Variable rejects : candidate -> option pystr.

Lemma or_default_nonempty (m : option pystr) (default : pystr) :
  default <> [] -> or_default m default <> [].
Proof.
  intros Hd. unfold or_default. destruct m as [s|]; [|exact Hd].
  destruct s; simpl; [exact Hd|discriminate].
Qed.

(** The provider attempts end well only with a success, which names the
    provider whose answer it holds. *)
Lemma try_providers_ok (w : world) (rq : request) (google_service : option unit)
    (p : progress) :
  try_providers rejects w rq google_service = Ok p ->
  p_success p = true /\
  ((p_api_used p = str "openai" /\
    attempt rejects (primary w) = Ok (p_recognized_books p)) \/
   (p_api_used p = str "google" /\ use_fallback rq = true /\
    attempt rejects (secondary w) = Ok (p_recognized_books p))).
Proof.
  unfold try_providers.
  destruct (is_set (OPENAI_API_KEY (settings w))).
  - destruct (attempt rejects (primary w)) as [books|e] eqn:E1.
    + simpl. intros H. inversion H; subst. simpl. auto.
    + destruct (use_fallback rq) eqn:Ef; simpl; [|discriminate].
      destruct google_service as [[]|]; simpl; [|discriminate].
      destruct (is_set (GOOGLE_CLOUD_PROJECT (settings w))); simpl; [|discriminate].
      destruct (attempt rejects (secondary w)) as [books|e2] eqn:E2; simpl;
        [|discriminate].
      intros H. inversion H; subst. simpl. auto.
  - simpl. destruct (use_fallback rq) eqn:Ef; simpl; [|discriminate].
    destruct google_service as [[]|]; simpl; [|discriminate].
    destruct (is_set (GOOGLE_CLOUD_PROJECT (settings w))); simpl; [|discriminate].
    destruct (attempt rejects (secondary w)) as [books|e2] eqn:E2; simpl;
      [|discriminate].
    intros H. inversion H; subst. simpl. auto.
Qed.

(** What the provider attempts raise: an HTTP 500 error with a detail that
    is not empty, or, with the fallback disabled, the primary's own
    exception. *)
Lemma try_providers_raise (w : world) (rq : request) (google_service : option unit)
    (r : raised) :
  try_providers rejects w rq google_service = Raise r ->
  (exists detail, r = HTTPException 500 detail /\ detail <> []) \/
  (exists e, r = Other e /\ use_fallback rq = false /\
             attempt rejects (primary w) = Raise e).
Proof.
  unfold try_providers.
  destruct (is_set (OPENAI_API_KEY (settings w))).
  - destruct (attempt rejects (primary w)) as [books|e] eqn:E1.
    + simpl. discriminate.
    + destruct (use_fallback rq) eqn:Ef; simpl.
      * destruct google_service as [[]|]; simpl;
          [destruct (is_set (GOOGLE_CLOUD_PROJECT (settings w))); simpl;
           [destruct (attempt rejects (secondary w)) as [books|e2]; simpl|]|];
          try discriminate; intros H; inversion H; subst; left;
          eexists; (split; [reflexivity|discriminate]).
      * intros H. inversion H; subst. right. eauto.
  - simpl. destruct (use_fallback rq); simpl;
      [destruct google_service as [[]|]; simpl;
       [destruct (is_set (GOOGLE_CLOUD_PROJECT (settings w))); simpl;
        [destruct (attempt rejects (secondary w)) as [books|e2]; simpl|]|]|];
      try discriminate; intros H; inversion H; subst; left;
      eexists; (split; [reflexivity|discriminate]).
Qed.

(** The body of the endpoint ends well only after a provider succeeded. *)
Lemma scan_body_ok (w : world) (rq : request) (resp : ShelfScanResponse) :
  scan_body rejects w rq = Ok resp ->
  exists p google_service,
    try_providers rejects w rq google_service = Ok p /\
    resp = {| scan_id := new_scan_id w;
              recognized_books := p_recognized_books p;
              total_books_found := length (p_recognized_books p);
              api_used := p_api_used p;
              success := p_success p;
              error_message := if negb (p_success p) then p_error_message p else None |}.
Proof.
  unfold scan_body.
  destruct (session_query w) as [[s|]|e]; simpl; try discriminate.
  destruct (is_expired s); [discriminate|].
  destruct (validate_image (settings w) (image rq)); simpl; [|discriminate].
  destruct (saved_image w) as [path|e]; simpl; [|discriminate].
  destruct (OpenAI.__init__ (settings w)) as [[]|e]; simpl; [|discriminate].
  destruct (use_fallback rq) eqn:Ef;
    [destruct (GoogleVision.__init__ _ _ _) as [[]|e]; simpl; [|discriminate]|simpl];
    (destruct (try_providers rejects w rq _) as [p|r] eqn:Et; simpl;
     [intros H; inversion H; subst; eauto|destruct r; discriminate]).
Qed.

(** X8.  Every response the scan endpoint returns is well formed: the count
    is the number of books; a success names the provider used, "openai" or
    "google", and carries no error message; a failure carries no book, the
    provider "none" and an error message that is not empty. *)
Theorem scan_response_invariant (w : world) (rq : request) (resp : ShelfScanResponse) :
  scan_shelf rejects w rq = Return resp ->
  scan_id resp = new_scan_id w /\
  total_books_found resp = length (recognized_books resp) /\
  (success resp = true ->
   error_message resp = None /\
   (api_used resp = str "openai" \/ api_used resp = str "google")) /\
  (success resp = false ->
   recognized_books resp = [] /\ api_used resp = str "none" /\
   exists detail, error_message resp = Some detail /\ detail <> []).
Proof.
  unfold scan_shelf. destruct (scan_body rejects w rq) as [r|[c d|e]] eqn:E;
    intros H; inversion H; subst; clear H.
  - apply scan_body_ok in E. destruct E as (p & gs & Hp & ->). simpl.
    apply try_providers_ok in Hp. destruct Hp as [Hs Hu]. rewrite Hs. simpl.
    split; [reflexivity|]. split; [reflexivity|]. split; [|discriminate].
    intros _. split; [reflexivity|].
    destruct Hu as [[Hu _]|[Hu _]]; auto.
  - simpl. split; [reflexivity|]. split; [reflexivity|]. split; [discriminate|].
    intros _. split; [reflexivity|]. split; [reflexivity|].
    eexists. split; [reflexivity|discriminate].
Qed.

(** X9.  An error the scan endpoint raises tells its cause by its status:
    404 when the session does not exist, 401 when it is expired, 400 when
    the image is refused, and 500, with a detail that is not empty, only
    for a request that passed these checks and whose services were
    constructed. *)
Theorem scan_raised_statuses (w : world) (rq : request) (c : Z) (d : pystr) :
  scan_shelf rejects w rq = Raises c d ->
  (c = 404%Z /\ d = str "Session not found" /\ session_query w = Ok None) \/
  (c = 401%Z /\ d = str "Session expired" /\
   exists s, session_query w = Ok (Some s) /\ is_expired s = true) \/
  (c = 400%Z /\
   exists s, session_query w = Ok (Some s) /\ is_expired s = false /\
             validate_image (settings w) (image rq) = false) \/
  (c = 500%Z /\ d <> [] /\
   exists s, session_query w = Ok (Some s) /\ is_expired s = false /\
             validate_image (settings w) (image rq) = true /\
             OpenAI.__init__ (settings w) = Ok tt).
Proof.
  unfold scan_shelf, scan_body.
  destruct (session_query w) as [[s|]|e]; simpl.
  - destruct (is_expired s) eqn:He.
    { intros H. inversion H; subst. right. left. eauto. }
    destruct (validate_image (settings w) (image rq)) eqn:Hi; simpl.
    2:{ intros H. inversion H; subst. right. right. left. eauto. }
    destruct (saved_image w) as [path|e]; simpl; [|discriminate].
    destruct (OpenAI.__init__ (settings w)) as [[]|e] eqn:Ho; simpl; [|discriminate].
    assert (Hend : forall gs,
      match inner_handlers (try_providers rejects w rq gs) >>= (fun p =>
              Ok {| scan_id := new_scan_id w;
                    recognized_books := p_recognized_books p;
                    total_books_found := length (p_recognized_books p);
                    api_used := p_api_used p;
                    success := p_success p;
                    error_message :=
                      if negb (p_success p) then p_error_message p else None |})
      with
      | Ok resp => Return resp
      | Raise (HTTPException status_code detail) => Raises status_code detail
      | Raise (Other e) => Return (failure_response w e)
      end = Raises c d -> c = 500%Z /\ d <> []).
    { intros gs. destruct (try_providers rejects w rq gs) as [p|r] eqn:Et; simpl;
        [discriminate|].
      apply try_providers_raise in Et.
      destruct Et as [(detail & -> & Hd)|(e & -> & _)]; simpl;
        intros H; inversion H; subst; (split; [reflexivity|]);
        [exact Hd|discriminate]. }
    destruct (use_fallback rq).
    + destruct (GoogleVision.__init__ _ _ _) as [[]|e]; simpl; [|discriminate].
      intros H. apply Hend in H. destruct H as [-> Hd].
      right. right. right. eauto 10.
    + simpl. intros H. apply Hend in H. destruct H as [-> Hd].
      right. right. right. eauto 10.
  - intros H. inversion H; subst. now left.
  - discriminate.
Qed.

(** X10.  A failure outside the provider attempts is reported, not raised:
    when the session query fails, or, for a valid request, the image cannot
    be saved or a service cannot be constructed, the endpoint returns the
    failure response whose message is "Scan failed: " followed by the text
    of the exception. *)
Theorem infrastructure_failure_is_reported (w : world) (rq : request) (e : error) :
  session_query w = Raise e \/
  (exists s, session_query w = Ok (Some s) /\ is_expired s = false /\
             validate_image (settings w) (image rq) = true /\
             (saved_image w = Raise e \/
              exists path, saved_image w = Ok path /\
                (OpenAI.__init__ (settings w) = Raise e \/
                 (OpenAI.__init__ (settings w) = Ok tt /\ use_fallback rq = true /\
                  GoogleVision.__init__ (GOOGLE_VISION_AVAILABLE w) (settings w)
                    (vision_client w) = Raise e)))) ->
  scan_shelf rejects w rq = Return (failure_response w e).
Proof.
  unfold scan_shelf, scan_body.
  intros [Hs|(s & Hs & He & Hi & [Hp|(path & Hp & [Ho|(Ho & Hf & Hg)])])];
    rewrite Hs; simpl; [reflexivity| | |];
    rewrite He, Hi, Hp; simpl; [reflexivity| |];
    rewrite Ho; simpl; [reflexivity|].
  rewrite Hf, Hg. reflexivity.
Qed.

End Endpoint.

Lemma scan_response_invariant_witness :
  exists resp,
    scan_shelf declared_checks
      (sample_world (Some (str "sk-test")) (Some (str "shelf-project"))
         (Raise (Error (str "APIError") (str "timeout")))
         (Ok [Candidate (str "Dune") None 0.7 None]))
      (sample_request true) = Return resp /\
    total_books_found resp = length (recognized_books resp) /\
    success resp = true.
Proof.
  eexists. split; [reflexivity|].
  split; [|reflexivity].
  apply (scan_response_invariant declared_checks
           (sample_world (Some (str "sk-test")) (Some (str "shelf-project"))
              (Raise (Error (str "APIError") (str "timeout")))
              (Ok [Candidate (str "Dune") None 0.7 None]))
           (sample_request true)).
  reflexivity.
Defined.

Lemma scan_raised_statuses_witness :
  scan_shelf declared_checks
    (sample_world (Some (str "sk-test")) None
       (Raise (Error (str "APIError") (str "timeout"))) (Ok []))
    (sample_request false)
  = Raises 500 (str "AI processing failed: timeout") /\
  OpenAI.__init__ (sample_settings (Some (str "sk-test")) None) = Ok tt.
Proof.
  split; [reflexivity|].
  destruct (scan_raised_statuses declared_checks
              (sample_world (Some (str "sk-test")) None
                 (Raise (Error (str "APIError") (str "timeout"))) (Ok []))
              (sample_request false) 500 (str "AI processing failed: timeout")
              eq_refl)
    as [(H & _)|[(H & _)|[(H & _)|(_ & _ & s & _ & _ & _ & H)]]];
    [discriminate H|discriminate H|discriminate H|exact H].
Defined.

Lemma infrastructure_failure_is_reported_witness :
  scan_shelf declared_checks full_disk_world (sample_request true)
  = Return (failure_response full_disk_world
              (Error (str "OSError") (str "No space left on device"))).
Proof.
  apply (infrastructure_failure_is_reported declared_checks full_disk_world
           (sample_request true)
           (Error (str "OSError") (str "No space left on device"))).
  right. exists {| is_expired := false |}. repeat split. now left.
Defined.

(** *** The saved image *)

Lemma split_char_nonempty (sep : ascii) (s : pystr) : split_char sep s <> [].
Proof.
  destruct s as [|c t]; simpl; [discriminate|].
  destruct (Ascii.eqb c sep); [discriminate|].
  destruct (split_char sep t); discriminate.
Qed.

Lemma last_cons_nonempty {A : Type} (x d : A) (l : list A) :
  l <> [] -> last (x :: l) d = last l d.
Proof. intros H. destruct l; [congruence|reflexivity]. Qed.

Lemma last_app_nonempty {A : Type} (d : A) (l1 l2 : list A) :
  l2 <> [] -> last (l1 ++ l2) d = last l2 d.
Proof.
  intros H. induction l1 as [|x l1 IH]; [reflexivity|].
  simpl app. rewrite last_cons_nonempty; [exact IH|].
  destruct l1; simpl; [exact H|discriminate].
Qed.

(** The last piece of [s.split(sep)] holds no separator. *)
Lemma split_char_last (sep : ascii) (s : pystr) :
  ~ In sep (last (split_char sep s) []).
Proof.
  induction s as [|c t IH]; [simpl; tauto|]. cbn [split_char].
  destruct (Ascii.eqb c sep) eqn:E.
  - rewrite last_cons_nonempty; [exact IH|apply split_char_nonempty].
  - destruct (split_char sep t) as [|w ws] eqn:Et;
      [now apply split_char_nonempty in Et|].
    destruct ws as [|w' ws']; [|exact IH].
    simpl in *. intros [->|H]; [|tauto].
    now rewrite Ascii.eqb_refl in E.
Qed.

Lemma split_char_whole (sep : ascii) (s : pystr) :
  ~ In sep s -> split_char sep s = [s].
Proof.
  induction s as [|c t IH]; intros H; [reflexivity|]. cbn [split_char].
  destruct (Ascii.eqb c sep) eqn:E.
  - apply Ascii.eqb_eq in E. subst. destruct H. now left.
  - rewrite IH; [reflexivity|]. intros Hin. apply H. now right.
Qed.

Lemma split_char_app (sep : ascii) (a b : pystr) :
  exists p ps, split_char sep (a ++ sep :: b) = (p :: ps) ++ split_char sep b.
Proof.
  induction a as [|c a (p & ps & IH)].
  - exists [], []. simpl. now rewrite Ascii.eqb_refl.
  - simpl app. cbn [split_char]. rewrite IH.
    destruct (Ascii.eqb c sep); [now exists [], (p :: ps)|].
    now exists (c :: p), ps.
Qed.

(** [s.split(sep)[-1]] is what follows the last separator. *)
Lemma split_char_suffix (sep : ascii) (a b : pystr) :
  ~ In sep b -> last (split_char sep (a ++ sep :: b)) [] = b.
Proof.
  intros H. destruct (split_char_app sep a b) as (p & ps & ->).
  rewrite last_app_nonempty by apply split_char_nonempty.
  now rewrite split_char_whole.
Qed.

Lemma contains_char (c : ascii) (s : pystr) :
  contains [c] s = true <-> In c s.
Proof.
  induction s as [|x s IH]; simpl.
  - split; [discriminate|tauto].
  - rewrite orb_true_iff, andb_true_r, IH, Ascii.eqb_eq.
    split; intros [H|H]; auto.
Qed.

Lemma path_join_relative (a b : pystr) :
  startswith (str "/") b = false ->
  path_join a b
  = a ++ (if negb (truthy a) || endswith (str "/") a then [] else str "/") ++ b.
Proof.
  intros H. unfold path_join. rewrite H.
  now destruct (negb (truthy a) || endswith (str "/") a).
Qed.

(** X22.  The path [save_uploaded_image] writes to is the scan directory,
    a slash unless the scan directory is the empty text or ends with one,
    [shelf_image.] and an extension that holds no full stop, so that no
    component of the path below the scan directory is [..]: the extension
    is what follows the last full stop of the uploaded file's name, and
    [jpg] when the name has none. *)
Theorem saved_image_path (upload_path scan_id filename : pystr) :
  let ext := file_extension filename in
  let scan_dir := path_join upload_path scan_id in
  ~ In "."%char ext /\
  save_path upload_path scan_id filename
  = scan_dir
    ++ (if negb (truthy scan_dir) || endswith (str "/") scan_dir then [] else str "/")
    ++ str "shelf_image." ++ ext /\
  (~ In "."%char filename -> ext = str "jpg") /\
  (forall stem e, filename = stem ++ "."%char :: e -> ~ In "."%char e -> ext = e).
Proof.
  cbv zeta. unfold save_path, file_extension.
  change (str ".") with ["."%char].
  destruct (contains ["."%char] filename) eqn:E.
  - apply contains_char in E. split; [apply split_char_last|].
    split; [now apply path_join_relative|]. split; [tauto|].
    intros stem e -> He. now apply split_char_suffix.
  - split; [simpl; intuition discriminate|].
    split; [now apply path_join_relative|]. split; [reflexivity|].
    intros stem e -> _. exfalso.
    assert (H : contains ["."%char] (stem ++ "."%char :: e) = true).
    { apply contains_char, in_elt. }
    congruence.
Qed.

End ScanAnswers.

(** ** The rule-based fallback list and the recommendation endpoint *)

Module RecommendFacts.

Import Py Exc Config Json Recommend.

(** *** [_get_fallback_recommendations] *)

Lemma slice_to_positive {A : Type} (n : Z) (l : list A) :
  (1 <= n)%Z -> slice_to n l = firstn (Z.to_nat n) l.
Proof.
  intros Hn. unfold slice_to. destruct (n <? 0)%Z eqn:E; [|reflexivity].
  apply Z.ltb_lt in E. lia.
Qed.

Lemma firstn_length_bounds {A : Type} (n : Z) (l : list A) :
  (1 <= n)%Z -> l <> [] ->
  (1 <= Z.of_nat (length (firstn (Z.to_nat n) l)) <= n)%Z.
Proof.
  intros Hn Hl. rewrite length_firstn.
  destruct l as [|x l]; [congruence|]. simpl length. lia.
Qed.

Lemma sublist_filter_seed {A : Type} (f : A -> bool) (l : list A) :
  sublist (filter f l) l.
Proof.
  induction l as [|x l IH]; simpl; [constructor|].
  destruct (f x); now constructor.
Qed.

Lemma sublist_firstn {A : Type} (k : nat) (l : list A) : sublist (firstn k l) l.
Proof.
  revert l. induction k as [|k IH]; intros l; simpl; [apply sublist_nil_l|].
  destruct l as [|x l]; [constructor|]. constructor. apply IH.
Qed.

Lemma genre_matches_spec (genres : list pystr) (b : entry) :
  genre_matches (map lower genres) b = true ->
  exists g, In g genres /\ contains (lower g) (lower (genre b)) = true.
Proof.
  unfold genre_matches. intros H. apply existsb_exists in H.
  destruct H as (g' & Hin & Hc). apply in_map_iff in Hin.
  destruct Hin as (g & <- & Hg). eauto.
Qed.

Lemma genre_matches_complete (genres : list pystr) (b : entry) (g : pystr) :
  In g genres -> contains (lower g) (lower (genre b)) = true ->
  genre_matches (map lower genres) b = true.
Proof.
  intros Hg Hc. unfold genre_matches. apply existsb_exists.
  exists (lower g). split; [now apply in_map|exact Hc].
Qed.

(** The fallback list is never empty and never longer than the count asked
    for. *)
Lemma fallback_length_bounds (prefs : preferences) (n : Z) :
  (1 <= n)%Z ->
  (1 <= Z.of_nat (length (_get_fallback_recommendations prefs n)) <= n)%Z.
Proof.
  intros Hn. unfold _get_fallback_recommendations.
  rewrite slice_to_positive by exact Hn.
  destruct (favorite_genres prefs);
    [|destruct (filter _ fallback_books)];
    apply firstn_length_bounds; try exact Hn; discriminate.
Qed.

(** C6.  The comment above the branch reads "If no matches with user
    preferences, return the original list".  With the favourite genre
    "Poetry", which no seed entry matches, and N = 1 the original list
    gives the first seed entry; the entry returned is not that entry, nor
    any entry of the seed list: its reason is a shorter text. *)
Lemma no_match_entry_is_not_a_seed_entry :
  exists d,
    _get_fallback_recommendations {| favorite_genres := [str "Poetry"] |} 1 = [d] /\
    reason d = str "Popular contemporary fiction" /\
    hd_error fallback_books <> Some d /\
    forallb (fun b => negb (str_eqb (reason b) (reason d))) fallback_books = true.
Proof.
  eexists. split; [reflexivity|]. split; [reflexivity|]. split; [|reflexivity].
  simpl. intros H. inversion H.
Qed.

(** X26.  What the genre filter of the rule-based fallback keeps.  For
    every count N >= 1 the fallback returns between 1 and N entries.
    Without favourite genres these are the first N seed entries.  With
    favourite genres of which one occurs, letter case apart, in the genre
    of a seed entry, they are the first N of those seed entries, in seed
    order; each entry returned is a seed entry whose genre contains a
    favourite genre, and when N is at least the number of seed entries,
    every such seed entry is returned. *)
Theorem fallback_filters_by_genre (prefs : preferences) (n : Z) :
  (1 <= n)%Z ->
  let r := _get_fallback_recommendations prefs n in
  let matching :=
    filter (genre_matches (map lower (favorite_genres prefs))) fallback_books in
  (1 <= Z.of_nat (length r) <= n)%Z /\
  (favorite_genres prefs = [] -> r = firstn (Z.to_nat n) fallback_books) /\
  (favorite_genres prefs <> [] -> matching <> [] ->
   r = firstn (Z.to_nat n) matching /\ sublist r fallback_books /\
   Forall (fun b => exists g, In g (favorite_genres prefs) /\
                              contains (lower g) (lower (genre b)) = true) r /\
   ((Z.of_nat (length fallback_books) <= n)%Z ->
    forall b g, In b fallback_books -> In g (favorite_genres prefs) ->
                contains (lower g) (lower (genre b)) = true -> In b r)).
Proof.
  intros Hn r matching. subst r matching.
  unfold _get_fallback_recommendations. rewrite slice_to_positive by exact Hn.
  set (matching := filter (genre_matches (map lower (favorite_genres prefs)))
                     fallback_books).
  refine (conj _ (conj _ _)).
  - destruct (favorite_genres prefs); [|destruct matching];
      apply firstn_length_bounds; try exact Hn; discriminate.
  - intros ->. reflexivity.
  - intros Hg Hm. destruct (favorite_genres prefs) as [|g gs] eqn:Eg; [congruence|].
    destruct matching as [|m ms] eqn:E; [congruence|]. rewrite <- E.
    split; [reflexivity|]. split; [|split].
    + etransitivity; [apply sublist_firstn|apply sublist_filter_seed].
    + apply Forall_forall. intros b Hb.
      assert (Hb' : In b matching).
      { pose proof (firstn_skipn (Z.to_nat n) matching) as Hsplit.
        rewrite <- Hsplit. apply in_or_app. now left. }
      apply filter_In in Hb'. destruct Hb' as [_ Hmatch].
      now apply genre_matches_spec.
    + intros Hall b g' Hb Hg' Hc.
      assert (Hlen : (length matching <= length fallback_books)%nat)
        by apply filter_length_le.
      rewrite firstn_all2 by lia.
      apply filter_In. split; [exact Hb|].
      now apply (genre_matches_complete _ _ g').
Qed.

Lemma fallback_filters_by_genre_witness :
  (1 <= Z.of_nat (length (_get_fallback_recommendations
                            {| favorite_genres := [str "Memoir"] |} 3)) <= 3)%Z.
Proof.
  apply (fallback_filters_by_genre {| favorite_genres := [str "Memoir"] |} 3).
  lia.
Defined.

(** *** [generate_recommendations] *)

Section Endpoint.

Variable rejects : BookRecommendationResponse -> option pystr.

Lemma flush_rows_length (w : world) (rows : list BookRecommendation) :
  forall n, length (fst (flush_rows w rows n)) = length rows.
Proof.
  induction rows as [|r rows IH]; intros n; simpl; [reflexivity|].
  destruct (flush_row w r n) as [r' n'].
  specialize (IH n'). destruct (flush_rows w rows n') as [rows' n'']. simpl in *.
  now rewrite IH.
Qed.

Lemma flush_length (w : world) (s : db) :
  length (recommendations (flush w s)) = length (recommendations s).
Proof.
  unfold flush. pose proof (flush_rows_length w (recommendations s) (drawn s)) as H.
  destruct (flush_rows w (recommendations s) (drawn s)) as [rows n]. exact H.
Qed.

(** After a flush every row has its id. *)
Lemma flush_rows_ids (w : world) (rows : list BookRecommendation) :
  forall n, Forall (fun r => exists u, id r = Some u) (fst (flush_rows w rows n)).
Proof.
  induction rows as [|r rows IH]; intros n; simpl; [constructor|].
  destruct (flush_row w r n) as [r' n'] eqn:E.
  specialize (IH n'). destruct (flush_rows w rows n') as [rows' n'']. simpl in *.
  constructor; [|exact IH].
  unfold flush_row in E. destruct (id r) as [u|] eqn:Eid; inversion E; subst; simpl; eauto.
Qed.

Lemma flush_ids (w : world) (s : db) :
  Forall (fun r => exists u, id r = Some u) (recommendations (flush w s)).
Proof.
  unfold flush. pose proof (flush_rows_ids w (recommendations s) (drawn s)) as H.
  destruct (flush_rows w (recommendations s) (drawn s)) as [rows n]. exact H.
Qed.

Lemma hex_length (k : nat) : forall n, length (hex k n) = k.
Proof.
  induction k as [|k IH]; intros n; simpl; [reflexivity|].
  rewrite length_app, IH. simpl. lia.
Qed.

(** The text of a UUID has 36 characters. *)
Lemma uuid_str_length (u : uuid) : length (uuid_str u) = 36%nat.
Proof.
  unfold uuid_str. rewrite !length_app, !length_firstn, !length_skipn, hex_length.
  reflexivity.
Qed.

Lemma uuid_str_not_None (u : uuid) : uuid_str u <> str "None".
Proof.
  intros H. apply (f_equal (@length ascii)) in H.
  rewrite uuid_str_length in H. discriminate.
Qed.

(** One turn of the loop appends one entry, built from a row that has no id
    yet. *)
Lemma save_one_spec (w : world) (session : UserSession) (rq : request)
    (s s' : db) (out out' : list BookRecommendationResponse) (ai_rec : json) :
  save_one rejects w session rq (s, out) ai_rec = Ok (s', out') ->
  exists e, out' = out ++ [e] /\ fresh_entry e /\
            length (recommendations s') = S (length (recommendations s)).
Proof.
  unfold save_one. destruct (title_of ai_rec) as [[d t]|e]; simpl; [|discriminate].
  destruct (find_book s t) as [found|e]; simpl; [|discriminate].
  destruct found as [book|]; cbn [get_or_create];
    match goal with |- context [rejects ?r] => destruct (rejects r) end;
    try discriminate; intros H; inversion H; subst;
    eexists; (split; [reflexivity|split; [split; reflexivity|]]);
    unfold add_recommendation; cbn [recommendations]; rewrite length_app; simpl;
    rewrite ?flush_length; cbn [recommendations]; lia.
Qed.

Lemma save_all_spec (w : world) (session : UserSession) (rq : request)
    (items : list json) :
  forall (s s' : db) (out out' : list BookRecommendationResponse),
    save_all rejects w session rq items (s, out) = Ok (s', out') ->
    exists new, out' = out ++ new /\ length new = length items /\
                Forall fresh_entry new /\
                length (recommendations s') = (length (recommendations s) + length items)%nat.
Proof.
  induction items as [|ai_rec rest IH]; intros s s' out out' H; cbn [save_all] in H.
  - inversion H; subst. exists []. rewrite app_nil_r. repeat split; [constructor|simpl; lia].
  - destruct (save_one rejects w session rq (s, out) ai_rec) as [[s1 out1]|e] eqn:E1;
      cbn [bind] in H; [|discriminate].
    apply save_one_spec in E1. destruct E1 as (e & -> & He & Hrows1).
    apply IH in H. destruct H as (new & -> & Hlen & Hnew & Hrows).
    exists (e :: new). rewrite <- app_assoc. simpl.
    repeat split; [now rewrite Hlen|now constructor|lia].
Qed.

(** The loop after the commit rewrites no entry the loop before it built. *)
Lemma patch_up_None (last : option BookRecommendation)
    (out : list BookRecommendationResponse) :
  Forall (fun e => resp_id e = str "None") out -> patch_up last out = out.
Proof.
  unfold patch_up. induction 1 as [|e out He _ IH]; cbn [map]; [reflexivity|].
  rewrite He. change (str_eqb (str "None") (str "pending")) with false.
  cbn iota. f_equal. exact IH.
Qed.

Lemma patch_up_fresh (last : option BookRecommendation)
    (out : list BookRecommendationResponse) :
  Forall fresh_entry out -> patch_up last out = out.
Proof.
  intros H. apply patch_up_None. eapply Forall_impl; [|exact H]. now intros e [He _].
Qed.

(** What a call that returns went through. *)
Lemma generate_returns (w : world) (rq : request) (s : db)
    (out : list BookRecommendationResponse) :
  generate_recommendations rejects w rq = Return s out ->
  exists session prefs items s1,
    session_query w = Ok (Some session) /\ preferences_query w = Ok (Some prefs) /\
    iterate (choose w rq prefs) = Ok items /\
    save_all rejects w session rq items (stored w, []) = Ok (s1, out) /\
    s = flush w s1 /\ length out = length items /\ Forall fresh_entry out /\
    length (recommendations s)
    = (length (recommendations (stored w)) + length out)%nat.
Proof.
  unfold generate_recommendations, generate_body.
  destruct (session_query w) as [[session|]|e]; simpl; [|discriminate|discriminate].
  destruct (is_expired session); [discriminate|].
  destruct (preferences_query w) as [[prefs|]|e]; simpl; [|discriminate|discriminate].
  destruct (OpenAI.__init__ (settings w)) as [[]|e]; simpl; [|discriminate].
  destruct (iterate (choose w rq prefs)) as [items|e] eqn:Ei; simpl; [|discriminate].
  destruct (save_all rejects w session rq items (stored w, [])) as [[s1 out1]|e] eqn:E;
    simpl; [|discriminate].
  pose proof (save_all_spec _ _ _ _ _ _ _ _ E) as (new & E' & Hlen & Hnew & Hrows).
  simpl in E'. subst out1.
  rewrite (patch_up_fresh _ _ Hnew). intros H. inversion H; subst.
  exists session, prefs, items, s1. repeat split; auto.
  rewrite flush_length. lia.
Qed.

Lemma slice_to_length_le {A : Type} (n : Z) (l : list A) :
  (0 <= n)%Z -> (Z.of_nat (length (slice_to n l)) <= n)%Z.
Proof.
  intros Hn. unfold slice_to. destruct (n <? 0)%Z eqn:E.
  - apply Z.ltb_lt in E. lia.
  - rewrite length_firstn. lia.
Qed.

(** The list the loop goes through is never longer than the count asked
    for. *)
Lemma iterate_choose_length (w : world) (rq : request) (prefs : preferences)
    (items : list json) :
  (0 <= max_recommendations rq)%Z ->
  iterate (choose w rq prefs) = Ok items ->
  (Z.of_nat (length items) <= max_recommendations rq)%Z.
Proof.
  intros Hn. unfold choose, OpenAI.get_book_recommendations.
  assert (Hfb : forall items',
    iterate (JList (map as_dict
               (_get_fallback_recommendations prefs (max_recommendations rq))))
    = Ok items' ->
    (Z.of_nat (length items') <= max_recommendations rq)%Z).
  { intros items' H. inversion H; subst. rewrite length_map.
    unfold _get_fallback_recommendations. now apply slice_to_length_le. }
  destruct (generator w) as [e|[|v]]; simpl.
  - apply Hfb.
  - intros H. inversion H; subst. simpl. lia.
  - destruct v; simpl; try apply Hfb.
    + intros H. inversion H; subst. rewrite length_map. now apply slice_to_length_le.
    + intros H. inversion H; subst. now apply slice_to_length_le.
Qed.

(** C1, as amended.  For every call with a valid session, stored
    preferences, a configured API key and a count N with 1 <= N <= 20:
    when the primary generator returns malformed text, the fallback
    generator is not invoked and the returned sequence is empty; when the
    primary generator raises, the rule-based fallback supplies the entries
    to save, between 1 and N of them; and whenever the call returns, it
    returns at most N recommendations, each with recommendation_type
    "ai". *)
Theorem recommendations_at_most_n_typed_ai (w : world) (rq : request)
    (session : UserSession) (prefs : preferences) :
  session_query w = Ok (Some session) -> is_expired session = false ->
  preferences_query w = Ok (Some prefs) ->
  OpenAI.__init__ (settings w) = Ok tt ->
  (1 <= max_recommendations rq <= 20)%Z ->
  (generator w = OpenAI.Reply JSONDecodeError ->
   generate_recommendations rejects w rq = Return (flush w (stored w)) []) /\
  (forall e, generator w = OpenAI.Failed e ->
     let entries := _get_fallback_recommendations prefs (max_recommendations rq) in
     choose w rq prefs = JList (map as_dict entries) /\
     (1 <= Z.of_nat (length entries) <= max_recommendations rq)%Z) /\
  (forall s out, generate_recommendations rejects w rq = Return s out ->
     (Z.of_nat (length out) <= max_recommendations rq)%Z /\
     Forall (fun r => resp_recommendation_type r = str "ai") out).
Proof.
  intros Hs He Hp Ho Hn. refine (conj _ (conj _ _)).
  - intros Hg. unfold generate_recommendations, generate_body, choose.
    rewrite Hs. cbn [lift bind]. rewrite He, Hp. cbn [lift bind].
    rewrite Ho, Hg. reflexivity.
  - intros e Hg entries. subst entries. unfold choose. rewrite Hg. simpl.
    split; [reflexivity|].
    apply fallback_length_bounds. lia.
  - intros s out H. apply generate_returns in H.
    destruct H as (session' & prefs' & items & s1 & _ & _ & Hi & _ & _ & Hlen & Hf & _).
    split.
    + rewrite Hlen. apply (iterate_choose_length w rq prefs'); [lia|exact Hi].
    + eapply Forall_impl; [|exact Hf]. now intros r [_ Ht].
Qed.

(** C10.  In every turn of the loop the response entry is built from a
    recommendation row that has not been flushed: the row's id is [None],
    so the id handed to [BookRecommendationResponse] is the text "None",
    not the sentinel "pending" and not the text of a UUID; the turn then
    ends as the schema decides on that entry.  The loop after the commit
    rewrites no entry whose id is "None".  And whenever the call returns,
    every entry it returns carries the id "None", the call added one row
    per entry, every row has an id assigned by then, and no returned entry
    carries the id of any row. *)
Theorem response_ids_are_never_assigned :
  (forall (w : world) (session : UserSession) (rq : request) (s : db)
          (out : list BookRecommendationResponse) (ai_rec : json)
          (d : list (pystr * json)) (t : pystr) (found : option Book),
     title_of ai_rec = Ok (d, t) -> find_book s t = Ok found ->
     let book := fst (get_or_create w s d t found) in
     let s1 := snd (get_or_create w s d t found) in
     let recommendation := new_recommendation session rq d book in
     let response := new_response recommendation book in
     id recommendation = None /\
     resp_id response = str "None" /\
     resp_id response <> str "pending" /\
     (forall u, resp_id response <> uuid_str u) /\
     save_one rejects w session rq (s, out) ai_rec
     = match rejects response with
       | Some msg => Raise (Error (str "ValidationError") msg)
       | None => Ok (add_recommendation s1 recommendation, out ++ [response])
       end) /\
  (forall last out,
     Forall (fun e => resp_id e = str "None") out -> patch_up last out = out) /\
  (forall (w : world) (rq : request) (s : db) (out : list BookRecommendationResponse),
     generate_recommendations rejects w rq = Return s out ->
     Forall (fun e => resp_id e = str "None") out /\
     length (recommendations s) = (length (recommendations (stored w)) + length out)%nat /\
     Forall (fun r => exists u, id r = Some u) (recommendations s) /\
     (forall e r, In e out -> In r (recommendations s) -> resp_id e <> id_str (id r))).
Proof.
  refine (conj _ (conj _ _)).
  - intros w session rq s out ai_rec d t found Ht Hf book s1 recommendation response.
    subst book s1 recommendation response.
    refine (conj eq_refl (conj eq_refl (conj _ (conj _ _)))).
    + discriminate.
    + intros u E. symmetry in E. now apply uuid_str_not_None in E.
    + unfold save_one. rewrite Ht. cbn [bind]. rewrite Hf. cbn [bind].
      now destruct (get_or_create w s d t found).
  - intros last out H. apply patch_up_None. exact H.
  - intros w rq s out H. apply generate_returns in H.
    destruct H as (session & prefs & items & s1 & _ & _ & _ & _ & -> & _ & Hf & Hrows).
    assert (Hid : Forall (fun e => resp_id e = str "None") out).
    { eapply Forall_impl; [|exact Hf]. now intros e [Hid _]. }
    refine (conj Hid (conj Hrows (conj (flush_ids w s1) _))).
    intros e r He Hr. rewrite Forall_forall in Hid. rewrite (Hid e He).
    pose proof (flush_ids w s1) as Hids. rewrite Forall_forall in Hids.
    destruct (Hids r Hr) as [u Hu]. rewrite Hu. simpl.
    intros E. symmetry in E. now apply uuid_str_not_None in E.
Qed.

End Endpoint.

(** C1, counterexample.  The primary generator returns malformed text: the
    call returns no recommendation at all. *)
Lemma malformed_reply_returns_nothing :
  exists s out,
    generate_recommendations declared_checks
      (sample_world [str "Memoir"] (OpenAI.Reply JSONDecodeError)) (sample_request 3)
    = Return s out /\
    out = [] /\ ~ (1 <= length out)%nat.
Proof.
  eexists _, _. split; [reflexivity|]. split; [reflexivity|]. simpl. lia.
Qed.

(** With the checks the declared field types make, the first entry of any
    batch is refused: its row is not flushed yet, so [is_saved] is [None]
    and [created_at] is the text "pending".  The call then ends in an HTTP
    500 error, here on the fallback list. *)
Lemma declared_checks_refuse_unflushed_rows :
  generate_recommendations declared_checks
    (sample_world [str "fiction"]
       (OpenAI.Failed (Error (str "APIError") (str "service unavailable"))))
    (sample_request 3)
  = Raises 500
      (str "Error generating recommendations: 1 validation error for BookRecommendationResponse: is_saved").
Proof. reflexivity. Qed.

(** With the checks the declared field types make, no turn of the loop
    succeeds. *)
Lemma save_one_declared_checks (w : world) (session : UserSession) (rq : request)
    (st : db * list BookRecommendationResponse) (ai_rec : json) :
  exists e, save_one declared_checks w session rq st ai_rec = Raise e.
Proof.
  destruct st as [s out]. unfold save_one.
  destruct (title_of ai_rec) as [[d t]|e]; simpl; [|eauto].
  destruct (find_book s t) as [found|e]; simpl; [|eauto].
  destruct found as [book|]; cbn [get_or_create]; simpl; eauto.
Qed.

(** X6.  When [BookRecommendationResponse] enforces its declared field types, a
    call that returns returns no recommendation: any entry would be built
    from a row that is not flushed yet. *)
Theorem declared_checks_return_nothing (w : world) (rq : request) (s : db)
    (out : list BookRecommendationResponse) :
  generate_recommendations declared_checks w rq = Return s out -> out = [].
Proof.
  intros H. apply generate_returns in H.
  destruct H as (session & prefs & items & s1 & _ & _ & _ & Hsave & _ & Hlen & _).
  destruct items as [|ai_rec rest].
  - destruct out; [reflexivity|discriminate].
  - cbn [save_all] in Hsave.
    destruct (save_one_declared_checks w session rq (stored w, []) ai_rec) as [e He].
    rewrite He in Hsave. discriminate.
Qed.

Lemma declared_checks_return_nothing_witness :
  exists s out,
    generate_recommendations declared_checks
      (sample_world [str "Memoir"] (OpenAI.Reply JSONDecodeError)) (sample_request 3)
    = Return s out /\ out = [].
Proof.
  eexists _, _. split; [reflexivity|].
  apply (declared_checks_return_nothing
           (sample_world [str "Memoir"] (OpenAI.Reply JSONDecodeError))
           (sample_request 3)
           {| books := []; recommendations := []; drawn := 0 |}).
  reflexivity.
Defined.

Lemma recommendations_at_most_n_typed_ai_witness :
  generate_recommendations declared_checks
    (sample_world [str "Memoir"] (OpenAI.Reply JSONDecodeError)) (sample_request 3)
  = Return {| books := []; recommendations := []; drawn := 0 |} [].
Proof.
  apply (recommendations_at_most_n_typed_ai declared_checks
           (sample_world [str "Memoir"] (OpenAI.Reply JSONDecodeError))
           (sample_request 3)
           {| session_pk := 7%N; is_expired := false |}
           {| favorite_genres := [str "Memoir"] |});
    try reflexivity.
  simpl. lia.
Defined.

(** The first turn of the loop on the fallback entry "Educated", with the
    checks the declared field types make: the entry is built with the id
    "None" and is refused. *)
Lemma response_ids_are_never_assigned_witness :
  let w := sample_world [str "Memoir"]
             (OpenAI.Failed (Error (str "APIError") (str "service unavailable"))) in
  let session := {| session_pk := 7%N; is_expired := false |} in
  let d := [ (str "title", JStr (str "Educated"));
             (str "author", JStr (str "Tara Westover"));
             (str "reason", JStr (str "Critically acclaimed memoir about education and family"));
             (str "appeal_score", JFloat 0.9);
             (str "genre", JStr (str "Memoir"));
             (str "publication_year", JInt 2018) ] in
  let book := new_book w (stored w) d (str "Educated") in
  resp_id (new_response (new_recommendation session (sample_request 3) d book) book)
  = str "None" /\
  save_one declared_checks w session (sample_request 3) (stored w, []) (JDict d)
  = Raise (Error (str "ValidationError")
             (str "1 validation error for BookRecommendationResponse: is_saved")).
Proof.
  cbv zeta.
  pose proof (proj1 (response_ids_are_never_assigned declared_checks)
                (sample_world [str "Memoir"]
                   (OpenAI.Failed (Error (str "APIError") (str "service unavailable"))))
                {| session_pk := 7%N; is_expired := false |} (sample_request 3)
                {| books := []; recommendations := []; drawn := 0 |} []
                (JDict [ (str "title", JStr (str "Educated"));
                         (str "author", JStr (str "Tara Westover"));
                         (str "reason", JStr (str "Critically acclaimed memoir about education and family"));
                         (str "appeal_score", JFloat 0.9);
                         (str "genre", JStr (str "Memoir"));
                         (str "publication_year", JInt 2018) ])
                _ (str "Educated") None eq_refl eq_refl) as H.
  cbv zeta in H. destruct H as (_ & Hid & _ & _ & Hsave).
  split; [exact Hid|]. etransitivity; [exact Hsave|reflexivity].
Defined.

End RecommendFacts.

(** ** The recommendation endpoint: the fallback and the errors *)

Module RecommendAnswers.

Import Py Exc Config Json Recommend.

Section Endpoint.

Variable rejects : BookRecommendationResponse -> option pystr.

(** X13.  Without an OpenAI API key the call fails with HTTP 500 whatever
    the generator would answer: the service object is constructed outside
    the [try] whose handler calls the rule-based fallback, so the fallback
    is not reached. *)
Theorem fallback_needs_api_key (w : world) (rq : request) (session : UserSession)
    (prefs : preferences) :
  session_query w = Ok (Some session) -> is_expired session = false ->
  preferences_query w = Ok (Some prefs) ->
  is_set (OPENAI_API_KEY (settings w)) = false ->
  generate_recommendations rejects w rq
  = Raises 500 (str "Error generating recommendations: OpenAI API key not configured").
Proof.
  intros Hs He Hp Hk. unfold generate_recommendations, generate_body.
  rewrite Hs. cbn [lift bind]. rewrite He, Hp. cbn [lift bind].
  unfold OpenAI.__init__. rewrite Hk. reflexivity.
Qed.

(** X14.  A reply that decodes to a value that cannot be sliced (null, a
    truth value, a number, an object) makes [get_book_recommendations]
    raise, so the endpoint saves the rule-based fallback list, which has
    between 1 and N entries. *)
Theorem unsliceable_reply_uses_fallback (w : world) (rq : request)
    (prefs : preferences) (v : json) :
  generator w = OpenAI.Reply (Value v) -> sliceable v = false ->
  (1 <= max_recommendations rq)%Z ->
  let entries := _get_fallback_recommendations prefs (max_recommendations rq) in
  choose w rq prefs = JList (map as_dict entries) /\
  (1 <= Z.of_nat (length entries) <= max_recommendations rq)%Z.
Proof.
  intros Hg Hv Hn entries. subst entries. split.
  - unfold choose. rewrite Hg. destruct v; try discriminate; reflexivity.
  - now apply RecommendFacts.fallback_length_bounds.
Qed.

(** X15.  A reply that decodes to a text that is not empty is sliced like a
    list, and the loop then meets its characters: the call ends in an HTTP
    500 error and the fallback is not used. *)
Theorem text_reply_fails (w : world) (rq : request) (session : UserSession)
    (prefs : preferences) (c : ascii) (text : pystr) :
  session_query w = Ok (Some session) -> is_expired session = false ->
  preferences_query w = Ok (Some prefs) ->
  OpenAI.__init__ (settings w) = Ok tt ->
  generator w = OpenAI.Reply (Value (JStr (c :: text))) ->
  (1 <= max_recommendations rq)%Z ->
  exists msg,
    generate_recommendations rejects w rq
    = Raises 500 (str "Error generating recommendations: " ++ msg).
Proof.
  intros Hs He Hp Ho Hg Hn. unfold generate_recommendations, generate_body.
  rewrite Hs. cbn [lift bind]. rewrite He, Hp. cbn [lift bind].
  rewrite Ho. unfold choose. rewrite Hg. simpl.
  rewrite (RecommendFacts.slice_to_positive _ _ Hn).
  destruct (Z.to_nat (max_recommendations rq)) as [|k] eqn:Ek; [lia|].
  eexists. reflexivity.
Qed.

(** X16.  An error the endpoint raises tells its cause by its status: 404
    when the session or its preferences do not exist, 401 when the session
    is expired, and 500, with a detail that starts with "Error generating
    recommendations: ", when one of the two queries raises or when
    something fails after a valid session and its preferences were
    found. *)
Theorem generate_raised_statuses (w : world) (rq : request) (c : Z) (d : pystr) :
  generate_recommendations rejects w rq = Raises c d ->
  (c = 404%Z /\ d = str "Session not found" /\ session_query w = Ok None) \/
  (c = 401%Z /\ d = str "Session expired" /\
   exists s, session_query w = Ok (Some s) /\ is_expired s = true) \/
  (c = 404%Z /\ d = str "User preferences not found" /\
   (exists s, session_query w = Ok (Some s) /\ is_expired s = false) /\
   preferences_query w = Ok None) \/
  (c = 500%Z /\
   (exists msg, d = str "Error generating recommendations: " ++ msg) /\
   ((exists e, session_query w = Raise e) \/
    ((exists s, session_query w = Ok (Some s) /\ is_expired s = false) /\
     ((exists e, preferences_query w = Raise e) \/
      (exists prefs, preferences_query w = Ok (Some prefs)))))).
Proof.
  unfold generate_recommendations, generate_body.
  destruct (session_query w) as [[s|]|e]; cbn [lift bind].
  - destruct (is_expired s) eqn:He; [intros H; inversion H; right; left; eauto|].
    destruct (preferences_query w) as [[prefs|]|e]; cbn [lift bind].
    + match goal with
      | |- match ?m with _ => _ end = _ -> _ => destruct m as [[s' out]|[c' d'|e]] eqn:E
      end; [discriminate| |].
      * exfalso. destruct (OpenAI.__init__ (settings w)) as [[]|e]; simpl in E;
          [|discriminate].
        destruct (iterate (choose w rq prefs)) as [items|e]; simpl in E; [|discriminate].
        destruct (save_all rejects w s rq items (stored w, [])) as [[s1 out1]|e];
          simpl in E; discriminate.
      * intros H. inversion H; subst. right. right. right.
        split; [reflexivity|]. split; [eauto|]. right. split; [eauto|]. right. eauto.
    + intros H. inversion H; subst. right. right. left. eauto 10.
    + intros H. inversion H; subst. right. right. right.
      split; [reflexivity|]. split; [eauto|]. right. split; [eauto|]. left. eauto.
  - intros H. inversion H; subst. now left.
  - intros H. inversion H; subst. right. right. right.
    split; [reflexivity|]. split; [eauto|]. left. eauto.
Qed.

End Endpoint.

(** X12.  With the checks the declared field types of
    [BookRecommendationResponse] make, the rule-based fallback never
    reaches the caller: when the generator raises, for a valid session with
    preferences, an API key and a count of at least 1, the first entry
    built from the fallback list is refused and the call ends in an HTTP
    500 error. *)
Theorem fallback_is_never_returned (w : world) (rq : request) (session : UserSession)
    (prefs : preferences) (e : error) :
  session_query w = Ok (Some session) -> is_expired session = false ->
  preferences_query w = Ok (Some prefs) ->
  OpenAI.__init__ (settings w) = Ok tt ->
  generator w = OpenAI.Failed e ->
  (1 <= max_recommendations rq)%Z ->
  exists msg,
    generate_recommendations declared_checks w rq
    = Raises 500 (str "Error generating recommendations: " ++ msg).
Proof.
  intros Hs He Hp Ho Hg Hn. unfold generate_recommendations, generate_body.
  rewrite Hs. cbn [lift bind]. rewrite He, Hp. cbn [lift bind].
  rewrite Ho. cbn [lift bind]. unfold choose. rewrite Hg. cbn [OpenAI.get_book_recommendations iterate bind].
  pose proof (RecommendFacts.fallback_length_bounds prefs _ Hn) as [Hlo _].
  destruct (_get_fallback_recommendations prefs (max_recommendations rq)) as [|b bs];
    [simpl in Hlo; lia|].
  cbn [map save_all].
  destruct (RecommendFacts.save_one_declared_checks w session rq (stored w, []) (as_dict b))
    as [err Herr].
  rewrite Herr. cbn [bind lift]. eexists. reflexivity.
Qed.

Lemma fallback_is_never_returned_witness :
  exists msg,
    generate_recommendations declared_checks
      (sample_world [str "Memoir"]
         (OpenAI.Failed (Error (str "APIError") (str "service unavailable"))))
      (sample_request 3)
    = Raises 500 (str "Error generating recommendations: " ++ msg).
Proof.
  apply (fallback_is_never_returned
           (sample_world [str "Memoir"]
              (OpenAI.Failed (Error (str "APIError") (str "service unavailable"))))
           (sample_request 3)
           {| session_pk := 7%N; is_expired := false |}
           {| favorite_genres := [str "Memoir"] |}
           (Error (str "APIError") (str "service unavailable")));
    try reflexivity.
  simpl. lia.
Defined.

Lemma fallback_needs_api_key_witness :
  generate_recommendations declared_checks keyless_world (sample_request 3)
  = Raises 500 (str "Error generating recommendations: OpenAI API key not configured").
Proof.
  apply (fallback_needs_api_key declared_checks keyless_world (sample_request 3)
           {| session_pk := 7%N; is_expired := false |}
           {| favorite_genres := [str "Memoir"] |}); reflexivity.
Defined.

Lemma unsliceable_reply_uses_fallback_witness :
  choose (sample_world [str "Memoir"]
            (OpenAI.Reply (Value (JDict [(str "error", JStr (str "rate limit"))]))))
         (sample_request 3) {| favorite_genres := [str "Memoir"] |}
  = JList (map as_dict
             (_get_fallback_recommendations {| favorite_genres := [str "Memoir"] |} 3)).
Proof.
  apply (unsliceable_reply_uses_fallback
           (sample_world [str "Memoir"]
              (OpenAI.Reply (Value (JDict [(str "error", JStr (str "rate limit"))]))))
           (sample_request 3) {| favorite_genres := [str "Memoir"] |}
           (JDict [(str "error", JStr (str "rate limit"))]));
    [reflexivity|reflexivity|simpl; lia].
Defined.

Lemma text_reply_fails_witness :
  exists msg,
    generate_recommendations declared_checks
      (sample_world [str "Memoir"] (OpenAI.Reply (Value (JStr (str "Sorry, I cannot help")))))
      (sample_request 3)
    = Raises 500 (str "Error generating recommendations: " ++ msg).
Proof.
  apply (text_reply_fails declared_checks
           (sample_world [str "Memoir"]
              (OpenAI.Reply (Value (JStr (str "Sorry, I cannot help")))))
           (sample_request 3)
           {| session_pk := 7%N; is_expired := false |}
           {| favorite_genres := [str "Memoir"] |}
           "S"%char (str "orry, I cannot help"));
    try reflexivity.
  simpl. lia.
Defined.

Lemma generate_raised_statuses_witness :
  generate_recommendations declared_checks session_down_world (sample_request 3)
  = Raises 500 (str "Error generating recommendations: connection refused") /\
  exists e, session_query session_down_world = Raise e.
Proof.
  split; [reflexivity|].
  destruct (generate_raised_statuses declared_checks session_down_world (sample_request 3) 500
              (str "Error generating recommendations: connection refused")
              eq_refl)
    as [(H & _)|[(H & _)|[(H & _)|(_ & _ & [H|((s & H & _) & _)])]]];
    [discriminate H|discriminate H|discriminate H|exact H|discriminate H].
Defined.

End RecommendAnswers.
(** ** Tracking interactions *)

Module InteractionFacts.

Import Py Exc Interaction.

Lemma update_keeps_marks (now : Z) (ty : pystr) (r : BookRecommendation) :
  keeps_marks r (update now ty r).
Proof.
  unfold update, keeps_marks.
  repeat match goal with |- context [if ?b then _ else _] => destruct b end;
    simpl; repeat split; auto; discriminate.
Qed.

Lemma str_in_known (ty : pystr) :
  str_in ty known_types = false ->
  str_eqb ty (str "viewed") = false /\ str_eqb ty (str "saved") = false /\
  str_eqb ty (str "interested") = false /\ str_eqb ty (str "purchased") = false.
Proof.
  unfold str_in, known_types. cbn [map existsb].
  rewrite !orb_false_iff. tauto.
Qed.

(** X23.  No interaction removes a mark: whatever the interaction type,
    a recommendation that was viewed, saved, marked as interesting or
    purchased before a tracked interaction is so afterwards. *)
Theorem interactions_never_remove_marks (w : world) (i : BookInteractionRequest)
    (r r' : BookRecommendation) (m : pystr) :
  rec_query w (recommendation_id i) = Ok (Some r) ->
  track_interaction w i = Return m r' ->
  keeps_marks r r'.
Proof.
  unfold track_interaction, track_body. intros ->. cbn [lift bind].
  destruct (commit w); cbn [lift bind]; [|discriminate].
  intros H. inversion H. apply update_keeps_marks.
Qed.

(** X24.  An interaction type the endpoint does not know is answered as
    tracked, with the type quoted in the message, while the row is
    committed as it was found. *)
Theorem unknown_interaction_is_accepted (w : world) (i : BookInteractionRequest)
    (r : BookRecommendation) :
  rec_query w (recommendation_id i) = Ok (Some r) ->
  commit w = Ok tt ->
  str_in (interaction_type i) known_types = false ->
  track_interaction w i
  = Return (str "Interaction '" ++ interaction_type i ++ str "' tracked successfully") r.
Proof.
  intros Hq Hc Hk. apply str_in_known in Hk. destruct Hk as (H1 & H2 & H3 & H4).
  unfold track_interaction, track_body. rewrite Hq. cbn [lift bind].
  rewrite Hc. cbn [lift bind]. unfold update. now rewrite H1, H2, H3, H4.
Qed.

(** X25.  [track_interaction] raises with status 404 exactly when the
    query finds no recommendation, and with status 500 exactly when the
    query or the commit raises; otherwise it returns. *)
Theorem track_raised_statuses (w : world) (i : BookInteractionRequest) :
  match track_interaction w i with
  | Return _ _ =>
      (exists r, rec_query w (recommendation_id i) = Ok (Some r)) /\ commit w = Ok tt
  | Raises status_code _ =>
      (status_code = 404%Z /\ rec_query w (recommendation_id i) = Ok None) \/
      (status_code = 500%Z /\
       ((exists e, rec_query w (recommendation_id i) = Raise e) \/
        (exists r e, rec_query w (recommendation_id i) = Ok (Some r) /\
                     commit w = Raise e)))
  end.
Proof.
  unfold track_interaction, track_body.
  destruct (rec_query w (recommendation_id i)) as [[r|]|e]; cbn [lift bind].
  - destruct (commit w) as [[]|e]; cbn [lift bind].
    + split; [now exists r|reflexivity].
    + right. split; [reflexivity|]. right. now exists r, e.
  - left. now split.
  - right. split; [reflexivity|]. left. now exists e.
Qed.

(** A saved recommendation is viewed: it is still saved afterwards. *)
Lemma interactions_never_remove_marks_witness :
  keeps_marks saved_row
    {| viewed_at := Some 1700000000%Z; is_saved := Some true;
       is_interested := None; is_purchased := Some false |}.
Proof.
  apply (interactions_never_remove_marks (world_with saved_row)
           {| recommendation_id := str "7d444840-9dc0-11d1-b245-5ffdce74fad2";
              interaction_type := str "viewed" |}
           saved_row _ (str "Interaction 'viewed' tracked successfully"));
    reflexivity.
Defined.

Lemma unknown_interaction_is_accepted_witness :
  track_interaction sample_world
    {| recommendation_id := str "7d444840-9dc0-11d1-b245-5ffdce74fad2";
       interaction_type := str "shared" |}
  = Return (str "Interaction 'shared' tracked successfully") untouched.
Proof.
  apply (unknown_interaction_is_accepted sample_world
           {| recommendation_id := str "7d444840-9dc0-11d1-b245-5ffdce74fad2";
              interaction_type := str "shared" |} untouched); reflexivity.
Defined.

End InteractionFacts.

